(** * The compliance chat agent: retrieval, context assembly and session state

    A shallow embedding of [ChatAgent] (src/src/index.ts, second module of the
    file): [getDocumentContent], [extractRelevantPortion] and [fetch], with the
    JavaScript string operations they rely on.

    Conventions.
    - A JavaScript string is the list of its code units; the development
      covers code units below 256 (Latin-1), which is where [toLowerCase],
      [\s] and [\d] are spelled out.
    - [await] is sequential composition.  The callbacks of the
      [Promise.all] of the similarity search share the set of contents seen:
      they start in array order and the reads they wait for are delivered in
      an order that the runtime chooses.
    - Numbers that the agent only copies (similarity scores, the sampling
      temperature) are rationals; every finite double is one. *)

From Stdlib Require Import Ascii String.
From Stdlib Require Import List Bool Arith ZArith QArith Lia Lqa Sorted Permutation.
From Stdlib Require Import DecimalString.
Import ListNotations.

Set Warnings "-abstract-large-number".

Local Open Scope nat_scope.
Local Open Scope list_scope.

(** ** JavaScript strings *)

Module JS.

Definition str : Type := list ascii.

Definition lit (s : string) : str := list_ascii_of_string s.

Definition code (c : ascii) : N := N_of_ascii c.

Definition LF : ascii := ascii_of_N 10.
Definition DQUOTE : ascii := ascii_of_N 34.

Fixpoint str_eqb (a b : str) : bool :=
  match a, b with
  | [], [] => true
  | x :: a', y :: b' => Ascii.eqb x y && str_eqb a' b'
  | _, _ => false
  end.

Definition between (lo hi n : N) : bool := (lo <=? n)%N && (n <=? hi)%N.

(** [\s]: TAB, LF, VT, FF, CR, SP and NBSP. *)
Definition isWhiteSpace (c : ascii) : bool :=
  let n := code c in
  between 9 13 n || (n =? 32)%N || (n =? 160)%N.

(** [\d] *)
Definition isDigit (c : ascii) : bool := between 48 57 (code c).

(** [[A-Z]] under the [i] flag. *)
Definition isLetter (c : ascii) : bool :=
  let n := code c in between 65 90 n || between 97 122 n.

Definition toLowerChar (c : ascii) : ascii :=
  let n := code c in
  if between 65 90 n || (between 192 222 n && negb (n =? 215)%N)
  then ascii_of_N (n + 32) else c.

(** [s.toLowerCase()] *)
Definition toLowerCase (s : str) : str := map toLowerChar s.

(** [s.substring(0, n)] *)
Definition substring0 (n : nat) (s : str) : str := firstn n s.

(** [s.startsWith(w)] *)
Fixpoint startsWith (w s : str) : bool :=
  match w, s with
  | [], _ => true
  | _ :: _, [] => false
  | a :: w', b :: s' => Ascii.eqb a b && startsWith w' s'
  end.

(** [s.includes(w)] *)
Fixpoint includes (s w : str) : bool :=
  startsWith w s ||
  match s with
  | [] => false
  | _ :: s' => includes s' w
  end.

(** [s.split(sep)] for a one-character separator: the pieces between the
    separators, empty pieces included. *)
Fixpoint splitOn (sep : ascii) (s : str) : list str :=
  match s with
  | [] => [[]]
  | c :: s' =>
      if Ascii.eqb c sep then [] :: splitOn sep s'
      else
        match splitOn sep s' with
        | piece :: pieces => (c :: piece) :: pieces
        | [] => [[c]]
        end
  end.

(** [s.split(/\s+/)]: the pieces between maximal runs of white space; a
    leading or trailing run yields an empty piece.  [inRun] tells that the
    previous character was white space. *)
Fixpoint splitWsFrom (inRun : bool) (s : str) : list str :=
  match s with
  | [] => [[]]
  | c :: s' =>
      if isWhiteSpace c
      then (if inRun then splitWsFrom true s' else [] :: splitWsFrom true s')
      else
        match splitWsFrom false s' with
        | piece :: pieces => (c :: piece) :: pieces
        | [] => [[c]]
        end
  end.

Definition splitWs (s : str) : list str := splitWsFrom false s.

(** [a.join(sep)] *)
Fixpoint join (sep : str) (a : list str) : str :=
  match a with
  | [] => []
  | [x] => x
  | x :: rest => x ++ sep ++ join sep rest
  end.

(** [a.slice(-n)]: the last [n] elements. *)
Definition sliceLast {A : Type} (n : nat) (a : list A) : list A :=
  skipn (length a - n) a.

End JS.

Import JS.

(** ** The section-marker test of the extractor

    [/section\s+\d+|[A-Z]\.\d+/i.test(line)].  White space and digits are
    disjoint classes, so the greedy [\s+] never has to give a character back. *)

Module SectionMarker.

Fixpoint skipWhiteSpace (s : str) : str :=
  match s with
  | c :: s' => if isWhiteSpace c then skipWhiteSpace s' else s
  | [] => []
  end.

Definition headIs (p : ascii -> bool) (s : str) : bool :=
  match s with
  | c :: _ => p c
  | [] => false
  end.

(** [section\s+\d+] anchored at the head of [s]. *)
Definition sectionHere (s : str) : bool :=
  let w := lit "section" in
  startsWith w (toLowerCase (firstn (length w) s)) &&
  (let rest := skipn (length w) s in
   headIs isWhiteSpace rest && headIs isDigit (skipWhiteSpace rest)).

(** [[A-Z]\.\d+] anchored at the head of [s]. *)
Definition letterDotDigitHere (s : str) : bool :=
  match s with
  | a :: b :: c :: _ => isLetter a && (code b =? 46)%N && isDigit c
  | _ => false
  end.

Fixpoint test (line : str) : bool :=
  sectionHere line || letterDotDigitHere line ||
  match line with
  | [] => false
  | _ :: rest => test rest
  end.

End SectionMarker.

(** ** Relevance extractor: [ChatAgent.extractRelevantPortion] *)

Module Extractor.

Record ScoredLine := mkScoredLine {
  line : str;
  score : nat;
  idx : nat
}.

(** [query.toLowerCase().split(/\s+/).filter(w => w.length > 3)] *)
Definition queryWords (query : str) : list str :=
  filter (fun w => 3 <? length w) (splitWs (toLowerCase query)).

Definition keywordScore (words : list str) (l : str) : nat :=
  let lowerLine := toLowerCase l in
  fold_left
    (fun score word => if includes lowerLine word then score + 10 else score)
    words 0.

Definition lineScore (words : list str) (l : str) : nat :=
  let score := keywordScore words l in
  if SectionMarker.test l then score + 5 else score.

Fixpoint scoreFrom (words : list str) (i : nat) (ls : list str)
  : list ScoredLine :=
  match ls with
  | [] => []
  | l :: rest => mkScoredLine l (lineScore words l) i :: scoreFrom words (S i) rest
  end.

(** [lines.map((line, idx) => ...)] *)
Definition scoredLines (words : list str) (lines : list str) : list ScoredLine :=
  scoreFrom words 0 lines.

(** [Set.prototype.add] on an insertion-ordered set of numbers. *)
Definition setAdd (i : nat) (s : list nat) : list nat :=
  if existsb (Nat.eqb i) s then s else s ++ [i].

(** The window of line numbers around one hit:
    [Math.max(0, idx - 10) .. Math.min(lines.length - 1, idx + 10)]. *)
Definition window (nlines : nat) (i : nat) : list nat :=
  let lo := i - 10 in
  let hi := Nat.min (nlines - 1) (i + 10) in
  seq lo (hi + 1 - lo).

Definition collectIndices (nlines : nat) (relevant : list ScoredLine) : list nat :=
  fold_left
    (fun indices r => fold_left (fun s i => setAdd i s) (window nlines (idx r)) indices)
    relevant [].

Fixpoint insertAsc (x : nat) (l : list nat) : list nat :=
  match l with
  | [] => [x]
  | y :: l' => if x <? y then x :: l else y :: insertAsc x l'
  end.

(** [Array.from(indices).sort((a, b) => a - b)] *)
Definition sortAsc (l : list nat) : list nat :=
  fold_left (fun acc x => insertAsc x acc) l [].

Definition chunkText (lines : list str) (chunk : list nat) : str :=
  join [LF] (map (fun ci => nth ci lines []) chunk).

(** The [forEach] that cuts the sorted line numbers into runs of consecutive
    numbers; [prev] is [sortedIndices[i-1]], absent when [i === 0]. *)
Fixpoint cutChunks (lines : list str) (sorted : list nat) (prev : option nat)
  (chunks : list str) (currentChunk : list nat) : list str * list nat :=
  match sorted with
  | [] => (chunks, currentChunk)
  | i :: rest =>
      let continues :=
        match prev with
        | None => true
        | Some p => i =? p + 1
        end in
      if continues
      then cutChunks lines rest (Some i) chunks (currentChunk ++ [i])
      else cutChunks lines rest (Some i)
             (chunks ++ [chunkText lines currentChunk]) [i]
  end.

Definition buildChunks (lines : list str) (sorted : list nat) : list str :=
  let '(chunks, currentChunk) := cutChunks lines sorted None [] [] in
  if 0 <? length currentChunk
  then chunks ++ [chunkText lines currentChunk]
  else chunks.

Definition elision : str := [LF] ++ lit "..." ++ [LF].

Definition extractRelevantPortion (content query : str) : str :=
  if length content <=? 8000 then content
  else
    let words := queryWords query in
    let lines := splitOn LF content in
    let relevant := filter (fun l => 0 <? score l) (scoredLines words lines) in
    if length relevant =? 0 then substring0 6000 content
    else
      let sortedIndices := sortAsc (collectIndices (length lines) relevant) in
      substring0 6000 (join elision (buildChunks lines sortedIndices)).

End Extractor.

(** ** Regular expressions built from a query term

    The lexical scorer evaluates [lowerContent.match(new RegExp(w, 'g'))] with
    the query term [w] as the pattern source.  Patterns made of ordinary
    characters, [.] and the greedy quantifiers [?], [*] and [+] are
    interpreted here; a quantifier with nothing to repeat is the engine's
    [SyntaxError]; any other pattern syntax is left to the engine, which the
    agent's environment supplies. *)

Module RegExp.

Inductive atom :=
| Lit (c : ascii)
| Dot.

Inductive quantifier := One | Opt | Star | Plus.

Definition pattern : Type := list (atom * quantifier).

Inductive compiled :=
| Compiled (p : pattern)
| SyntaxError
| Beyond.

Definition isQuantifierChar (c : ascii) : bool :=
  let n := code c in ((n =? 42) || (n =? 43) || (n =? 63))%N.

(** [^ $ \ ( ) [ ] { } |] *)
Definition isOtherSyntaxChar (c : ascii) : bool :=
  let n := code c in
  ((n =? 94) || (n =? 36) || (n =? 92) || (n =? 40) || (n =? 41) ||
   (n =? 91) || (n =? 93) || (n =? 123) || (n =? 125) || (n =? 124))%N.

Definition quantifierOf (c : ascii) : quantifier :=
  let n := code c in
  if (n =? 63)%N then Opt else if (n =? 42)%N then Star else Plus.

Definition consCompiled (t : atom * quantifier) (r : compiled) : compiled :=
  match r with
  | Compiled p => Compiled (t :: p)
  | other => other
  end.

(** [new RegExp(src, 'g')]: the parser reads one term (an atom and its
    quantifier, if any) at a time. *)
Fixpoint compile (src : str) : compiled :=
  match src with
  | [] => Compiled []
  | c :: rest =>
      if isQuantifierChar c then SyntaxError
      else if isOtherSyntaxChar c then Beyond
      else
        let a := if (code c =? 46)%N then Dot else Lit c in
        match rest with
        | q :: rest' =>
            if isQuantifierChar q then
              match rest' with
              | l :: _ =>
                  if (code l =? 63)%N then Beyond
                  else consCompiled (a, quantifierOf q) (compile rest')
              | [] => Compiled [(a, quantifierOf q)]
              end
            else consCompiled (a, One) (compile rest)
        | [] => Compiled [(a, One)]
        end
  end.

Definition isLineTerminator (c : ascii) : bool :=
  let n := code c in ((n =? 10) || (n =? 13))%N.

Definition atomMatch (a : atom) (c : ascii) : bool :=
  match a with
  | Lit x => Ascii.eqb x c
  | Dot => negb (isLineTerminator c)
  end.

(** Greedy repetition: one more character is tried before the continuation. *)
Fixpoint matchStar (a : atom) (rest : str -> option nat) (s : str) : option nat :=
  match s with
  | c :: s' =>
      if atomMatch a c then
        match matchStar a rest s' with
        | Some n => Some (S n)
        | None => rest s
        end
      else rest s
  | [] => rest []
  end.

(** The length of the match of [p] anchored at the head of [s], found by
    backtracking in priority order. *)
Fixpoint matchHere (p : pattern) : str -> option nat :=
  match p with
  | [] => fun _ => Some 0
  | (a, q) :: p' =>
      let rest := matchHere p' in
      match q with
      | One => fun s =>
          match s with
          | c :: s' => if atomMatch a c then option_map S (rest s') else None
          | [] => None
          end
      | Opt => fun s =>
          match s with
          | c :: s' =>
              if atomMatch a c then
                match rest s' with
                | Some n => Some (S n)
                | None => rest s
                end
              else rest s
          | [] => rest []
          end
      | Star => matchStar a rest
      | Plus => fun s =>
          match s with
          | c :: s' => if atomMatch a c then option_map S (matchStar a rest s') else None
          | [] => None
          end
      end
  end.

(** The scan of a global match.  [skip] counts the characters of the previous
    match that are still to be passed; after an empty match the scan moves on
    by one character.  A match is also attempted at the end of the subject. *)
Fixpoint scanFrom (m : str -> option nat) (skip : nat) (s : str) : nat :=
  match s with
  | [] =>
      match skip with
      | 0 => match m [] with Some _ => 1 | None => 0 end
      | S _ => 0
      end
  | _ :: s' =>
      match skip with
      | S k => scanFrom m k s'
      | 0 =>
          match m s with
          | Some n => S (scanFrom m (n - 1) s')
          | None => scanFrom m 0 s'
          end
      end
  end.

(** [(subject.match(re) || []).length] for a global [re]. *)
Definition matchCount (p : pattern) (subject : str) : nat :=
  scanFrom (matchHere p) 0 subject.

End RegExp.

(** ** Data of the agent *)

(** What a JavaScript [throw] carries: an [Error] with its message, or some
    other value. *)
Inductive exn :=
| ErrorObject (message : str)
| Thrown.

Inductive Result (A : Type) :=
| Ok (a : A)
| Err (e : exn).

Arguments Ok {A} a.
Arguments Err {A} e.

Module Chat.

Inductive Role := system | user | assistant.

(** [interface ChatMessage] *)
Record Message := mkMessage {
  role : Role;
  content : str;
  timestamp : Z
}.

End Chat.

Module Meta.

(** The [title] and [type] that the agent reads from a document's metadata. *)
Record t := mk {
  title : str;
  type : str
}.

End Meta.

Module Vector.

Definition Embedding : Type := list Q.

(** One entry of [searchResults.matches]. *)
Record Match := mkMatch {
  id : str;
  score : Q;
  metadata : option Meta.t
}.

(** The value of [ai.run('@cf/baai/bge-base-en-v1.5', ...)]. *)
Record EmbeddingResponse := mkEmbeddingResponse {
  data : option (list Embedding)
}.

Record QueryResult := mkQueryResult {
  matches : option (list Match)
}.

(** [env.DOCS_VECTORDB]: undefined, a value without a callable [query], or an
    index whose [query(vector, {topK, returnMetadata})] returns or throws. *)
Inductive Binding :=
| Missing
| Malformed
| Index (query : option Embedding -> nat -> bool -> Result QueryResult).

End Vector.

Module Search.

(** [interface SearchResult], the shape of the entries of [validResults]. *)
Record t := mk {
  documentId : str;
  content : str;
  score : Q;
  metadata : option Meta.t
}.

End Search.

Module Citation.

Record t := mk {
  title : str;
  type : str;
  relevanceScore : Q
}.

End Citation.

(** The shapes [ai.run('@cf/meta/llama-2-7b-chat-int8', ...)] may return: a
    string, a stream (its decoded chunks), an object with a [response] field,
    or anything else (its [JSON.stringify] text). *)
Inductive AiResponse :=
| AiString (s : str)
| AiStream (chunks : list str)
| AiObject (response : str)
| AiOther (json : str).

Record R2Bucket := mkR2Bucket {
  r2_get : str -> Result (option str)
}.

Record KVNamespace := mkKVNamespace {
  kv_get : str -> Result (option str);
  kv_list : str -> Result (list str)
}.

(** The bindings of the Durable Object together with the parts of the runtime
    that are not interpreted here: [JSON.parse] on a metadata record, the
    regular-expression engine on patterns beyond [RegExp.compile], the
    successive readings of [Date.now()], and the order in which the reads
    started by the callbacks of one [Promise.all] are delivered: at the
    [k]-th delivery the callback resumed is the one at position
    [Promise_order k], modulo their number, among those still waiting. *)
Record Env := mkEnv {
  AI_embed : str -> Result Vector.EmbeddingResponse;
  AI_generate : list Chat.Message -> Result AiResponse;
  DOCS_VECTORDB : Vector.Binding;
  COMPLIANCE_DOCS : option R2Bucket;
  COMPLIANCE_KV : option KVNamespace;
  JSON_parse : str -> Result Meta.t;
  RegExp_engine : str -> str -> Result nat;
  Date_now : nat -> Z;
  Promise_order : nat -> nat
}.

(** Calls that leave the agent. *)
Inductive Call :=
| StorageGet
| StoragePut (value : list Chat.Message)
| RunEmbedding (text : str)
| VectorQuery (vector : option Vector.Embedding) (topK : nat) (returnMetadata : bool)
| R2Get (key : str)
| KVGet (key : str)
| KVList (prefix : str)
| RunChat (messages : list Chat.Message) (temperature : Q) (max_tokens : nat).

(** The state a request runs in: the value stored under ['history'] in the
    object's durable storage, the calls made so far, and the number of clock
    readings taken. *)
Record World := mkWorld {
  history : option (list Chat.Message);
  calls : list Call;
  ticks : nat
}.

Inductive Body :=
| TextBody (text : str)
| ChatBody (response : str) (context : list Citation.t)
    (documentsFound contextLength promptLength : nat)
| ErrorBody (error details : str).

Record Response := mkResponse {
  status : nat;
  body : Body
}.

(** ** Effects: state, trace and exceptions *)

Definition M (A : Type) : Type := World -> Result A * World.

Definition ret {A : Type} (a : A) : M A := fun w => (Ok a, w).

Definition bind {A B : Type} (m : M A) (k : A -> M B) : M B :=
  fun w =>
    match m w with
    | (Ok a, w') => k a w'
    | (Err e, w') => (Err e, w')
    end.

Definition throw {A : Type} (e : exn) : M A := fun w => (Err e, w).

(** [try { m } catch (e) { h e }] *)
Definition tryCatch {A : Type} (m : M A) (h : exn -> M A) : M A :=
  fun w =>
    match m w with
    | (Ok a, w') => (Ok a, w')
    | (Err e, w') => h e w'
    end.

Declare Scope agent_scope.
Delimit Scope agent_scope with agent.

Notation "x <- m ;; k" := (bind m (fun x => k))
  (at level 100, m at next level, right associativity) : agent_scope.
Notation "m ;;; k" := (bind m (fun _ => k))
  (at level 100, right associativity) : agent_scope.

Local Open Scope agent_scope.

Definition emit (c : Call) : M unit :=
  fun w => (Ok tt, mkWorld (history w) (calls w ++ [c]) (ticks w)).

Definition lift {A : Type} (r : Result A) : M A := fun w => (r, w).

(** An awaited call to a collaborator: the call is made, then its outcome is
    a value or a throw. *)
Definition await {A : Type} (c : Call) (r : Result A) : M A :=
  emit c ;;; lift r.

Definition storageGet : M (option (list Chat.Message)) :=
  fun w => (Ok (history w), mkWorld (history w) (calls w ++ [StorageGet]) (ticks w)).

Definition storagePut (value : list Chat.Message) : M unit :=
  fun w => (Ok tt, mkWorld (Some value) (calls w ++ [StoragePut value]) (ticks w)).

(** [Date.now()] *)
Definition now (env : Env) : M Z :=
  fun w => (Ok (Date_now env (ticks w)), mkWorld (history w) (calls w) (S (ticks w))).

(** The [TypeError] of reading [property] of [undefined], with the message
    of the engine. *)
Definition typeError (property : str) : exn :=
  ErrorObject
    (lit "Cannot read properties of undefined (reading '" ++ property ++ lit "')").

(** The [SyntaxError] of [new RegExp] and of [JSON.parse].  It is caught
    wherever it is thrown here and its message is never read, so the
    message is left out. *)
Definition syntaxError : exn := ErrorObject (lit "SyntaxError").

(** ** The agent *)

Module ChatAgent.

Definition SYSTEM_PROMPT : str :=
  lit "You are a Data Privacy Compliance Officer. You must ONLY use information from the documents provided below.

ABSOLUTE RULES:
- ONLY cite information that appears in the document text below
- If you see a section number in the document (like " ++ [DQUOTE] ++ lit "Section 2" ++ [DQUOTE]
  ++ lit " or " ++ [DQUOTE] ++ lit "B.1" ++ [DQUOTE] ++ lit "), use it
- Quote the exact text from the document
- If the answer is not in the document, say " ++ [DQUOTE]
  ++ lit "This information is not in the provided policy" ++ [DQUOTE] ++ lit "
- DO NOT use any information from your training data
- DO NOT make up section numbers or quotes".

(** [getDocumentContent(docId)]: the blob store first, the key/value store
    second; any throw on the way yields [null]. *)
Definition getDocumentContent (env : Env) (docId : str) : M (option str) :=
  let fromKV : M (option str) :=
    match COMPLIANCE_KV env with
    | Some kv =>
        let key := lit "doc:" ++ docId ++ lit ":content" in
        await (KVGet key) (kv_get kv key)
    | None => ret None
    end in
  tryCatch
    (match COMPLIANCE_DOCS env with
     | Some bucket =>
         let key := docId ++ lit ".txt" in
         obj <- await (R2Get key) (r2_get bucket key) ;;
         match obj with
         | Some content => ret (Some content)
         | None => fromKV
         end
     | None => fromKV
     end)
    (fun _ => ret None).

Definition extractRelevantPortion : str -> str -> str :=
  Extractor.extractRelevantPortion.

(** *** Similarity search (the block guarded by the capability check) *)

(** [seenContent.has(h)] on a [Set<string>] *)
Definition has (h : str) (seen : list str) : bool := existsb (str_eqb h) seen.

(** The read that a callback of [searchResults.matches.map] is waiting for
    inside [getDocumentContent], with what the read is going to deliver. *)
Inductive Read :=
| BlobRead (obj : Result (option str))
| KVRead (content : Result (option str)).

(** A callback of [searchResults.matches.map]: suspended at a read, or
    returned; [None] stands for [null]. *)
Inductive Callback :=
| Suspended (m : Vector.Match) (read : Read)
| Returned (result : option Search.t).

(** [getDocumentContent] from its fallback on, up to the read. *)
Definition readKV (env : Env) (docId : str) : M (option Read) :=
  match COMPLIANCE_KV env with
  | Some kv =>
      let key := lit "doc:" ++ docId ++ lit ":content" in
      emit (KVGet key) ;;; ret (Some (KVRead (kv_get kv key)))
  | None => ret None
  end.

(** [getDocumentContent] up to its first read. *)
Definition readContent (env : Env) (docId : str) : M (option Read) :=
  match COMPLIANCE_DOCS env with
  | Some bucket =>
      let key := docId ++ lit ".txt" in
      emit (R2Get key) ;;; ret (Some (BlobRead (r2_get bucket key)))
  | None => readKV env docId
  end.

(** The callback from [content] on: no [await] separates the test of
    [seenContent] from its update. *)
Definition finish (m : Vector.Match) (content : option str) (seenContent : list str)
  : Callback * list str :=
  match content with
  | Some (c :: cs) =>
      let text := c :: cs in
      let contentHash := substring0 200 text in
      if has contentHash seenContent then (Returned None, seenContent)
      else (Returned (Some (Search.mk (Vector.id m) text (Vector.score m) (Vector.metadata m))),
            seenContent ++ [contentHash])
  | _ => (Returned None, seenContent)
  end.

(** [matches.map(async (match) => ...)]: every callback is started, in array
    order, and runs up to the first read of [getDocumentContent]. *)
Fixpoint startAll (env : Env) (ms : list Vector.Match) : M (list Callback) :=
  match ms with
  | [] => ret []
  | m :: rest =>
      read <- readContent env (Vector.id m) ;;
      callbacks <- startAll env rest ;;
      ret (match read with
           | Some r => Suspended m r :: callbacks
           | None => Returned None :: callbacks
           end)
  end.

(** A read is delivered and the callback waiting for it runs on, to the read
    of the fallback or to its return; what [getDocumentContent] catches
    counts as [null]. *)
Definition resume (env : Env) (m : Vector.Match) (read : Read) (seenContent : list str)
  : M (Callback * list str) :=
  match read with
  | BlobRead (Ok (Some text)) => ret (finish m (Some text) seenContent)
  | BlobRead (Ok None) =>
      next <- readKV env (Vector.id m) ;;
      match next with
      | Some r => ret (Suspended m r, seenContent)
      | None => ret (finish m None seenContent)
      end
  | BlobRead (Err _) => ret (finish m None seenContent)
  | KVRead (Ok content) => ret (finish m content seenContent)
  | KVRead (Err _) => ret (finish m None seenContent)
  end.

Definition isSuspended (callback : Callback) : bool :=
  match callback with
  | Suspended _ _ => true
  | Returned _ => false
  end.

(** The [n]-th callback that is suspended, with the callbacks before and
    after it. *)
Fixpoint pick (n : nat) (callbacks : list Callback)
  : option (list Callback * (Vector.Match * Read) * list Callback) :=
  match callbacks with
  | [] => None
  | Returned r :: rest =>
      match pick n rest with
      | Some (before, x, after) => Some (Returned r :: before, x, after)
      | None => None
      end
  | Suspended m r :: rest =>
      match n with
      | 0 => Some ([], (m, r), rest)
      | S n' =>
          match pick n' rest with
          | Some (before, x, after) => Some (Suspended m r :: before, x, after)
          | None => None
          end
      end
  end.

(** The deliveries, one at a time in the order the runtime chooses, until no
    callback is waiting; [deliveries] bounds their number. *)
Fixpoint settle (env : Env) (deliveries k : nat) (callbacks : list Callback)
  (seenContent : list str) : M (list Callback) :=
  match deliveries with
  | 0 => ret callbacks
  | S deliveries' =>
      let waiting := length (filter isSuspended callbacks) in
      match pick (Promise_order env k mod waiting) callbacks with
      | Some (before, (m, r), after) =>
          step <- resume env m r seenContent ;;
          settle env deliveries' (S k) (before ++ fst step :: after) (snd step)
      | None => ret callbacks
      end
  end.

(** The value a callback's promise is fulfilled with. *)
Definition valueOf (callback : Callback) : option Search.t :=
  match callback with
  | Returned r => r
  | Suspended _ _ => None
  end.

(** [Promise.all(searchResults.matches.map(...))] with the shared
    [seenContent]: the callbacks start in array order, their reads are
    delivered in the order of the runtime (a callback waits for at most two),
    and the values come back in array order. *)
Definition collectMatches (env : Env) (ms : list Vector.Match) : M (list (option Search.t)) :=
  callbacks <- startAll env ms ;;
  settled <- settle env (2 * length ms) 0 callbacks [] ;;
  ret (map valueOf settled).

(** [relevantContext.filter(Boolean)] *)
Fixpoint filterBoolean {A : Type} (l : list (option A)) : list A :=
  match l with
  | [] => []
  | Some a :: rest => a :: filterBoolean rest
  | None :: rest => filterBoolean rest
  end.

Definition vectorSearch (env : Env) (queryEmbedding : Vector.EmbeddingResponse)
  : M (list Search.t) :=
  match DOCS_VECTORDB env with
  | Vector.Index query =>
      tryCatch
        (d <- match Vector.data queryEmbedding with
              | Some d => ret d
              | None => throw (typeError (lit "0"))
              end ;;
         let vector := nth_error d 0 in
         searchResults <- await (VectorQuery vector 3 true) (query vector 3 true) ;;
         ms <- match Vector.matches searchResults with
               | Some ms => ret ms
               | None => throw (typeError (lit "map"))
               end ;;
         relevantContext <- collectMatches env ms ;;
         ret (filterBoolean relevantContext))
        (fun _ => ret [])
  | _ => ret []
  end.

(** *** Keyword search over the key/value store *)

(** [message.toLowerCase().split(/\s+/).filter(Boolean)] *)
Definition qWords (message : str) : list str :=
  filter (fun w => 0 <? length w) (splitWs (toLowerCase message)).

(** [(lowerContent.match(new RegExp(w, 'g')) || []).length] *)
Definition termMatches (env : Env) (w lowerContent : str) : Result nat :=
  match RegExp.compile w with
  | RegExp.Compiled p => Ok (RegExp.matchCount p lowerContent)
  | RegExp.SyntaxError => Err syntaxError
  | RegExp.Beyond => RegExp_engine env w lowerContent
  end.

(** The loop [for (const w of qWords) score += matches]. *)
Fixpoint scoreTerms (env : Env) (words : list str) (lowerContent : str) (score : nat)
  : Result nat :=
  match words with
  | [] => Ok score
  | w :: rest =>
      match termMatches env w lowerContent with
      | Ok n => scoreTerms env rest lowerContent (score + n)
      | Err e => Err e
      end
  end.

(** [keyInfo.name.split(':')[1]] *)
Definition idOfKey (name : str) : option str :=
  nth_error (splitOn ":"%char name) 1.

(** The body of the loop over the listed keys for one key; the result is the
    entry pushed to [scored], if any. *)
Definition scoreDocument (env : Env) (kv : KVNamespace) (words : list str) (name : str)
  : M (option Search.t) :=
  if includes name (lit ":content") then ret None
  else
    tryCatch
      (metadataStr <- await (KVGet name) (kv_get kv name) ;;
       match metadataStr with
       | Some (c :: cs) =>
           metadata <- lift (JSON_parse env (c :: cs)) ;;
           match idOfKey name with
           | Some (i :: tl) =>
               let id := i :: tl in
               contentText <- getDocumentContent env id ;;
               match contentText with
               | Some (t :: ts) =>
                   let text := t :: ts in
                   score <- lift (scoreTerms env words (toLowerCase text) 0) ;;
                   if 0 <? score
                   then ret (Some (Search.mk id text (inject_Z (Z.of_nat score))
                                     (Some (Meta.mk (Meta.title metadata) (Meta.type metadata)))))
                   else ret None
               | _ => ret None
               end
           | _ => ret None
           end
       | _ => ret None
       end)
      (fun _ => ret None).

Fixpoint scoreDocuments (env : Env) (kv : KVNamespace) (words : list str) (names : list str)
  : M (list Search.t) :=
  match names with
  | [] => ret []
  | name :: rest =>
      entry <- scoreDocument env kv words name ;;
      scored <- scoreDocuments env kv words rest ;;
      ret (match entry with
           | Some e => e :: scored
           | None => scored
           end)
  end.

(** [(a, b) => b.score - a.score] *)
Definition byScoreDesc (a b : Search.t) : Q := (Search.score b - Search.score a)%Q.

(** [Array.prototype.sort] with a comparator: a stable sort.  An element moves
    behind another only where the comparator is positive. *)
Fixpoint insertSorted {A : Type} (compareFn : A -> A -> Q) (x : A) (l : list A) : list A :=
  match l with
  | [] => [x]
  | y :: l' =>
      if Qle_bool (compareFn x y) 0 then x :: l
      else y :: insertSorted compareFn x l'
  end.

Definition sort {A : Type} (compareFn : A -> A -> Q) (l : list A) : list A :=
  fold_right (insertSorted compareFn) [] l.

(** The fallback taken when [validResults] is empty.  Without the key/value
    binding [validResults] stays empty. *)
Definition keywordSearch (env : Env) (message : str) : M (list Search.t) :=
  match COMPLIANCE_KV env with
  | Some kv =>
      keys <- await (KVList (lit "doc:")) (kv_list kv (lit "doc:")) ;;
      scored <- scoreDocuments env kv (qWords message) keys ;;
      ret (firstn 2 (sort byScoreDesc scored))
  | None => ret []
  end.

(** The candidates of one query: similarity search, then keyword search when
    that left nothing. *)
Definition retrieve (env : Env) (message : str)
  (queryEmbedding : Vector.EmbeddingResponse) : M (list Search.t) :=
  validResults <- vectorSearch env queryEmbedding ;;
  match validResults with
  | [] => keywordSearch env message
  | _ => ret validResults
  end.

(** *** Context, prompt and answer *)

(** The block appended to [documentContext] for one document. *)
Definition documentBlock (title type relevantPortion : str) : str :=
  [LF] ++ lit "=== POLICY DOCUMENT: " ++ title ++ lit " ===" ++ [LF]
  ++ lit "TYPE: " ++ type ++ [LF; LF]
  ++ relevantPortion ++ [LF; LF]
  ++ lit "=== END DOCUMENT ===" ++ [LF; LF].

(** The loop [for (const doc of validResults)]; reading [doc.metadata.title]
    of a candidate without metadata throws. *)
Fixpoint buildContext (validResults : list Search.t) (message : str) (documentContext : str)
  : Result str :=
  match validResults with
  | [] => Ok documentContext
  | doc :: rest =>
      let relevantPortion := extractRelevantPortion (Search.content doc) message in
      match Search.metadata doc with
      | Some md =>
          buildContext rest message
            (documentContext ++ documentBlock (Meta.title md) (Meta.type md) relevantPortion)
      | None => Err (typeError (lit "title"))
      end
  end.

Definition withDocuments (documentContext : str) : str :=
  SYSTEM_PROMPT ++ [LF; LF]
  ++ lit "Here are the policy documents you must reference:" ++ [LF; LF]
  ++ documentContext ++ [LF; LF]
  ++ lit "Remember: ONLY use information from the documents above. Quote exact text. Use actual section numbers from the documents.".

Definition noDocuments : str :=
  SYSTEM_PROMPT ++ [LF; LF]
  ++ lit "NO POLICY DOCUMENTS AVAILABLE. You cannot answer compliance questions without documents.".

Definition systemMessage (validResults : list Search.t) (documentContext : str) : str :=
  if 0 <? length validResults then withDocuments documentContext else noDocuments.

(** The text taken from the value of the generation call. *)
Definition responseText (aiResponse : AiResponse) : str :=
  match aiResponse with
  | AiString s => s
  | AiStream chunks => concat chunks
  | AiObject response => response
  | AiOther json => json
  end.

(** [validResults.map(doc => ({title: doc.metadata.title, ...}))] *)
Fixpoint citations (validResults : list Search.t) : Result (list Citation.t) :=
  match validResults with
  | [] => Ok []
  | doc :: rest =>
      match Search.metadata doc with
      | Some md =>
          match citations rest with
          | Ok cs => Ok (Citation.mk (Meta.title md) (Meta.type md) (Search.score doc) :: cs)
          | Err e => Err e
          end
      | None => Err (typeError (lit "title"))
      end
  end.

(** [history.push(userMessage, assistantMessage); history.slice(-10)] *)
Definition updateHistory (history : list Chat.Message) (userMessage assistantMessage : Chat.Message)
  : list Chat.Message :=
  sliceLast 10 (history ++ [userMessage; assistantMessage]).

(** The [try] block of [fetch]. *)
Definition process (env : Env) (message : str) : M Response :=
  stored <- storageGet ;;
  let history := match stored with Some h => h | None => [] end in
  queryEmbedding <- await (RunEmbedding message) (AI_embed env message) ;;
  validResults <- retrieve env message queryEmbedding ;;
  documentContext <- lift (if 0 <? length validResults
                           then buildContext validResults message []
                           else Ok []) ;;
  let systemMessage := systemMessage validResults documentContext in
  t0 <- now env ;;
  let recentHistory := sliceLast 2 history in
  t1 <- now env ;;
  let userMessage := Chat.mkMessage Chat.user message t1 in
  let aiMessages :=
    [Chat.mkMessage Chat.system systemMessage t0] ++ recentHistory ++ [userMessage] in
  aiResponse <- await (RunChat aiMessages (1 # 100) 1500) (AI_generate env aiMessages) ;;
  t2 <- now env ;;
  let assistantMessage := Chat.mkMessage Chat.assistant (responseText aiResponse) t2 in
  storagePut (updateHistory history userMessage assistantMessage) ;;;
  context <- lift (citations validResults) ;;
  ret (mkResponse 200
         (ChatBody (Chat.content assistantMessage) context
            (length validResults) (length documentContext) (length systemMessage))).

(** [error instanceof Error ? error.message : 'Unknown error'] *)
Definition details (error : exn) : str :=
  match error with
  | ErrorObject message => message
  | Thrown => lit "Unknown error"
  end.

Definition badRequest : Response :=
  mkResponse 400 (TextBody (lit "Message parameter is required")).

Definition failure (error : exn) : Response :=
  mkResponse 500 (ErrorBody (lit "Failed to process your request") (details error)).

(** [fetch(request)], with [message] the request's [message] parameter. *)
Definition fetch (env : Env) (message : option str) : M Response :=
  match message with
  | Some (c :: cs) =>
      tryCatch (process env (c :: cs)) (fun error => ret (failure error))
  | _ => ret badRequest
  end.

(** A session: the requests that reach one Durable Object, one after the
    other, each with the environment it ran in. *)
Fixpoint session (requests : list (Env * option str)) (w : World)
  : list (option str * Result Response) * World :=
  match requests with
  | [] => ([], w)
  | (env, message) :: rest =>
      let '(r, w') := fetch env message w in
      let '(rs, w'') := session rest w' in
      ((message, r) :: rs, w'')
  end.

End ChatAgent.

(** ** Vocabulary of the statements *)

Module Run.

Import ChatAgent.

(** The value stored under ['history'], read the way [fetch] reads it. *)
Definition stored (w : World) : list Chat.Message :=
  match history w with
  | Some h => h
  | None => []
  end.

(** The calls retrieval may make: reads of the two stores, the key listing,
    and similarity queries with [topK] 3. *)
Definition retrievalCall (c : Call) : Prop :=
  match c with
  | R2Get _ | KVGet _ | KVList _ => True
  | VectorQuery _ topK _ => topK = 3
  | _ => False
  end.

Definition isPut (c : Call) : bool :=
  match c with
  | StoragePut _ => true
  | _ => false
  end.

(** [w'] is [w] after some more calls, all satisfying [P], with the stored
    history and the clock untouched. *)
Definition extends (P : Call -> Prop) (w w' : World) : Prop :=
  history w' = history w /\ ticks w' = ticks w /\
  exists new, calls w' = calls w ++ new /\ Forall P new.

Definition frames {A : Type} (P : Call -> Prop) (m : M A) : Prop :=
  forall w, extends P w (snd (m w)).

(** The world in which retrieval starts: the history has been read and the
    embedding call has returned. *)
Definition afterEmbedding (message : str) (w : World) : World :=
  mkWorld (history w) ((calls w ++ [StorageGet]) ++ [RunEmbedding message]) (ticks w).

(** The document context of the candidates, as [fetch] computes it. *)
Definition contextOf (validResults : list Search.t) (message : str) : Result str :=
  if 0 <? length validResults then buildContext validResults message [] else Ok [].

(** The messages handed to the generation call. *)
Definition aiMessages (env : Env) (message : str) (validResults : list Search.t)
  (documentContext : str) (w w2 : World) : list Chat.Message :=
  [Chat.mkMessage Chat.system (systemMessage validResults documentContext)
     (Date_now env (ticks w2))]
  ++ sliceLast 2 (stored w)
  ++ [Chat.mkMessage Chat.user message (Date_now env (S (ticks w2)))].

Definition userMessage (env : Env) (message : str) (w2 : World) : Chat.Message :=
  Chat.mkMessage Chat.user message (Date_now env (S (ticks w2))).

Definition assistantMessage (env : Env) (ai : AiResponse) (w2 : World) : Chat.Message :=
  Chat.mkMessage Chat.assistant (responseText ai) (Date_now env (S (S (ticks w2)))).

(** The runs of the [try] block of [fetch], stage by stage: the outcome and
    the world it leaves. *)
Inductive Process (env : Env) (message : str) (w : World) : Result Response -> World -> Prop :=
| EmbeddingThrows e :
    AI_embed env message = Err e ->
    Process env message w (Err e) (afterEmbedding message w)
| RetrievalThrows qe e w2 :
    AI_embed env message = Ok qe ->
    retrieve env message qe (afterEmbedding message w) = (Err e, w2) ->
    extends retrievalCall (afterEmbedding message w) w2 ->
    Process env message w (Err e) w2
| AssemblyThrows qe validResults e w2 :
    AI_embed env message = Ok qe ->
    retrieve env message qe (afterEmbedding message w) = (Ok validResults, w2) ->
    extends retrievalCall (afterEmbedding message w) w2 ->
    contextOf validResults message = Err e ->
    Process env message w (Err e) w2
| GenerationThrows qe validResults documentContext e w2 :
    AI_embed env message = Ok qe ->
    retrieve env message qe (afterEmbedding message w) = (Ok validResults, w2) ->
    extends retrievalCall (afterEmbedding message w) w2 ->
    contextOf validResults message = Ok documentContext ->
    let msgs := aiMessages env message validResults documentContext w w2 in
    AI_generate env msgs = Err e ->
    Process env message w (Err e)
      (mkWorld (history w2) (calls w2 ++ [RunChat msgs (1 # 100) 1500]) (S (S (ticks w2))))
| Answered qe validResults documentContext ai context w2 :
    AI_embed env message = Ok qe ->
    retrieve env message qe (afterEmbedding message w) = (Ok validResults, w2) ->
    extends retrievalCall (afterEmbedding message w) w2 ->
    contextOf validResults message = Ok documentContext ->
    let msgs := aiMessages env message validResults documentContext w w2 in
    AI_generate env msgs = Ok ai ->
    citations validResults = Ok context ->
    let h := updateHistory (stored w) (userMessage env message w2)
               (assistantMessage env ai w2) in
    Process env message w
      (Ok (mkResponse 200
             (ChatBody (responseText ai) context (length validResults)
                (length documentContext)
                (length (systemMessage validResults documentContext)))))
      (mkWorld (Some h)
         ((calls w2 ++ [RunChat msgs (1 # 100) 1500]) ++ [StoragePut h])
         (S (S (S (ticks w2))))).

(** The throws that leave the [try] block of [fetch] in the run on [message]
    from [w]: the throw of the embedding call; of the key listing, which the
    keyword path makes when the similarity path left nothing; of the context
    assembly, on a candidate without metadata; and of the generation call. *)
Inductive Escapes (env : Env) (message : str) (w : World) (e : exn) : Prop :=
| FromEmbedding :
    AI_embed env message = Err e ->
    Escapes env message w e
| FromKeyListing qe w1 kv :
    AI_embed env message = Ok qe ->
    vectorSearch env qe (afterEmbedding message w) = (Ok [], w1) ->
    COMPLIANCE_KV env = Some kv ->
    kv_list kv (lit "doc:") = Err e ->
    Escapes env message w e
| FromAssembly qe validResults w2 doc :
    AI_embed env message = Ok qe ->
    retrieve env message qe (afterEmbedding message w) = (Ok validResults, w2) ->
    In doc validResults ->
    Search.metadata doc = None ->
    e = typeError (lit "title") ->
    Escapes env message w e
| FromGeneration qe validResults documentContext w2 :
    AI_embed env message = Ok qe ->
    retrieve env message qe (afterEmbedding message w) = (Ok validResults, w2) ->
    contextOf validResults message = Ok documentContext ->
    AI_generate env (aiMessages env message validResults documentContext w w2) = Err e ->
    Escapes env message w e.

(** A turn that completed: the request carried a message and the response
    has status 200.  Its two messages, by role and content. *)
Definition exchange (turn : option str * Result Response) : list (Chat.Role * str) :=
  match turn with
  | (Some message, Ok (mkResponse 200 (ChatBody response _ _ _ _))) =>
      [(Chat.user, message); (Chat.assistant, response)]
  | _ => []
  end.

Definition transcript (turns : list (option str * Result Response)) : list (Chat.Role * str) :=
  flat_map exchange turns.

Definition roleAndContent (m : Chat.Message) : Chat.Role * str :=
  (Chat.role m, Chat.content m).

(** [l1] is [l2] with some elements left out, the order kept. *)
Inductive subseq {A : Type} : list A -> list A -> Prop :=
| subseq_nil : subseq [] []
| subseq_skip x l1 l2 : subseq l1 l2 -> subseq l1 (x :: l2)
| subseq_keep x l1 l2 : subseq l1 l2 -> subseq (x :: l1) (x :: l2).

(** [a] ranks at least as high as [b]. *)
Definition outranks (a b : Search.t) : Prop := (Search.score b <= Search.score a)%Q.

(** The first 200 characters of each candidate's content. *)
Definition prefixes (validResults : list Search.t) : list str :=
  map (fun r => substring0 200 (Search.content r)) validResults.

(** What a callback may be for the match [m]: waiting for a read, returned
    with [null], or returned with the candidate of [m] and a text. *)
Definition callbackOf (m : Vector.Match) (callback : ChatAgent.Callback) : Prop :=
  match callback with
  | Suspended m' _ => m' = m
  | Returned None => True
  | Returned (Some r) =>
      exists text, text <> [] /\
                   r = Search.mk (Vector.id m) text (Vector.score m) (Vector.metadata m)
  end.

(** The deliveries a callback may still wait for. *)
Definition reads (callback : Callback) : nat :=
  match callback with
  | Suspended _ (BlobRead _) => 2
  | Suspended _ (KVRead _) => 1
  | Returned _ => 0
  end.

Definition pendingReads (callbacks : list Callback) : nat :=
  list_sum (map reads callbacks).

Definition kept (callbacks : list Callback) : list Search.t :=
  filterBoolean (map valueOf callbacks).

(** The candidates returned so far have different prefixes, all of them in
    [seenContent]. *)
Definition distinct (callbacks : list Callback) (seenContent : list str) : Prop :=
  NoDup (prefixes (kept callbacks)) /\
  forall p, In p (prefixes (kept callbacks)) -> In p seenContent.

End Run.

(** ** The lexical score as the specification words it

    "Count total term occurrences (case-insensitive substring match per
    term, summed across terms) in the document's full content": the
    occurrences of a term are counted from left to right without overlap. *)

Module Claimed.

Fixpoint occurrencesFrom (w : str) (skip : nat) (s : str) : nat :=
  match s with
  | [] => 0
  | _ :: s' =>
      match skip with
      | S k => occurrencesFrom w k s'
      | 0 =>
          if startsWith w s then S (occurrencesFrom w (length w - 1) s')
          else occurrencesFrom w 0 s'
      end
  end.

Definition occurrences (w s : str) : nat := occurrencesFrom w 0 s.

Definition score (terms : list str) (content : str) : nat :=
  fold_left (fun acc w => acc + occurrences w (toLowerCase content)) terms 0.

(** A term without regular-expression syntax. *)
Definition plain (w : str) : bool :=
  forallb
    (fun c => negb (RegExp.isQuantifierChar c || RegExp.isOtherSyntaxChar c
                    || (code c =? 46)%N))
    w.

End Claimed.

(** ** Concrete stores, environments and documents *)

Module Fixtures.

Import ChatAgent.

(** A key/value namespace holding [entries], listed in the order given. *)
Definition lookup (entries : list (str * str)) (key : str) : option str :=
  match find (fun e => str_eqb (fst e) key) entries with
  | Some e => Some (snd e)
  | None => None
  end.

Definition kvOf (entries : list (str * str)) : KVNamespace :=
  mkKVNamespace
    (fun key => Ok (lookup entries key))
    (fun prefix => Ok (filter (startsWith prefix) (map fst entries))).

(** A namespace whose every call fails. *)
Definition kvDown : KVNamespace :=
  mkKVNamespace
    (fun _ => Err (ErrorObject (lit "KV unavailable")))
    (fun _ => Err (ErrorObject (lit "KV unavailable"))).

Definition policyMeta : Meta.t := Meta.mk (lit "Data Privacy Policy") (lit "policy").

Definition answer : AiResponse := AiObject (lit "This information is not in the provided policy").

Definition quoted (s : str) : str := [DQUOTE] ++ s ++ [DQUOTE].

(** The metadata record of a document, as JSON text. *)
Definition policyRecord : str :=
  lit "{" ++ quoted (lit "title") ++ lit ":" ++ quoted (lit "Data Privacy Policy")
  ++ lit "," ++ quoted (lit "type") ++ lit ":" ++ quoted (lit "policy") ++ lit "}".

(** No similarity index, no blob store; documents in the key/value store.
    [JSON.parse] reads [policyRecord] and rejects any other text. *)
Definition envOf (entries : list (str * str)) : Env :=
  mkEnv
    (fun _ => Ok (Vector.mkEmbeddingResponse (Some [[]])))
    (fun _ => Ok answer)
    Vector.Missing
    None
    (Some (kvOf entries))
    (fun text => if str_eqb text policyRecord then Ok policyMeta else Err syntaxError)
    (fun _ _ => Err syntaxError)
    (fun n => Z.of_nat n)
    (fun _ => 0).

Definition policyText : str :=
  lit "Section 4.2 Any unauthorized access shall be reported within 24 hours of discovery.".

(** One uploaded document. *)
Definition oneDocument : list (str * str) :=
  [ (lit "doc:d1", policyRecord);
    (lit "doc:d1:content", policyText) ].

(** The same text uploaded twice, under two identifiers. *)
Definition uploadedTwice : list (str * str) :=
  [ (lit "doc:d1", policyRecord);
    (lit "doc:d1:content", policyText);
    (lit "doc:d2", policyRecord);
    (lit "doc:d2:content", policyText) ].

Definition retentionText : str := lit "The retention period is 30 days.".

Definition retentionDocument : list (str * str) :=
  [ (lit "doc:r1", policyRecord);
    (lit "doc:r1:content", retentionText) ].

(** The environment of [envOf] with a generation call that throws. *)
Definition envGenerationDown (entries : list (str * str)) : Env :=
  mkEnv
    (AI_embed (envOf entries))
    (fun _ => Err (ErrorObject (lit "model unavailable")))
    Vector.Missing
    None
    (Some (kvOf entries))
    (JSON_parse (envOf entries))
    (RegExp_engine (envOf entries))
    (Date_now (envOf entries))
    (Promise_order (envOf entries)).

(** The environment of [envOf] with a similarity index whose query throws. *)
Definition envIndexDown (entries : list (str * str)) : Env :=
  mkEnv
    (AI_embed (envOf entries))
    (AI_generate (envOf entries))
    (Vector.Index (fun _ _ _ => Err (ErrorObject (lit "index unavailable"))))
    None
    (Some (kvOf entries))
    (JSON_parse (envOf entries))
    (RegExp_engine (envOf entries))
    (Date_now (envOf entries))
    (Promise_order (envOf entries)).

Definition freshWorld : World := mkWorld None [] 0.

(** A long document without key words of the query ["hello"]: one line of
    8000 characters, eleven empty lines, and a line with a section marker. *)
Definition markedDocument : str :=
  repeat "x"%char 8000 ++ repeat LF 12 ++ lit "a.1".

(** A long document of a single line without any marker. *)
Definition plainDocument : str := repeat "x"%char 8001.

(** The messages of the generation calls among [cs]. *)
Fixpoint chatCalls (cs : list Call) : list (list Chat.Message) :=
  match cs with
  | [] => []
  | RunChat msgs _ _ :: rest => msgs :: chatCalls rest
  | _ :: rest => chatCalls rest
  end.

(** A first turn on a store with one document. *)
Definition sampleRun : Result Response * World :=
  fetch (envOf oneDocument) (Some (lit "reported")) freshWorld.

Definition sampleMessages : list Chat.Message :=
  hd [] (chatCalls (calls (snd sampleRun))).



(** Six questions put to the same session. *)
Definition sixTurns : list (Env * option str) :=
  map (fun q => (envOf oneDocument, Some (lit q)))
    ["reported"; "access"; "hours"; "discovery"; "unauthorized"; "section"]%string.

End Fixtures.

(** ** Kinds of calls and of candidates *)

Module Kinds.

(** A read of a document's content from one of the two stores. *)
Definition contentRead (c : Call) : Prop :=
  match c with
  | R2Get _ | KVGet _ => True
  | _ => False
  end.

(** A candidate as the keyword path builds it: with a text, a positive score
    and metadata. *)
Definition wellFormed (r : Search.t) : Prop :=
  Search.content r <> [] /\ (0 < Search.score r)%Q /\ Search.metadata r <> None.

(** The block of one candidate in the document context; empty without
    metadata. *)
Definition blockOf (message : str) (r : Search.t) : str :=
  match Search.metadata r with
  | Some md =>
      ChatAgent.documentBlock (Meta.title md) (Meta.type md)
        (ChatAgent.extractRelevantPortion (Search.content r) message)
  | None => []
  end.

(** The citation of one candidate. *)
Definition citationOf (r : Search.t) : option Citation.t :=
  match Search.metadata r with
  | Some md => Some (Citation.mk (Meta.title md) (Meta.type md) (Search.score r))
  | None => None
  end.

(** The roles of [n] exchanges in a row. *)
Definition turnRoles (n : nat) : list Chat.Role :=
  concat (repeat [Chat.user; Chat.assistant] n).

End Kinds.

(** ** Further stores and environments *)

Module Samples.

Import ChatAgent.

(** A long document of one line that contains the word of the query
    ["hello"]. *)
Definition hitDocument : str := lit "hello " ++ repeat "x"%char 8000.

(** A blob store holding [entries]. *)
Definition r2Of (entries : list (str * str)) : R2Bucket :=
  mkR2Bucket (fun key => Ok (Fixtures.lookup entries key)).

(** A blob store whose reads throw. *)
Definition r2Down : R2Bucket :=
  mkR2Bucket (fun _ => Err (ErrorObject (lit "R2 unavailable"))).

(** Bindings as in [Fixtures.envOf], with a blob store. *)
Definition envWithBucket (bucket : R2Bucket) (entries : list (str * str)) : Env :=
  mkEnv
    (AI_embed (Fixtures.envOf entries))
    (AI_generate (Fixtures.envOf entries))
    Vector.Missing
    (Some bucket)
    (Some (Fixtures.kvOf entries))
    (JSON_parse (Fixtures.envOf entries))
    (RegExp_engine (Fixtures.envOf entries))
    (Date_now (Fixtures.envOf entries))
    (Promise_order (Fixtures.envOf entries)).

(** Bindings as in [Fixtures.envOf], with a similarity index that answers
    every query with [ms]. *)
Definition envIndexed (ms : list Vector.Match) (entries : list (str * str)) : Env :=
  mkEnv
    (AI_embed (Fixtures.envOf entries))
    (AI_generate (Fixtures.envOf entries))
    (Vector.Index (fun _ _ _ => Ok (Vector.mkQueryResult (Some ms))))
    None
    (Some (Fixtures.kvOf entries))
    (JSON_parse (Fixtures.envOf entries))
    (RegExp_engine (Fixtures.envOf entries))
    (Date_now (Fixtures.envOf entries))
    (Promise_order (Fixtures.envOf entries)).

(** Bindings as in [Fixtures.envOf], with an embedding call that throws. *)
Definition envEmbeddingDown (entries : list (str * str)) : Env :=
  mkEnv
    (fun _ => Err (ErrorObject (lit "embedding unavailable")))
    (AI_generate (Fixtures.envOf entries))
    Vector.Missing
    None
    (Some (Fixtures.kvOf entries))
    (JSON_parse (Fixtures.envOf entries))
    (RegExp_engine (Fixtures.envOf entries))
    (Date_now (Fixtures.envOf entries))
    (Promise_order (Fixtures.envOf entries)).

(** Bindings as in [Fixtures.envOf], with an engine for the patterns beyond
    [RegExp.compile] that rejects an unterminated group and finds no match
    of any other pattern. *)
Definition envEngine (entries : list (str * str)) : Env :=
  mkEnv
    (AI_embed (Fixtures.envOf entries))
    (AI_generate (Fixtures.envOf entries))
    Vector.Missing
    None
    (Some (Fixtures.kvOf entries))
    (JSON_parse (Fixtures.envOf entries))
    (fun pattern _ =>
       if includes pattern (lit "(") && negb (includes pattern (lit ")"))
       then Err syntaxError else Ok 0)
    (Date_now (Fixtures.envOf entries))
    (Promise_order (Fixtures.envOf entries)).

Definition policyMatch : Vector.Match :=
  Vector.mkMatch (lit "d1") (92 # 100) (Some Fixtures.policyMeta).

Definition secondMatch : Vector.Match :=
  Vector.mkMatch (lit "d2") (90 # 100) (Some Fixtures.policyMeta).

(** A similarity index that ranks [d1] before [d2], over the store in which
    both hold the same text; the reads are delivered in the order [order]. *)
Definition envArrival (order : nat -> nat) : Env :=
  mkEnv
    (AI_embed (Fixtures.envOf Fixtures.uploadedTwice))
    (AI_generate (Fixtures.envOf Fixtures.uploadedTwice))
    (Vector.Index (fun _ _ _ => Ok (Vector.mkQueryResult (Some [policyMatch; secondMatch]))))
    None
    (Some (Fixtures.kvOf Fixtures.uploadedTwice))
    (JSON_parse (Fixtures.envOf Fixtures.uploadedTwice))
    (RegExp_engine (Fixtures.envOf Fixtures.uploadedTwice))
    (Date_now (Fixtures.envOf Fixtures.uploadedTwice))
    order.

Definition sampleEmbedding : Vector.EmbeddingResponse :=
  Vector.mkEmbeddingResponse (Some [[]]).

(** The similarity path on an index that returns the stored document. *)
Definition indexedRun : Result (list Search.t) * World :=
  vectorSearch (envIndexed [policyMatch] Fixtures.oneDocument) sampleEmbedding
    Fixtures.freshWorld.

Definition indexedHit : Search.t :=
  Search.mk (lit "d1") Fixtures.policyText (92 # 100) (Some Fixtures.policyMeta).

(** The keyword path on the store that holds the same text twice. *)
Definition keywordRun : Result (list Search.t) * World :=
  keywordSearch (Fixtures.envOf Fixtures.uploadedTwice) (lit "reported") Fixtures.freshWorld.

Definition valueOf {A : Type} (r : Result (list A)) : list A :=
  match r with
  | Ok l => l
  | Err _ => []
  end.

(** The parts of the body of a chat answer. *)
Definition answerText (r : Result Response) : str :=
  match r with
  | Ok (mkResponse _ (ChatBody response _ _ _ _)) => response
  | _ => []
  end.

Definition answerContext (r : Result Response) : list Citation.t :=
  match r with
  | Ok (mkResponse _ (ChatBody _ context _ _ _)) => context
  | _ => []
  end.

Definition answerNumbers (r : Result Response) : nat * nat * nat :=
  match r with
  | Ok (mkResponse _ (ChatBody _ _ documentsFound contextLength promptLength)) =>
      (documentsFound, contextLength, promptLength)
  | _ => (0, 0, 0)
  end.

End Samples.

(** ** The worker: helpers of the first module of index.ts *)

Module Worker.

Local Open Scope agent_scope.

(** A character of [[.!?]]. *)
Definition isSentenceEnd (c : ascii) : bool :=
  let n := code c in ((n =? 46) || (n =? 33) || (n =? 63))%N.

(** [s.split(/[...]+/)] for a character class [p]: the pieces between maximal
    runs of characters of the class. *)
Fixpoint splitRunsFrom (p : ascii -> bool) (inRun : bool) (s : str) : list str :=
  match s with
  | [] => [[]]
  | c :: s' =>
      if p c
      then (if inRun then splitRunsFrom p true s' else [] :: splitRunsFrom p true s')
      else
        match splitRunsFrom p false s' with
        | piece :: pieces => (c :: piece) :: pieces
        | [] => [[c]]
        end
  end.

Definition splitRuns (p : ascii -> bool) (s : str) : list str := splitRunsFrom p false s.

Fixpoint trimStart (s : str) : str :=
  match s with
  | c :: s' => if isWhiteSpace c then trimStart s' else s
  | [] => []
  end.

Definition trimEnd (s : str) : str := rev (trimStart (rev s)).

(** [s.trim()] *)
Definition trim (s : str) : str := trimEnd (trimStart s).

(** [extractRelevantSnippets(content, query)] *)
Definition extractRelevantSnippets (content query : str) : list str :=
  let sentences := splitRuns isSentenceEnd content in
  firstn 3
    (map trim
       (filter
          (fun sentence =>
             includes (toLowerCase sentence) (toLowerCase query)
             || existsb (fun word => includes (toLowerCase sentence) word)
                  (splitOn " "%char (toLowerCase query)))
          sentences)).

(** [generateEmbeddings(ai, text)]: [response.data[0]], which is undefined
    for an empty [data]. *)
Definition generateEmbeddings (env : Env) (text : str) : M (option Vector.Embedding) :=
  response <- await (RunEmbedding text) (AI_embed env text) ;;
  match Vector.data response with
  | Some d => ret (nth_error d 0)
  | None => throw (typeError (lit "0"))
  end.

(** [getDocumentContent(c, docId)]: as the agent's, except that the
    key/value binding is used without a test. *)
Definition getDocumentContent (env : Env) (docId : str) : M (option str) :=
  let fromKV : M (option str) :=
    match COMPLIANCE_KV env with
    | Some kv =>
        let key := lit "doc:" ++ docId ++ lit ":content" in
        await (KVGet key) (kv_get kv key)
    | None => throw (typeError (lit "get"))
    end in
  tryCatch
    (match COMPLIANCE_DOCS env with
     | Some bucket =>
         let key := docId ++ lit ".txt" in
         contentObj <- await (R2Get key) (r2_get bucket key) ;;
         match contentObj with
         | Some text => ret (Some text)
         | None => fromKV
         end
     | None => fromKV
     end)
    (fun _ => ret None).

End Worker.

(** ** The worker: upload and deletion of documents

    The two stores are maps from keys to texts and the similarity index is
    the list of what was inserted.  A write or a delete either takes effect
    or throws; which it does is the environment's choice, key by key. *)

Module Admin.

Module Form.

(** The fields of the submitted form as [formData.get(name)?.toString()]
    gives them; [None] where [formData.get] is null. *)
Record t := mk {
  title : option str;
  type : option str;
  tags : option str;
  content : option str
}.

End Form.

Module Doc.

(** [interface ComplianceDocument] *)
Record t := mk {
  id : str;
  title : str;
  content : str;
  type : str;
  tags : list str;
  createdAt : Z;
  updatedAt : Z
}.

End Doc.

Definition Store : Type := list (str * str).

Definition get (key : str) (s : Store) : option str :=
  match find (fun e => str_eqb (fst e) key) s with
  | Some e => Some (snd e)
  | None => None
  end.

Definition remove (key : str) (s : Store) : Store :=
  filter (fun e => negb (str_eqb (fst e) key)) s.

Definition put (key value : str) (s : Store) : Store := (key, value) :: remove key s.

(** One vector of the similarity index, as the upload inserts it. *)
Record IndexEntry := mkIndexEntry {
  entryId : str;
  values : option Vector.Embedding;
  entryTitle : str;
  entryType : str;
  entryTags : str
}.

(** [env.DOCS_VECTORDB] as the upload sees it: undefined, without an
    [insert] property, with an [insert] that is not a function, or with an
    [insert] that takes the vector or throws. *)
Inductive Inserter :=
| NoIndex
| NoInsert
| InsertNotCallable
| Insert (fault : IndexEntry -> option exn).

Record Host := mkHost {
  COMPLIANCE_DOCS : bool;
  DOCS_VECTORDB : Inserter;
  AI_run : str -> Result Vector.EmbeddingResponse;
  kvPut : str -> option exn;
  kvDelete : str -> option exn;
  r2Put : str -> option exn;
  r2Delete : str -> option exn;
  randomUUID : nat -> str;
  Date_now : nat -> Z;
  JSON_stringify : Doc.t -> str
}.

Record Site := mkSite {
  kv : Store;
  r2 : Store;
  vectors : list IndexEntry;
  draws : nat;
  ticks : nat
}.

Inductive Reply :=
| Uploaded (id title type : str) (tags : list str) (createdAt : Z) (useR2 useVectorDB : bool)
| Deleted (docId : str)
| Refused (error : str)
| Failed (error details : str).

Definition status (r : Reply) : nat :=
  match r with
  | Uploaded _ _ _ _ _ _ _ | Deleted _ => 200
  | Refused _ => 400
  | Failed _ _ => 500
  end.

(** [interface StorageOperation] *)
Inductive StorageOperation :=
| KvOp (key : str)
| R2Op (key : str).

Definition metadataKey (docId : str) : str := lit "doc:" ++ docId.
Definition contentKey (docId : str) : str := lit "doc:" ++ docId ++ lit ":content".
Definition objectKey (docId : str) : str := docId ++ lit ".txt".

(** [['policy', 'guideline', 'audit'].includes(type)] *)
Definition validType (type : str) : bool :=
  str_eqb type (lit "policy") || str_eqb type (lit "guideline") || str_eqb type (lit "audit").

Definition formTitle (form : Form.t) : str :=
  match Form.title form with
  | Some t => Worker.trim t
  | None => []
  end.

Definition formTags (form : Form.t) : list str :=
  filter (fun t => 0 <? length t)
    (map Worker.trim
       (splitOn ","%char (match Form.tags form with Some t => t | None => [] end))).

Definition formContent (form : Form.t) : str :=
  match Form.content form with
  | Some c => Worker.trim c
  | None => []
  end.

(** The first failed validation, if any, with its message. *)
Definition refusal (form : Form.t) : option str :=
  if length (formTitle form) <? 3
  then Some (lit "Title must be at least 3 characters long")
  else
    match Form.type form with
    | Some type =>
        if validType type then
          if length (formContent form) <? 10
          then Some (lit "Document must contain at least 10 characters")
          else if 100000 <? length (formContent form)
          then Some (lit "Document exceeds maximum length of 100,000 characters")
          else None
        else Some (lit "Valid document type is required")
    | None => Some (lit "Valid document type is required")
    end.

(** The writes of the inner [try] block up to the indexing: the error
    thrown, if any, and the operations that succeeded before it. *)
Definition storeDocument (h : Host) (docId metadata content : str) (s : Site)
  : option exn * list StorageOperation * Site :=
  match kvPut h (metadataKey docId) with
  | Some e => (Some e, [], s)
  | None =>
      let s1 := mkSite (put (metadataKey docId) metadata (kv s)) (r2 s) (vectors s)
                  (draws s) (ticks s) in
      let toKV :=
        match kvPut h (contentKey docId) with
        | Some e => (Some e, [KvOp (metadataKey docId)], s1)
        | None =>
            (None, [KvOp (metadataKey docId); KvOp (contentKey docId)],
             mkSite (put (contentKey docId) content (kv s1)) (r2 s1) (vectors s1)
               (draws s1) (ticks s1))
        end in
      if COMPLIANCE_DOCS h then
        match r2Put h (objectKey docId) with
        | None =>
            (None, [KvOp (metadataKey docId); R2Op (objectKey docId)],
             mkSite (kv s1) (put (objectKey docId) content (r2 s1)) (vectors s1)
               (draws s1) (ticks s1))
        | Some _ => toKV
        end
      else toKV
  end.

(** The indexing step; whatever it throws is dropped. *)
Definition indexDocument (h : Host) (docId title type : str) (tags : list str)
  (content : str) (s : Site) : Site :=
  match AI_run h content with
  | Ok response =>
      match Vector.data response with
      | Some d =>
          match DOCS_VECTORDB h with
          | Insert fault =>
              let entry := mkIndexEntry docId (nth_error d 0) title type (join (lit ",") tags) in
              match fault entry with
              | None => mkSite (kv s) (r2 s) (vectors s ++ [entry]) (draws s) (ticks s)
              | Some _ => s
              end
          | _ => s
          end
      | None => s
      end
  | Err _ => s
  end.

(** The cleanup loop over [successfulOps]; a delete that throws is skipped. *)
Fixpoint cleanup (h : Host) (ops : list StorageOperation) (s : Site) : Site :=
  match ops with
  | [] => s
  | KvOp key :: rest =>
      cleanup h rest
        (match kvDelete h key with
         | None => mkSite (remove key (kv s)) (r2 s) (vectors s) (draws s) (ticks s)
         | Some _ => s
         end)
  | R2Op key :: rest =>
      cleanup h rest
        (if COMPLIANCE_DOCS h then
           match r2Delete h key with
           | None => mkSite (kv s) (remove key (r2 s)) (vectors s) (draws s) (ticks s)
           | Some _ => s
           end
         else s)
  end.

Definition useVectorDB (h : Host) : bool :=
  match DOCS_VECTORDB h with
  | InsertNotCallable | Insert _ => true
  | _ => false
  end.

Definition failedUpload (e : exn) : Reply :=
  Failed (lit "Failed to upload document") (ChatAgent.details e).

(** [app.post('/api/admin/documents', ...)], with [formData] the outcome of
    [c.req.formData()]. *)
Definition upload (h : Host) (formData : Result Form.t) (s : Site) : Reply * Site :=
  match formData with
  | Err e => (failedUpload e, s)
  | Ok form =>
      match refusal form with
      | Some error => (Refused error, s)
      | None =>
          let title := formTitle form in
          let type := match Form.type form with Some t => t | None => [] end in
          let tags := formTags form in
          let documentContent := formContent form in
          let docId := randomUUID h (draws s) in
          let timestamp := Date_now h (ticks s) in
          let s0 := mkSite (kv s) (r2 s) (vectors s) (S (draws s)) (S (ticks s)) in
          let document :=
            Doc.mk docId title (firstn 200 documentContent ++ lit "...") type tags
              timestamp timestamp in
          match storeDocument h docId (JSON_stringify h document) documentContent s0 with
          | (None, _, s1) =>
              (Uploaded docId title type tags timestamp (COMPLIANCE_DOCS h) (useVectorDB h),
               indexDocument h docId title type tags documentContent s1)
          | (Some e, successfulOps, s1) => (failedUpload e, cleanup h successfulOps s1)
          end
      end
  end.

Definition failedDelete (e : exn) : Reply :=
  Failed (lit "Failed to delete document") (ChatAgent.details e).

(** [app.delete('/api/admin/documents/:docId', ...)] *)
Definition delete (h : Host) (docId : str) (s : Site) : Reply * Site :=
  match docId with
  | [] => (Refused (lit "Document ID is required"), s)
  | _ :: _ =>
      match kvDelete h (metadataKey docId) with
      | Some e => (failedDelete e, s)
      | None =>
          let s1 := mkSite (remove (metadataKey docId) (kv s)) (r2 s) (vectors s)
                      (draws s) (ticks s) in
          match kvDelete h (contentKey docId) with
          | Some e => (failedDelete e, s1)
          | None =>
              let s2 := mkSite (remove (contentKey docId) (kv s1)) (r2 s1) (vectors s1)
                          (draws s1) (ticks s1) in
              (Deleted docId,
               if COMPLIANCE_DOCS h then
                 match r2Delete h (objectKey docId) with
                 | None => mkSite (kv s2) (remove (objectKey docId) (r2 s2)) (vectors s2)
                             (draws s2) (ticks s2)
                 | Some _ => s2
                 end
               else s2)
          end
      end
  end.

End Admin.

(** ** The stores as the agent reads them *)

Module Reader.

Definition bucketOf (s : Admin.Site) : R2Bucket :=
  mkR2Bucket (fun key => Ok (Admin.get key (Admin.r2 s))).

Definition namespaceOf (s : Admin.Site) (listing : str -> Result (list str)) : KVNamespace :=
  mkKVNamespace (fun key => Ok (Admin.get key (Admin.kv s))) listing.

(** The bindings of [agent] with the two stores replaced by those of [s],
    every read returning what is stored; the blob store is bound when the
    worker's is. *)
Definition envOf (h : Admin.Host) (s : Admin.Site) (listing : str -> Result (list str))
  (agent : Env) : Env :=
  mkEnv
    (AI_embed agent)
    (AI_generate agent)
    (DOCS_VECTORDB agent)
    (if Admin.COMPLIANCE_DOCS h then Some (bucketOf s) else None)
    (Some (namespaceOf s listing))
    (JSON_parse agent)
    (RegExp_engine agent)
    (Date_now agent)
    (Promise_order agent).

(** What the agent's content reader finds in the stores of a site. *)
Definition found (h : Admin.Host) (id : str) (s : Admin.Site) : option str :=
  if Admin.COMPLIANCE_DOCS h then
    match Admin.get (Admin.objectKey id) (Admin.r2 s) with
    | Some content => Some content
    | None => Admin.get (Admin.contentKey id) (Admin.kv s)
    end
  else Admin.get (Admin.contentKey id) (Admin.kv s).

End Reader.

(** ** Hosts, sites and forms to run the worker on *)

Module AdminSamples.

Import Admin.

Definition embedded : Result Vector.EmbeddingResponse :=
  Ok (Vector.mkEmbeddingResponse (Some [[]])).

Definition field (name value : str) : str := Fixtures.quoted name ++ lit ":" ++ value.

Definition decimal (z : Z) : str :=
  lit (DecimalString.NilZero.string_of_int (Z.to_int z)).

(** [JSON.stringify(document)] for a document whose texts hold no character
    that JSON escapes. *)
Definition stringify (d : Doc.t) : str :=
  lit "{" ++ field (lit "id") (Fixtures.quoted (Doc.id d))
  ++ lit "," ++ field (lit "title") (Fixtures.quoted (Doc.title d))
  ++ lit "," ++ field (lit "content") (Fixtures.quoted (Doc.content d))
  ++ lit "," ++ field (lit "type") (Fixtures.quoted (Doc.type d))
  ++ lit "," ++ field (lit "tags")
                  (lit "[" ++ join (lit ",") (map Fixtures.quoted (Doc.tags d)) ++ lit "]")
  ++ lit "," ++ field (lit "createdAt") (decimal (Doc.createdAt d))
  ++ lit "," ++ field (lit "updatedAt") (decimal (Doc.updatedAt d))
  ++ lit "}".

(** A host on which nothing throws; the blob store is bound or not. *)
Definition quietHost (bucket : bool) : Host :=
  mkHost bucket NoIndex (fun _ => embedded)
    (fun _ => None) (fun _ => None) (fun _ => None) (fun _ => None)
    (fun n => lit "doc-" ++ repeat "i"%char (S n))
    (fun n => Z.of_nat n)
    stringify.

(** A host without blob store whose key/value store refuses content keys. *)
Definition contentRefused : Host :=
  mkHost false NoIndex (fun _ => embedded)
    (fun key => if includes key (lit ":content")
                then Some (ErrorObject (lit "KV put failed")) else None)
    (fun _ => None) (fun _ => None) (fun _ => None)
    (fun n => lit "doc-" ++ repeat "i"%char (S n))
    (fun n => Z.of_nat n)
    stringify.

(** A host whose blob store takes writes and throws on deletes. *)
Definition objectsStay : Host :=
  mkHost true NoIndex (fun _ => embedded)
    (fun _ => None) (fun _ => None) (fun _ => None)
    (fun _ => Some (ErrorObject (lit "R2 delete failed")))
    (fun n => lit "doc-" ++ repeat "i"%char (S n))
    (fun n => Z.of_nat n)
    stringify.

(** A host with a similarity index that takes every vector. *)
Definition indexingHost : Host :=
  mkHost true (Insert (fun _ => None)) (fun _ => embedded)
    (fun _ => None) (fun _ => None) (fun _ => None) (fun _ => None)
    (fun n => lit "doc-" ++ repeat "i"%char (S n))
    (fun n => Z.of_nat n)
    stringify.

(** The host of [indexingHost] with an embedding call that throws. *)
Definition embeddingDown : Host :=
  mkHost true (Insert (fun _ => None))
    (fun _ => Err (ErrorObject (lit "embedding unavailable")))
    (fun _ => None) (fun _ => None) (fun _ => None) (fun _ => None)
    (fun n => lit "doc-" ++ repeat "i"%char (S n))
    (fun n => Z.of_nat n)
    stringify.

Definition emptySite : Site := mkSite [] [] [] 0 0.

Definition policyForm : Form.t :=
  Form.mk (Some (lit " Data Privacy Policy "))
    (Some (lit "policy"))
    (Some (lit "privacy, data,,security"))
    (Some (lit "  Section 4.2 Any unauthorized access shall be reported within 24 hours.  ")).

Definition policyContent : str :=
  lit "Section 4.2 Any unauthorized access shall be reported within 24 hours.".

Definition firstId : str := lit "doc-i".

(** A form whose title is too short. *)
Definition shortTitle : Form.t :=
  Form.mk (Some (lit "  ab  ")) (Some (lit "policy")) None
    (Some (lit "Section 4.2 Any unauthorized access shall be reported."))
.

Definition noListing : str -> Result (list str) := fun _ => Ok [].

(** A host whose key/value store throws on deletes of content keys. *)
Definition contentStays : Host :=
  mkHost false NoIndex (fun _ => embedded)
    (fun _ => None)
    (fun key => if includes key (lit ":content")
                then Some (ErrorObject (lit "KV delete failed")) else None)
    (fun _ => None) (fun _ => None)
    (fun n => lit "doc-" ++ repeat "i"%char (S n))
    (fun n => Z.of_nat n)
    stringify.

Definition policyTitle : str := lit "Data Privacy Policy".

Definition policyTags : list str := [lit "privacy"; lit "data"; lit "security"].

(** The site after the upload of [policyForm] to the empty site. *)
Definition afterUpload (h : Host) : Site := snd (upload h (Ok policyForm) emptySite).

(** A site holding a document other than the one deleted. *)
Definition otherSite : Site :=
  mkSite [(lit "doc:other", Fixtures.policyRecord);
          (lit "doc:doc-i", Fixtures.policyRecord)]
         [(lit "other.txt", lit "The retention period is 30 days.");
          (lit "doc-i.txt", policyContent)]
         [] 2 2.

Definition agentEnv : Env := Fixtures.envOf [].

(** The agent over the stores that the upload of [policyForm] left. *)
Definition readerAfterUpload : Env :=
  Reader.envOf (quietHost true) (afterUpload (quietHost true)) noListing agentEnv.

End AdminSamples.

(** ** The two listings of the worker *)

Module Listing.

(** What [JSON.parse] returns: [null], or a value with properties. *)
Inductive Parsed (Json : Type) :=
| Null
| Value (v : Json).

Arguments Null {Json}.
Arguments Value {Json} v.

(** The replies of the two routes; of a failure only the status is kept. *)
Inductive Reply (Json : Type) :=
| Listed (count : nat) (documents : list (str * Json))
| Debugged (totalKeys : nat) (documents : list (str * option Json))
| Failed.

Arguments Listed {Json} count documents.
Arguments Debugged {Json} totalKeys documents.
Arguments Failed {Json}.

Definition status {Json : Type} (r : Reply Json) : nat :=
  match r with
  | Listed _ _ | Debugged _ _ => 200
  | Failed => 500
  end.

(** [!key.name.includes(':content')] *)
Definition isMetadataKey (name : str) : bool := negb (includes name (lit ":content")).

(** [documents.filter(doc => doc !== null)] *)
Fixpoint validDocuments {A : Type} (documents : list (option A)) : list A :=
  match documents with
  | [] => []
  | Some d :: rest => d :: validDocuments rest
  | None :: rest => validDocuments rest
  end.

(** [Promise.all]: the values when every promise is fulfilled. *)
Fixpoint all {A : Type} (promises : list (Result A)) : option (list A) :=
  match promises with
  | [] => Some []
  | Ok a :: rest =>
      match all rest with
      | Some values => Some (a :: values)
      | None => None
      end
  | Err _ :: _ => None
  end.

(** The entries of a debug listing that have metadata. *)
Fixpoint withMetadata {Json : Type} (docs : list (str * option Json)) : list (str * Json) :=
  match docs with
  | [] => []
  | (key, Some metadata) :: rest => (key, metadata) :: withMetadata rest
  | (_, None) :: rest => withMetadata rest
  end.

Section Routes.

Variable Json : Type.
Variable COMPLIANCE_KV : option KVNamespace.
Variable JSON_parse : str -> Result (Parsed Json).

(** The callback of the administration listing: [null] for a key without
    metadata, for metadata that does not parse, and for metadata that
    parses to [null], whose [title] cannot be read. *)
Definition entry (kv : KVNamespace) (name : str) : option (str * Json) :=
  match kv_get kv name with
  | Ok (Some []) => None
  | Ok (Some metadataStr) =>
      match JSON_parse metadataStr with
      | Ok (Value metadata) => Some (name, metadata)
      | Ok Null => None
      | Err _ => None
      end
  | Ok None => None
  | Err _ => None
  end.

(** [app.get('/api/admin/documents', ...)] *)
Definition listDocuments : Reply Json :=
  match COMPLIANCE_KV with
  | Some kv =>
      match kv_list kv (lit "doc:") with
      | Ok keys =>
          let documents := map (entry kv) (filter isMetadataKey keys) in
          Listed (length (validDocuments documents)) (validDocuments documents)
      | Err _ => Failed
      end
  | None => Failed
  end.

(** The callback of the debug listing, which catches nothing. *)
Definition debugEntry (kv : KVNamespace) (name : str) : Result (str * option Json) :=
  match kv_get kv name with
  | Ok (Some []) => Ok (name, None)
  | Ok (Some metadata) =>
      match JSON_parse metadata with
      | Ok (Value v) => Ok (name, Some v)
      | Ok Null => Ok (name, None)
      | Err e => Err e
      end
  | Ok None => Ok (name, None)
  | Err e => Err e
  end.

(** [app.get('/api/debug/documents', ...)] *)
Definition debugDocuments : Reply Json :=
  match COMPLIANCE_KV with
  | Some kv =>
      match kv_list kv (lit "doc:") with
      | Ok keys =>
          match all (map (debugEntry kv) (filter isMetadataKey keys)) with
          | Some docs => Debugged (length keys) docs
          | None => Failed
          end
      | Err _ => Failed
      end
  | None => Failed
  end.

End Routes.

(** A store with one good record, one record cut short, which does not
    parse, and one content key. *)
Definition sampleStore : KVNamespace :=
  Fixtures.kvOf
    [ (lit "doc:d1", Fixtures.policyRecord);
      (lit "doc:d1:content", lit "Section 4.2 Any unauthorized access shall be reported.");
      (lit "doc:d2", lit "{" ++ Fixtures.quoted (lit "title") ++ lit ":") ].

(** A store in which every record parses, one of them to [null]. *)
Definition cleanStore : KVNamespace :=
  Fixtures.kvOf
    [ (lit "doc:d1", Fixtures.policyRecord);
      (lit "doc:d1:content", lit "Section 4.2 Any unauthorized access shall be reported.");
      (lit "doc:d3", lit "null") ].

(** [JSON.parse] on the records of the two stores; the value of a record is
    kept as its text. *)
Definition sampleParse (text : str) : Result (Parsed str) :=
  if str_eqb text (lit "null") then Ok Null
  else if str_eqb text Fixtures.policyRecord then Ok (Value text)
  else Err syntaxError.

Definition sampleKeys : list str := [lit "doc:d1"; lit "doc:d1:content"; lit "doc:d2"].

Definition cleanListing : list (str * option str) :=
  [ (lit "doc:d1", Some Fixtures.policyRecord);
    (lit "doc:d3", None) ].

End Listing.

(** * Properties *)

(** ** Relevance extractor *)

Section ExtractorFacts.

Import Extractor.

Lemma keywordScore_no_hit (words : list str) (l : str) :
  (forall w, In w words -> includes (toLowerCase l) w = false) ->
  keywordScore words l = 0.
Proof.
  unfold keywordScore. generalize 0 at 2 3 as acc.
  induction words as [|w ws IH]; intros acc Hno; simpl.
  - reflexivity.
  - rewrite (Hno w) by (left; reflexivity).
    apply IH. intros w' Hw'. apply Hno. right. exact Hw'.
Qed.

Lemma scoreFrom_lines (words : list str) (ls : list str) :
  forall i sl, In sl (scoreFrom words i ls) ->
  exists l, In l ls /\ score sl = lineScore words l.
Proof.
  induction ls as [|l rest IH]; intros i sl Hin; simpl in Hin.
  - contradiction.
  - destruct Hin as [<- | Hin].
    + exists l. split; [left; reflexivity | reflexivity].
    + destruct (IH _ _ Hin) as (l' & Hl' & Hs).
      exists l'. split; [right; exact Hl' | exact Hs].
Qed.

Lemma filter_none {A : Type} (p : A -> bool) (l : list A) :
  (forall x, In x l -> p x = false) -> filter p l = [].
Proof.
  induction l as [|x xs IH]; intros Hp; simpl.
  - reflexivity.
  - rewrite (Hp x) by (left; reflexivity).
    apply IH. intros y Hy. apply Hp. right. exact Hy.
Qed.

End ExtractorFacts.

(** C4.  For every query and every document of at most 8000 characters, the
    relevance extractor returns the document content unchanged. *)
Theorem extract_short_unchanged (content query : str) :
  length content <= 8000 ->
  ChatAgent.extractRelevantPortion content query = content.
Proof.
  intros Hlen.
  unfold ChatAgent.extractRelevantPortion, Extractor.extractRelevantPortion.
  apply Nat.leb_le in Hlen. rewrite Hlen. reflexivity.
Qed.

Lemma extract_short_unchanged_witness :
  length Fixtures.policyText <= 8000 /\
  ChatAgent.extractRelevantPortion Fixtures.policyText (lit "incident reporting window")
  = Fixtures.policyText.
Proof.
  assert (H : length Fixtures.policyText <= 8000)
    by (apply Nat.leb_le; vm_compute; reflexivity).
  split; [exact H | apply (extract_short_unchanged _ _ H)].
Defined.

(** C3, as amended.  For every document longer than 8000 characters and every
    query such that no key word of the query (a white-space separated token
    longer than 3 characters, lower-cased) occurs in any line of the document
    and no line of the document matches the section-marker pattern, the
    relevance extractor returns exactly the first 6000 characters of the
    content. *)
Theorem extract_no_hits_first_6000 (content query : str) :
  8000 < length content ->
  (forall w l, In w (Extractor.queryWords query) -> In l (splitOn LF content) ->
     includes (toLowerCase l) w = false) ->
  (forall l, In l (splitOn LF content) -> SectionMarker.test l = false) ->
  ChatAgent.extractRelevantPortion content query = firstn 6000 content.
Proof.
  intros Hlen Hwords Hmarks.
  unfold ChatAgent.extractRelevantPortion, Extractor.extractRelevantPortion.
  apply Nat.leb_gt in Hlen. rewrite Hlen.
  rewrite filter_none; [reflexivity|].
  intros sl Hsl. unfold Extractor.scoredLines in Hsl.
  destruct (scoreFrom_lines _ _ _ _ Hsl) as (l & Hl & Hscore).
  rewrite Hscore. unfold Extractor.lineScore.
  rewrite (Hmarks l Hl).
  rewrite keywordScore_no_hit; [reflexivity|].
  intros w Hw. apply Hwords; assumption.
Qed.

Lemma forallb_pairs {A B : Type} (p : A -> B -> bool) (la : list A) (lb : list B) :
  forallb (fun a => forallb (p a) lb) la = true ->
  forall a b, In a la -> In b lb -> p a b = true.
Proof.
  intros H a b Ha Hb.
  rewrite forallb_forall in H. specialize (H a Ha).
  rewrite forallb_forall in H. exact (H b Hb).
Qed.

Lemma no_hits_check (content query : str) :
  forallb (fun w => forallb (fun l => negb (includes (toLowerCase l) w)) (splitOn LF content))
    (Extractor.queryWords query) = true ->
  forall w l, In w (Extractor.queryWords query) -> In l (splitOn LF content) ->
    includes (toLowerCase l) w = false.
Proof.
  intros H w l Hw Hl.
  apply negb_true_iff.
  exact (forallb_pairs (fun w l => negb (includes (toLowerCase l) w)) _ _ H w l Hw Hl).
Qed.

Lemma no_marks_check (content : str) :
  forallb (fun l => negb (SectionMarker.test l)) (splitOn LF content) = true ->
  forall l, In l (splitOn LF content) -> SectionMarker.test l = false.
Proof.
  intros H l Hl. rewrite forallb_forall in H.
  apply negb_true_iff. exact (H l Hl).
Qed.

Lemma extract_no_hits_first_6000_witness :
  ChatAgent.extractRelevantPortion Fixtures.plainDocument (lit "hello")
  = firstn 6000 Fixtures.plainDocument.
Proof.
  apply extract_no_hits_first_6000.
  - apply Nat.leb_gt. vm_compute. reflexivity.
  - apply no_hits_check. vm_compute. reflexivity.
  - apply no_marks_check. vm_compute. reflexivity.
Defined.

(** C3 as stated fails: a long document none of whose lines contains a key
    word of the query, but one of whose lines carries a section marker, is
    cut around that line instead. *)
Lemma extract_no_keyword_hits_counterexample :
  ~ (forall content query : str,
       8000 < length content ->
       (forall w l, In w (Extractor.queryWords query) -> In l (splitOn LF content) ->
          includes (toLowerCase l) w = false) ->
       ChatAgent.extractRelevantPortion content query = firstn 6000 content).
Proof.
  intros claim.
  specialize (claim Fixtures.markedDocument (lit "hello")).
  assert (Hlen : 8000 < length Fixtures.markedDocument)
    by (apply Nat.leb_gt; vm_compute; reflexivity).
  assert (Hno : forall w l, In w (Extractor.queryWords (lit "hello")) ->
                  In l (splitOn LF Fixtures.markedDocument) ->
                  includes (toLowerCase l) w = false)
    by (apply no_hits_check; vm_compute; reflexivity).
  specialize (claim Hlen Hno).
  assert (Hx : hd LF (ChatAgent.extractRelevantPortion Fixtures.markedDocument (lit "hello")) = LF)
    by (vm_compute; reflexivity).
  assert (Hy : hd LF (firstn 6000 Fixtures.markedDocument) = "x"%char)
    by (vm_compute; reflexivity).
  rewrite claim, Hy in Hx. discriminate Hx.
Qed.

(** ** Sets of strings *)

Lemma str_eqb_eq (a b : str) : str_eqb a b = true <-> a = b.
Proof.
  revert b. induction a as [|x a IH]; intros [|y b]; simpl; split; intros H;
    try reflexivity; try discriminate.
  - apply andb_true_iff in H. destruct H as [Hxy Hab].
    apply Ascii.eqb_eq in Hxy. apply IH in Hab. congruence.
  - injection H as -> ->. apply andb_true_iff. split.
    + apply Ascii.eqb_eq. reflexivity.
    + apply IH. reflexivity.
Qed.

Lemma has_In (h : str) (seen : list str) : ChatAgent.has h seen = true <-> In h seen.
Proof.
  unfold ChatAgent.has. rewrite existsb_exists. split.
  - intros (x & Hx & Heq). apply str_eqb_eq in Heq. subst x. exact Hx.
  - intros Hin. exists h. split; [exact Hin | apply str_eqb_eq; reflexivity].
Qed.

(** ** Effects of the retrieval stage *)

Section Frames.

Import ChatAgent Run.

Context {P : Call -> Prop}.

Lemma extends_refl (w : World) : extends P w w.
Proof.
  repeat split. exists []. split; [symmetry; apply app_nil_r | constructor].
Qed.

Lemma extends_trans (w1 w2 w3 : World) :
  extends P w1 w2 -> extends P w2 w3 -> extends P w1 w3.
Proof.
  intros (Hh & Ht & n1 & Hc1 & Hf1) (Hh' & Ht' & n2 & Hc2 & Hf2).
  split; [congruence|]. split; [congruence|].
  exists (n1 ++ n2). split.
  - rewrite Hc2, Hc1. symmetry. apply app_assoc.
  - apply Forall_app. split; assumption.
Qed.

Lemma frames_ret {A : Type} (a : A) : frames P (ret a).
Proof. intros w. apply extends_refl. Qed.

Lemma frames_throw {A : Type} (e : exn) : frames P (@throw A e).
Proof. intros w. apply extends_refl. Qed.

Lemma frames_lift {A : Type} (r : Result A) : frames P (lift r).
Proof. intros w. apply extends_refl. Qed.

Lemma frames_bind {A B : Type} (m : M A) (k : A -> M B) :
  frames P m -> (forall a, frames P (k a)) -> frames P (bind m k).
Proof.
  intros Hm Hk w. unfold bind. specialize (Hm w).
  destruct (m w) as [[a | e] w1]; simpl in *.
  - eapply extends_trans; [exact Hm | apply Hk].
  - exact Hm.
Qed.

Lemma frames_tryCatch {A : Type} (m : M A) (h : exn -> M A) :
  frames P m -> (forall e, frames P (h e)) -> frames P (tryCatch m h).
Proof.
  intros Hm Hh w. unfold tryCatch. specialize (Hm w).
  destruct (m w) as [[a | e] w1]; simpl in *.
  - exact Hm.
  - eapply extends_trans; [exact Hm | apply Hh].
Qed.

Lemma frames_await {A : Type} (c : Call) (r : Result A) :
  P c -> frames P (await c r).
Proof.
  intros Hc w. unfold await, bind, emit, lift. simpl.
  repeat split. exists [c]. split; [reflexivity | constructor; [exact Hc | constructor]].
Qed.

End Frames.

Section Retrieval.

Import ChatAgent Run.

Variable env : Env.

Lemma getDocumentContent_frames (docId : str) :
  frames retrievalCall (getDocumentContent env docId).
Proof.
  unfold getDocumentContent.
  assert (HKV : frames retrievalCall
                  match COMPLIANCE_KV env with
                  | Some kv =>
                      await (KVGet (lit "doc:" ++ docId ++ lit ":content"))
                        (kv_get kv (lit "doc:" ++ docId ++ lit ":content"))
                  | None => ret None
                  end).
  { destruct (COMPLIANCE_KV env); [apply frames_await; exact I | apply frames_ret]. }
  apply frames_tryCatch; [| intros; apply frames_ret].
  destruct (COMPLIANCE_DOCS env) as [bucket|]; [| exact HKV].
  apply frames_bind; [apply frames_await; exact I|].
  intros [content|]; [apply frames_ret | exact HKV].
Qed.

Lemma getDocumentContent_total (docId : str) (w : World) :
  exists content, fst (getDocumentContent env docId w) = Ok content.
Proof.
  unfold getDocumentContent, tryCatch.
  match goal with |- context [match ?m w with _ => _ end] => destruct (m w) as [[a | e] w1] end.
  - exists a. reflexivity.
  - exists None. reflexivity.
Qed.

(** *** The callbacks of the similarity search, under any order of delivery *)

Lemma frames_emit (P : Call -> Prop) (c : Call) : P c -> frames P (emit c).
Proof.
  intros Hc w. unfold emit. cbn [snd history ticks calls].
  repeat split. exists [c]. split; [reflexivity | constructor; [exact Hc | constructor]].
Qed.

Section Deliveries.

Variable P : Call -> Prop.
Hypothesis blobReads : forall key, P (R2Get key).
Hypothesis kvReads : forall key, P (KVGet key).

Lemma readKV_run (docId : str) (w : World) :
  exists read, fst (readKV env docId w) = Ok read /\
               (forall r, read = Some r -> exists content, r = KVRead content) /\
               extends P w (snd (readKV env docId w)).
Proof.
  unfold readKV. destruct (COMPLIANCE_KV env) as [kv|].
  - eexists. split; [reflexivity|]. split; [intros r [= <-]; eexists; reflexivity|].
    apply (frames_bind (P := P)); [apply frames_emit; apply kvReads | intros; apply frames_ret].
  - exists None. split; [reflexivity|]. split; [discriminate | apply extends_refl].
Qed.

Lemma readContent_run (docId : str) (w : World) :
  exists read, fst (readContent env docId w) = Ok read /\
               extends P w (snd (readContent env docId w)).
Proof.
  unfold readContent. destruct (COMPLIANCE_DOCS env) as [bucket|].
  - eexists. split; [reflexivity|].
    apply (frames_bind (P := P)); [apply frames_emit; apply blobReads | intros; apply frames_ret].
  - destruct (readKV_run docId w) as (read & Hread & _ & Hext). exists read. split; assumption.
Qed.

Lemma list_sum_cons_eq (x : nat) (l : list nat) : list_sum (x :: l) = x + list_sum l.
Proof. reflexivity. Qed.

Lemma startAll_run (ms : list Vector.Match) :
  forall w, exists callbacks,
    fst (startAll env ms w) = Ok callbacks /\
    extends P w (snd (startAll env ms w)) /\
    Forall2 callbackOf ms callbacks /\
    pendingReads callbacks <= 2 * length ms /\
    kept callbacks = [].
Proof.
  induction ms as [|m rest IH]; intros w; cbn [startAll].
  - exists []. split; [reflexivity|]. split; [apply extends_refl|].
    split; [constructor|]. split; [unfold pendingReads; cbn; lia | reflexivity].
  - unfold bind, ret.
    destruct (readContent_run (Vector.id m) w) as (read & Hread & Hext).
    destruct (readContent env (Vector.id m) w) as [r0 w1]. cbn [fst snd] in Hread, Hext.
    subst r0.
    destruct (IH w1) as (callbacks & Hrest & Hext' & Hshape & Hreads & Hkept).
    destruct (startAll env rest w1) as [r1 w2]. cbn [fst snd] in Hrest, Hext'. subst r1.
    cbn [fst snd].
    eexists. split; [reflexivity|].
    split; [exact (extends_trans _ _ _ Hext Hext')|].
    destruct read as [r|].
    + split; [constructor; [reflexivity | exact Hshape]|].
      split.
      * unfold pendingReads in *. cbn [map length]. rewrite list_sum_cons_eq.
        destruct r; cbn [reads]; lia.
      * unfold kept in *. cbn [map valueOf filterBoolean]. exact Hkept.
    + split; [constructor; [exact I | exact Hshape]|].
      split.
      * unfold pendingReads in *. cbn [map length reads]. rewrite list_sum_cons_eq. lia.
      * unfold kept in *. cbn [map valueOf filterBoolean]. exact Hkept.
Qed.

Lemma finish_callbackOf (m : Vector.Match) (content : option str) (seen : list str) :
  callbackOf m (fst (finish m content seen)) /\ reads (fst (finish m content seen)) = 0.
Proof.
  unfold finish. destruct content as [[|c cs]|]; cbn [fst callbackOf reads]; try (split; [exact I | reflexivity]).
  destruct (has _ seen); cbn [fst callbackOf reads]; split; try reflexivity; try exact I.
  exists (c :: cs). split; [discriminate | reflexivity].
Qed.

Lemma kept_app (a b : list Callback) : kept (a ++ b) = kept a ++ kept b.
Proof.
  unfold kept. induction a as [|x a IH]; [reflexivity|].
  cbn [app map]. destruct (valueOf x); cbn [filterBoolean app]; rewrite IH; reflexivity.
Qed.

Lemma finish_distinct (m : Vector.Match) (content : option str) (seen : list str)
  (before after : list Callback) (r : Read) :
  distinct (before ++ Suspended m r :: after) seen ->
  distinct (before ++ fst (finish m content seen) :: after) (snd (finish m content seen)).
Proof.
  unfold distinct. rewrite !kept_app.
  change (kept (Suspended m r :: after)) with (kept after).
  intros (Hnd & Hsub).
  assert (Hnone : kept (Returned None :: after) = kept after) by reflexivity.
  unfold finish. destruct content as [[|c cs]|]; cbn [fst snd];
    try (rewrite Hnone; split; assumption).
  destruct (has (substring0 200 (c :: cs)) seen) eqn:Hseen; cbn [fst snd];
    [rewrite Hnone; split; assumption|].
  assert (Hfresh : ~ In (substring0 200 (c :: cs)) seen)
    by (intros Hin; apply has_In in Hin; congruence).
  change (kept (Returned (Some (Search.mk (Vector.id m) (c :: cs) (Vector.score m)
                                  (Vector.metadata m))) :: after))
    with (Search.mk (Vector.id m) (c :: cs) (Vector.score m) (Vector.metadata m) :: kept after).
  unfold prefixes in *. rewrite map_app in *. cbn [map Search.content]. split.
  - apply NoDup_Add with (a := substring0 200 (c :: cs))
                         (l := map (fun r0 => substring0 200 (Search.content r0)) (kept before)
                               ++ map (fun r0 => substring0 200 (Search.content r0)) (kept after)).
    + apply Add_app.
    + split; [exact Hnd|]. intros Hin. apply Hfresh. apply Hsub. exact Hin.
  - intros p Hp. apply in_or_app. apply in_app_or in Hp.
    destruct Hp as [Hp | [<- | Hp]].
    + left. apply Hsub. apply in_or_app. left. exact Hp.
    + right. left. reflexivity.
    + left. apply Hsub. apply in_or_app. right. exact Hp.
Qed.

Lemma pick_split (callbacks : list Callback) :
  forall n before m r after,
  pick n callbacks = Some (before, (m, r), after) ->
  callbacks = before ++ Suspended m r :: after.
Proof.
  induction callbacks as [|[m0 r0 | res] rest IH]; intros n before m r after; cbn [pick].
  - discriminate.
  - destruct n as [|n].
    + intros [= <- <- <- <-]. reflexivity.
    + destruct (pick n rest) as [[[b x] a]|] eqn:Hp; [| discriminate].
      intros [= <- -> <-]. cbn [app]. f_equal. exact (IH _ _ _ _ _ Hp).
  - destruct (pick n rest) as [[[b x] a]|] eqn:Hp; [| discriminate].
    intros [= <- -> <-]. cbn [app]. f_equal. exact (IH _ _ _ _ _ Hp).
Qed.

Lemma pick_waiting (callbacks : list Callback) :
  forall n, n < length (filter isSuspended callbacks) -> pick n callbacks <> None.
Proof.
  induction callbacks as [|[m0 r0 | res] rest IH]; intros n Hn; cbn [pick filter isSuspended length] in *.
  - lia.
  - destruct n as [|n]; [discriminate|].
    specialize (IH n ltac:(lia)). destruct (pick n rest) as [[[b x] a]|]; [discriminate | contradiction].
  - specialize (IH n Hn). destruct (pick n rest) as [[[b x] a]|]; [discriminate | contradiction].
Qed.

Lemma pendingReads_waiting (callbacks : list Callback) :
  pendingReads callbacks = 0 <-> filter isSuspended callbacks = [].
Proof.
  unfold pendingReads. induction callbacks as [|[m0 [o | c] | res] rest IH];
    cbn [map filter isSuspended reads]; rewrite ?list_sum_cons_eq.
  - split; reflexivity.
  - split; [lia | discriminate].
  - split; [lia | discriminate].
  - exact IH.
Qed.

Lemma pendingReads_app (a b : list Callback) :
  pendingReads (a ++ b) = pendingReads a + pendingReads b.
Proof. unfold pendingReads. rewrite map_app, list_sum_app. reflexivity. Qed.

Lemma Forall2_replace (ms : list Vector.Match) (before after : list Callback)
  (m : Vector.Match) (r : Read) (callback : Callback) :
  Forall2 callbackOf ms (before ++ Suspended m r :: after) ->
  callbackOf m callback ->
  Forall2 callbackOf ms (before ++ callback :: after).
Proof.
  intros Hall Hcb. apply Forall2_app_inv_r in Hall.
  destruct Hall as (ms1 & ms2 & H1 & H2 & ->).
  inversion H2 as [|m0 x ms2' after' Hm0 Hrest]; subst.
  cbn [callbackOf] in Hm0. subst m0.
  apply Forall2_app; [exact H1 | constructor; assumption].
Qed.

(** One delivery: the callback goes on to the read of the fallback, or
    returns. *)
Lemma resume_run (m : Vector.Match) (r : Read) (seen : list str) (w : World)
  (ms : list Vector.Match) (before after : list Callback) :
  Forall2 callbackOf ms (before ++ Suspended m r :: after) ->
  distinct (before ++ Suspended m r :: after) seen ->
  exists callback seen',
    fst (resume env m r seen w) = Ok (callback, seen') /\
    extends P w (snd (resume env m r seen w)) /\
    Forall2 callbackOf ms (before ++ callback :: after) /\
    distinct (before ++ callback :: after) seen' /\
    reads callback < reads (Suspended m r).
Proof.
  intros Hshape Hdist.
  assert (Hfinish : forall content,
            exists callback seen',
              (Ok (finish m content seen) : Result (Callback * list str))
              = Ok (callback, seen') /\
              Forall2 callbackOf ms (before ++ callback :: after) /\
              distinct (before ++ callback :: after) seen' /\
              reads callback < reads (Suspended m r)).
  { intros content. exists (fst (finish m content seen)), (snd (finish m content seen)).
    destruct (finish_callbackOf m content seen) as (Hcb & Hzero).
    split; [destruct (finish m content seen); reflexivity|].
    split; [exact (Forall2_replace _ _ _ _ _ _ Hshape Hcb)|].
    split; [exact (finish_distinct m content seen before after r Hdist)|].
    rewrite Hzero. destruct r; cbn [reads]; lia. }
  unfold resume. destruct r as [[[text|]|e] | [content|e]].
  - destruct (Hfinish (Some text)) as (cb & seen' & Heq & H1 & H2 & H3).
    exists cb, seen'. cbn [ret fst snd]. unfold ret. cbn [fst snd].
    split; [exact Heq|]. split; [apply extends_refl|]. split; [exact H1|]. split; [exact H2 | exact H3].
  - unfold bind.
    destruct (readKV_run (Vector.id m) w) as (read & Hread & Hkind & Hext).
    destruct (readKV env (Vector.id m) w) as [r0 w1]. cbn [fst snd] in Hread, Hext. subst r0.
    destruct read as [r'|].
    + destruct (Hkind r' eq_refl) as (content & ->).
      exists (Suspended m (KVRead content)), seen. unfold ret. cbn [fst snd].
      split; [reflexivity|]. split; [exact Hext|].
      split; [exact (Forall2_replace _ _ _ _ _ (Suspended m (KVRead content)) Hshape eq_refl)|].
      split; [| cbn [reads]; lia].
      unfold distinct in *. rewrite kept_app in *. exact Hdist.
    + destruct (Hfinish None) as (cb & seen' & Heq & H1 & H2 & H3).
      exists cb, seen'. unfold ret. cbn [fst snd].
      split; [exact Heq|]. split; [exact Hext|]. split; [exact H1|]. split; [exact H2 | exact H3].
  - destruct (Hfinish None) as (cb & seen' & Heq & H1 & H2 & H3).
    exists cb, seen'. unfold ret. cbn [fst snd].
    split; [exact Heq|]. split; [apply extends_refl|]. split; [exact H1|]. split; [exact H2 | exact H3].
  - destruct (Hfinish content) as (cb & seen' & Heq & H1 & H2 & H3).
    exists cb, seen'. unfold ret. cbn [fst snd].
    split; [exact Heq|]. split; [apply extends_refl|]. split; [exact H1|]. split; [exact H2 | exact H3].
  - destruct (Hfinish None) as (cb & seen' & Heq & H1 & H2 & H3).
    exists cb, seen'. unfold ret. cbn [fst snd].
    split; [exact Heq|]. split; [apply extends_refl|]. split; [exact H1|]. split; [exact H2 | exact H3].
Qed.

(** The deliveries end with every callback returned, whatever their order,
    when [deliveries] covers the reads still to come. *)
Lemma settle_run (ms : list Vector.Match) :
  forall deliveries k callbacks seen w,
  Forall2 callbackOf ms callbacks ->
  distinct callbacks seen ->
  pendingReads callbacks <= deliveries ->
  exists settled,
    fst (settle env deliveries k callbacks seen w) = Ok settled /\
    extends P w (snd (settle env deliveries k callbacks seen w)) /\
    Forall2 callbackOf ms settled /\
    NoDup (prefixes (kept settled)) /\
    filter isSuspended settled = [].
Proof.
  induction deliveries as [|n IH]; intros k callbacks seen w Hshape Hdist Hreads;
    cbn [settle].
  - exists callbacks. unfold ret. cbn [fst snd]. split; [reflexivity|].
    split; [apply extends_refl|]. split; [exact Hshape|]. split; [exact (proj1 Hdist)|].
    apply pendingReads_waiting. lia.
  - destruct (pick (Promise_order env k mod length (filter isSuspended callbacks)) callbacks)
      as [[[before [m r]] after]|] eqn:Hpick.
    + apply pick_split in Hpick. subst callbacks.
      destruct (resume_run m r seen w ms before after Hshape Hdist)
        as (cb & seen' & Hres & Hext & Hshape' & Hdist' & Hless).
      unfold bind. destruct (resume env m r seen w) as [r0 w1].
      cbn [fst snd] in Hres, Hext. subst r0. cbn [fst snd].
      assert (Hreads' : pendingReads (before ++ cb :: after) <= n).
      { rewrite pendingReads_app in *. unfold pendingReads in *.
        cbn [map] in *. rewrite list_sum_cons_eq in *. lia. }
      destruct (IH (S k) _ seen' w1 Hshape' Hdist' Hreads')
        as (settled & Hrun & Hext' & Hs & Hnd & Hdone).
      exists settled. split; [exact Hrun|].
      split; [exact (extends_trans _ _ _ Hext Hext')|].
      split; [exact Hs|]. split; [exact Hnd | exact Hdone].
    + exists callbacks. unfold ret. cbn [fst snd]. split; [reflexivity|].
      split; [apply extends_refl|]. split; [exact Hshape|]. split; [exact (proj1 Hdist)|].
      destruct (filter isSuspended callbacks) as [|c0 rest0] eqn:Hw; [reflexivity|].
      exfalso. apply (pick_waiting callbacks
                        (Promise_order env k mod length (c0 :: rest0))).
      * rewrite Hw. apply Nat.mod_upper_bound. cbn [length]. lia.
      * exact Hpick.
Qed.

(** [collectMatches] never throws and makes content reads only.  Its
    values are in the order of the matches: each is [null] or the candidate
    of its match with a text that is not empty, and the candidates have
    pairwise different 200-character prefixes. *)
Lemma collectMatches_run (ms : list Vector.Match) (w : World) :
  exists out,
    fst (collectMatches env ms w) = Ok out /\
    extends P w (snd (collectMatches env ms w)) /\
    Forall2 (fun m o => callbackOf m (Returned o)) ms out /\
    NoDup (prefixes (filterBoolean out)).
Proof.
  unfold collectMatches, bind, ret.
  destruct (startAll_run ms w) as (callbacks & Hstart & Hext & Hshape & Hreads & Hkept).
  destruct (startAll env ms w) as [r0 w1]. cbn [fst snd] in Hstart, Hext. subst r0.
  assert (Hdist : distinct callbacks []).
  { unfold distinct. rewrite Hkept. split; [constructor | intros p []]. }
  destruct (settle_run ms (2 * length ms) 0 callbacks [] w1 Hshape Hdist Hreads)
    as (settled & Hrun & Hext' & Hs & Hnd & Hdone).
  destruct (settle env (2 * length ms) 0 callbacks [] w1) as [r1 w2].
  cbn [fst snd] in Hrun, Hext'. subst r1. cbn [fst snd].
  exists (map valueOf settled). split; [reflexivity|].
  split; [exact (extends_trans _ _ _ Hext Hext')|]. split; [| exact Hnd].
  clear - Hs Hdone. induction Hs as [|m cb ms' cbs Hm Hrest IH]; [constructor|].
  cbn [filter] in Hdone. destruct cb as [m' r | res]; cbn [isSuspended] in Hdone;
    [discriminate|].
  cbn [map valueOf]. constructor; [exact Hm | exact (IH Hdone)].
Qed.

End Deliveries.

Lemma collectMatches_frames (ms : list Vector.Match) :
  frames retrievalCall (collectMatches env ms).
Proof.
  intros w.
  destruct (collectMatches_run retrievalCall (fun _ => I) (fun _ => I) ms w)
    as (out & _ & Hext & _).
  exact Hext.
Qed.

Lemma vectorSearch_frames (qe : Vector.EmbeddingResponse) :
  frames retrievalCall (vectorSearch env qe).
Proof.
  unfold vectorSearch.
  destruct (DOCS_VECTORDB env) as [| | query]; try apply frames_ret.
  apply frames_tryCatch; [| intros; apply frames_ret].
  apply frames_bind.
  { destruct (Vector.data qe); [apply frames_ret | apply frames_throw]. }
  intros d. apply frames_bind; [apply frames_await; reflexivity|].
  intros sr. apply frames_bind.
  { destruct (Vector.matches sr); [apply frames_ret | apply frames_throw]. }
  intros ms. apply frames_bind; [apply collectMatches_frames | intros; apply frames_ret].
Qed.

Lemma scoreDocument_frames (kv : KVNamespace) (words : list str) (name : str) :
  frames retrievalCall (scoreDocument env kv words name).
Proof.
  unfold scoreDocument.
  destruct (includes name _); [apply frames_ret|].
  apply frames_tryCatch; [| intros; apply frames_ret].
  apply frames_bind; [apply frames_await; exact I|].
  intros [[|c cs]|]; try apply frames_ret.
  apply frames_bind; [apply frames_lift|].
  intros md. destruct (idOfKey name) as [[|i tl]|]; try apply frames_ret.
  apply frames_bind; [apply getDocumentContent_frames|].
  intros [[|t ts]|]; try apply frames_ret.
  apply frames_bind; [apply frames_lift|].
  intros score. destruct (0 <? score); apply frames_ret.
Qed.

Lemma scoreDocuments_frames (kv : KVNamespace) (words : list str) (names : list str) :
  frames retrievalCall (scoreDocuments env kv words names).
Proof.
  induction names as [|name rest IH]; simpl.
  - apply frames_ret.
  - apply frames_bind; [apply scoreDocument_frames|].
    intros entry. apply frames_bind; [exact IH | intros; apply frames_ret].
Qed.

Lemma keywordSearch_frames (message : str) :
  frames retrievalCall (keywordSearch env message).
Proof.
  unfold keywordSearch.
  destruct (COMPLIANCE_KV env) as [kv|]; [| apply frames_ret].
  apply frames_bind; [apply frames_await; exact I|].
  intros keys. apply frames_bind; [apply scoreDocuments_frames | intros; apply frames_ret].
Qed.

Lemma retrieve_frames (message : str) (qe : Vector.EmbeddingResponse) :
  frames retrievalCall (retrieve env message qe).
Proof.
  unfold retrieve.
  apply frames_bind; [apply vectorSearch_frames|].
  intros [|r rs]; [apply keywordSearch_frames | apply frames_ret].
Qed.

(** The similarity step always yields a list: whatever is thrown inside the
    guarded block is replaced by the empty list. *)
Lemma vectorSearch_total (qe : Vector.EmbeddingResponse) (w : World) :
  exists results, fst (vectorSearch env qe w) = Ok results.
Proof.
  unfold vectorSearch.
  destruct (DOCS_VECTORDB env) as [| | query]; try (exists []; reflexivity).
  unfold tryCatch.
  match goal with |- context [match ?m w with _ => _ end] => destruct (m w) as [[a | e] w1] end.
  - exists a. reflexivity.
  - exists []. reflexivity.
Qed.

End Retrieval.

(** ** The runs of a request *)

Section ProcessRuns.

Import ChatAgent Run.

Lemma buildContext_citations (validResults : list Search.t) (message : str) :
  forall acc documentContext,
  buildContext validResults message acc = Ok documentContext ->
  exists context, citations validResults = Ok context.
Proof.
  induction validResults as [|doc rest IH]; intros acc ctx H; simpl in *.
  - exists []. reflexivity.
  - destruct (Search.metadata doc) as [md|]; [| discriminate].
    destruct (IH _ _ H) as (cs & Hcs). rewrite Hcs. eexists. reflexivity.
Qed.

Lemma contextOf_citations (validResults : list Search.t) (message documentContext : str) :
  contextOf validResults message = Ok documentContext ->
  exists context, citations validResults = Ok context.
Proof.
  unfold contextOf. destruct validResults as [|doc rest]; simpl (0 <? _).
  - intros _. exists []. reflexivity.
  - apply buildContext_citations.
Qed.

(** Every run of the [try] block is one of the five runs of [Process]. *)
Lemma process_run (env : Env) (message : str) (w : World) :
  forall r w', process env message w = (r, w') -> Process env message w r w'.
Proof.
  intros r w'. unfold process.
  unfold bind, storageGet, await, bind, emit, lift, now, storagePut, ret.
  cbn [fst snd history calls ticks].
  fold (afterEmbedding message w).
  destruct (AI_embed env message) as [qe | e] eqn:Hembed.
  2:{ intros [= <- <-]. apply EmbeddingThrows. exact Hembed. }
  pose proof (retrieve_frames env message qe (afterEmbedding message w)) as Hframe.
  destruct (retrieve env message qe (afterEmbedding message w)) as [[validResults | e] w2] eqn:Hret;
    cbn [snd] in Hframe.
  2:{ intros [= <- <-]. eapply RetrievalThrows; eassumption. }
  fold (contextOf validResults message).
  destruct (contextOf validResults message) as [documentContext | e] eqn:Hctx.
  2:{ intros [= <- <-]. eapply AssemblyThrows; eassumption. }
  cbn [fst snd history calls ticks].
  change (match history w with Some h => h | None => [] end) with (stored w).
  change ([Chat.mkMessage Chat.system (systemMessage validResults documentContext)
             (Date_now env (ticks w2))]
          ++ sliceLast 2 (stored w)
          ++ [Chat.mkMessage Chat.user message (Date_now env (S (ticks w2)))])
    with (aiMessages env message validResults documentContext w w2).
  destruct (AI_generate env (aiMessages env message validResults documentContext w w2))
    as [ai | e] eqn:Hgen.
  2:{ intros [= <- <-]. eapply GenerationThrows; eassumption. }
  destruct (contextOf_citations _ _ _ Hctx) as (context & Hcite).
  rewrite Hcite. cbn [fst snd history calls ticks Chat.content].
  intros [= <- <-]. eapply Answered; eassumption.
Qed.

(** [fetch] on a request with a message: the run of the [try] block, with a
    throw turned into the failure response. *)
Lemma fetch_process (env : Env) (c : ascii) (cs : str) (w : World) :
  fetch env (Some (c :: cs)) w =
  match process env (c :: cs) w with
  | (Ok response, w') => (Ok response, w')
  | (Err e, w') => (Ok (failure e), w')
  end.
Proof. reflexivity. Qed.

End ProcessRuns.

(** ** Requests without a message *)

(** C10.  A chat request without a message parameter is answered at once with
    status 400: the stored history is neither read nor written, and no
    embedding, search or generation call is made, so the state of the session
    is unchanged. *)
Theorem fetch_without_message (env : Env) (w : World) :
  exists response w',
    ChatAgent.fetch env None w = (Ok response, w') /\
    status response = 400 /\
    body response = TextBody (lit "Message parameter is required") /\
    history w' = history w /\
    calls w' = calls w /\
    w' = w.
Proof.
  exists ChatAgent.badRequest, w. repeat split; reflexivity.
Qed.

(** ** The similarity search step *)

Section SimilaritySearch.

Import ChatAgent Run.

Lemma world_eta (w w' : World) (new : list Call) :
  history w' = history w -> ticks w' = ticks w -> calls w' = calls w ++ new ->
  w' = mkWorld (history w) (calls w ++ new) (ticks w).
Proof.
  destruct w'; simpl; intros -> -> ->. reflexivity.
Qed.

(** C8.  The similarity search step never raises.  Without a binding, or with
    a binding that has no callable [query], it yields the empty list and
    makes no call; when the query call throws, the throw is caught and the
    step yields the empty list; and every similarity query it issues has
    [topK] 3. *)
Theorem vectorSearch_never_raises (env : Env) (qe : Vector.EmbeddingResponse) (w : World) :
  (exists results new,
     vectorSearch env qe w = (Ok results, mkWorld (history w) (calls w ++ new) (ticks w)) /\
     Forall (fun c => match c with
                      | VectorQuery _ topK _ => topK = 3
                      | _ => True
                      end) new) /\
  match DOCS_VECTORDB env with
  | Vector.Missing | Vector.Malformed => vectorSearch env qe w = (Ok [], w)
  | Vector.Index query =>
      match Vector.data qe with
      | None => vectorSearch env qe w = (Ok [], w)
      | Some d =>
          match query (nth_error d 0) 3 true with
          | Err _ =>
              vectorSearch env qe w =
              (Ok [], mkWorld (history w)
                        (calls w ++ [VectorQuery (nth_error d 0) 3 true]) (ticks w))
          | Ok _ => True
          end
      end
  end.
Proof.
  split.
  - destruct (vectorSearch_total env qe w) as (results & Hres).
    destruct (vectorSearch_frames env qe w) as (Hh & Ht & new & Hc & Hall).
    exists results, new. split.
    + destruct (vectorSearch env qe w) as [r w'] eqn:Hrun. simpl in *. subst r.
      f_equal. apply world_eta; assumption.
    + eapply Forall_impl; [| exact Hall].
      intros [] H; simpl in *; try exact I; exact H.
  - unfold vectorSearch.
    destruct (DOCS_VECTORDB env) as [| | query]; try reflexivity.
    destruct (Vector.data qe) as [d|]; [| reflexivity].
    destruct (query (nth_error d 0) 3 true) as [sr | e] eqn:Hq; [exact I|].
    unfold tryCatch, bind, ret, await, bind, emit, lift. rewrite Hq. reflexivity.
Qed.

End SimilaritySearch.

(** ** The document context *)

Lemma buildContext_blocks (message : str) (validResults : list Search.t) :
  forall acc documentContext,
  ChatAgent.buildContext validResults message acc = Ok documentContext ->
  documentContext = acc ++ concat (map (Kinds.blockOf message) validResults).
Proof.
  induction validResults as [|doc rest IH]; intros acc ctx H; cbn [ChatAgent.buildContext] in H.
  - injection H as <-. cbn [map concat]. rewrite app_nil_r. reflexivity.
  - cbn [map concat]. unfold Kinds.blockOf at 1.
    destruct (Search.metadata doc) as [md|]; [| discriminate].
    rewrite (IH _ _ H), <- app_assoc. reflexivity.
Qed.

Lemma contextOf_blocks (message : str) (validResults : list Search.t) (documentContext : str) :
  Run.contextOf validResults message = Ok documentContext ->
  documentContext = concat (map (Kinds.blockOf message) validResults).
Proof.
  unfold Run.contextOf. destruct validResults as [|doc rest].
  - cbn [length Nat.ltb Nat.leb]. intros [= <-]. reflexivity.
  - cbn [length Nat.ltb Nat.leb]. intros H. exact (buildContext_blocks _ _ _ _ H).
Qed.

(** ** The messages sent to the generation call *)

Section Generation.

Import ChatAgent Run.

Lemma new_calls_nil (w : World) (new : list Call) :
  calls w = calls w ++ new -> new = [].
Proof.
  intros H. rewrite <- (app_nil_r (calls w)) in H at 1.
  apply app_inv_head in H. symmetry. exact H.
Qed.

Lemma retrievalCall_not_chat (new : list Call) (msgs : list Chat.Message)
  (temperature : Q) (max_tokens : nat) :
  Forall retrievalCall new -> ~ In (RunChat msgs temperature max_tokens) new.
Proof.
  intros Hall Hin. rewrite Forall_forall in Hall. exact (Hall _ Hin).
Qed.

Lemma retrievalCall_not_put (new : list Call) :
  Forall retrievalCall new -> forallb (fun c => negb (isPut c)) new = true.
Proof.
  intros Hall. apply forallb_forall. intros c Hc.
  rewrite Forall_forall in Hall. specialize (Hall c Hc).
  destruct c; simpl in *; try reflexivity; contradiction.
Qed.

Lemma sliceLast_suffix {A : Type} (n : nat) (l : list A) :
  l = firstn (length l - n) l ++ sliceLast n l /\
  length (sliceLast n l) = Nat.min n (length l).
Proof.
  unfold sliceLast. split; [symmetry; apply firstn_skipn|].
  rewrite length_skipn. lia.
Qed.

(** The instruction template demands verbatim quoting, real section numbers
    only, and a refusal when the answer is not in the documents. *)
Lemma template_demands :
  includes SYSTEM_PROMPT (lit "Quote the exact text from the document") = true /\
  includes SYSTEM_PROMPT (lit "DO NOT make up section numbers or quotes") = true /\
  includes SYSTEM_PROMPT (lit "If the answer is not in the document, say ") = true.
Proof. repeat split; vm_compute; reflexivity. Qed.

(** C9.  Whenever [fetch] calls the generation function, the messages it
    sends are, in this order: one system message; the last two messages of
    the stored history, if any; and the current user message.  Nothing else
    is sent.  The content of the system message is the instruction template,
    an empty line, and then, when there are candidates, the line announcing
    the policy documents, the assembled document context (the blocks of the
    candidates in their order) and the closing reminder, and, when there are
    none, the notice that no policy documents are available.  The template
    demands verbatim quoting, real section numbers only and a refusal when
    the answer is not in the documents. *)
Theorem generation_messages (env : Env) (message : option str) (w : World)
  (r : Result Response) (w' : World) (new : list Call)
  (msgs : list Chat.Message) (temperature : Q) (max_tokens : nat) :
  fetch env message w = (r, w') ->
  calls w' = calls w ++ new ->
  In (RunChat msgs temperature max_tokens) new ->
  exists m qe validResults documentContext w2 t0 t1 older,
    message = Some m /\
    AI_embed env m = Ok qe /\
    retrieve env m qe (afterEmbedding m w) = (Ok validResults, w2) /\
    contextOf validResults m = Ok documentContext /\
    documentContext = concat (map (Kinds.blockOf m) validResults) /\
    msgs =
      [Chat.mkMessage Chat.system
         (SYSTEM_PROMPT ++ [LF; LF]
          ++ match validResults with
             | [] =>
                 lit "NO POLICY DOCUMENTS AVAILABLE. You cannot answer compliance questions without documents."
             | _ :: _ =>
                 lit "Here are the policy documents you must reference:" ++ [LF; LF]
                 ++ documentContext ++ [LF; LF]
                 ++ lit "Remember: ONLY use information from the documents above. Quote exact text. Use actual section numbers from the documents."
             end) t0]
      ++ sliceLast 2 (stored w)
      ++ [Chat.mkMessage Chat.user m t1] /\
    stored w = older ++ sliceLast 2 (stored w) /\
    length (sliceLast 2 (stored w)) = Nat.min 2 (length (stored w)) /\
    includes SYSTEM_PROMPT (lit "Quote the exact text from the document") = true /\
    includes SYSTEM_PROMPT (lit "DO NOT make up section numbers or quotes") = true /\
    includes SYSTEM_PROMPT (lit "If the answer is not in the document, say ") = true.
Proof.
  intros Hfetch Hcalls Hin.
  assert (Hsent : exists m qe vr ctx w2,
            message = Some m /\ AI_embed env m = Ok qe /\
            retrieve env m qe (afterEmbedding m w) = (Ok vr, w2) /\
            contextOf vr m = Ok ctx /\
            msgs = aiMessages env m vr ctx w w2).
  { destruct message as [[|c cs]|].
    1,3: (injection Hfetch as _ <-; apply new_calls_nil in Hcalls; subst new; contradiction).
    rewrite fetch_process in Hfetch.
    destruct (process env (c :: cs) w) as [r0 w0] eqn:Hrun.
    apply process_run in Hrun.
    assert (Hw : w0 = w') by (destruct r0; congruence). subst w0. clear Hfetch.
    destruct Hrun as
      [ e He
      | qe e w2 He Hret (_ & _ & rnew & Hc2 & Hall)
      | qe vr e w2 He Hret (_ & _ & rnew & Hc2 & Hall) Hctx
      | qe vr ctx e w2 He Hret (_ & _ & rnew & Hc2 & Hall) Hctx msgs0 Hgen
      | qe vr ctx ai context w2 He Hret (_ & _ & rnew & Hc2 & Hall) Hctx msgs0 Hgen Hcite h ];
      cbn [calls afterEmbedding] in *.
    - repeat rewrite <- app_assoc in Hcalls. apply app_inv_head in Hcalls. subst new.
      simpl in Hin. destruct Hin as [|[|[]]]; discriminate.
    - rewrite Hc2 in Hcalls. repeat rewrite <- app_assoc in Hcalls.
      apply app_inv_head in Hcalls. subst new.
      simpl in Hin. destruct Hin as [|[|Hin]]; try discriminate.
      exfalso. exact (retrievalCall_not_chat _ _ _ _ Hall Hin).
    - rewrite Hc2 in Hcalls. repeat rewrite <- app_assoc in Hcalls.
      apply app_inv_head in Hcalls. subst new.
      simpl in Hin. destruct Hin as [|[|Hin]]; try discriminate.
      exfalso. exact (retrievalCall_not_chat _ _ _ _ Hall Hin).
    - rewrite Hc2 in Hcalls. repeat rewrite <- app_assoc in Hcalls.
      apply app_inv_head in Hcalls. subst new.
      simpl in Hin. destruct Hin as [|[|Hin]]; try discriminate.
      apply in_app_or in Hin. destruct Hin as [Hin | [Hin | []]].
      { exfalso. exact (retrievalCall_not_chat _ _ _ _ Hall Hin). }
      injection Hin as <- _ _.
      exists (c :: cs), qe, vr, ctx, w2.
      split; [reflexivity|]. repeat (split; [eassumption|]). reflexivity.
    - rewrite Hc2 in Hcalls. repeat rewrite <- app_assoc in Hcalls.
      apply app_inv_head in Hcalls. subst new.
      simpl in Hin. destruct Hin as [|[|Hin]]; try discriminate.
      apply in_app_or in Hin. destruct Hin as [Hin | [Hin | [Hin | []]]]; try discriminate.
      { exfalso. exact (retrievalCall_not_chat _ _ _ _ Hall Hin). }
      injection Hin as <- _ _.
      exists (c :: cs), qe, vr, ctx, w2.
      split; [reflexivity|]. repeat (split; [eassumption|]). reflexivity. }
  destruct Hsent as (m & qe & vr & ctx & w2 & Hm & He & Hret & Hctx & Hmsgs).
  destruct (sliceLast_suffix 2 (stored w)) as (Holder & Hlen).
  destruct template_demands as (Hquote & Hnumbers & Hrefuse).
  exists m, qe, vr, ctx, w2, (Date_now env (ticks w2)), (Date_now env (S (ticks w2))),
    (firstn (length (stored w) - 2) (stored w)).
  split; [exact Hm|]. split; [exact He|]. split; [exact Hret|]. split; [exact Hctx|].
  split; [exact (contextOf_blocks _ _ _ Hctx)|].
  split; [| split; [exact Holder|]; split; [exact Hlen|];
            split; [exact Hquote|]; split; [exact Hnumbers | exact Hrefuse]].
  rewrite Hmsgs. unfold aiMessages, systemMessage, withDocuments, noDocuments.
  destruct vr as [|d ds]; cbn [length Nat.ltb Nat.leb]; [reflexivity|].
  repeat rewrite <- app_assoc. reflexivity.
Qed.

End Generation.

Lemma generation_messages_witness :
  exists m qe validResults documentContext w2 t0 t1 older,
    Some (lit "reported") = Some m /\
    AI_embed (Fixtures.envOf Fixtures.oneDocument) m = Ok qe /\
    ChatAgent.retrieve (Fixtures.envOf Fixtures.oneDocument) m qe
      (Run.afterEmbedding m Fixtures.freshWorld) = (Ok validResults, w2) /\
    Run.contextOf validResults m = Ok documentContext /\
    documentContext = concat (map (Kinds.blockOf m) validResults) /\
    Fixtures.sampleMessages =
      [Chat.mkMessage Chat.system
         (ChatAgent.SYSTEM_PROMPT ++ [LF; LF]
          ++ match validResults with
             | [] =>
                 lit "NO POLICY DOCUMENTS AVAILABLE. You cannot answer compliance questions without documents."
             | _ :: _ =>
                 lit "Here are the policy documents you must reference:" ++ [LF; LF]
                 ++ documentContext ++ [LF; LF]
                 ++ lit "Remember: ONLY use information from the documents above. Quote exact text. Use actual section numbers from the documents."
             end) t0]
      ++ sliceLast 2 (Run.stored Fixtures.freshWorld)
      ++ [Chat.mkMessage Chat.user m t1] /\
    Run.stored Fixtures.freshWorld = older ++ sliceLast 2 (Run.stored Fixtures.freshWorld) /\
    length (sliceLast 2 (Run.stored Fixtures.freshWorld))
    = Nat.min 2 (length (Run.stored Fixtures.freshWorld)) /\
    includes ChatAgent.SYSTEM_PROMPT (lit "Quote the exact text from the document") = true /\
    includes ChatAgent.SYSTEM_PROMPT (lit "DO NOT make up section numbers or quotes") = true /\
    includes ChatAgent.SYSTEM_PROMPT (lit "If the answer is not in the document, say ") = true.
Proof.
  assert (H1 : ChatAgent.fetch (Fixtures.envOf Fixtures.oneDocument)
                 (Some (lit "reported")) Fixtures.freshWorld
               = (fst Fixtures.sampleRun, snd Fixtures.sampleRun))
    by (vm_compute; reflexivity).
  assert (H2 : calls (snd Fixtures.sampleRun)
               = calls Fixtures.freshWorld ++ calls (snd Fixtures.sampleRun))
    by (vm_compute; reflexivity).
  assert (H3 : In (RunChat Fixtures.sampleMessages (1 # 100) 1500)
                 (calls (snd Fixtures.sampleRun)))
    by (vm_compute; do 5 right; left; reflexivity).
  exact (generation_messages _ _ _ _ _ _ _ _ _ H1 H2 H3).
Defined.

(** ** No candidates *)

Section NoCandidates.

Import ChatAgent Run.


End NoCandidates.



(** ** Where a failure can come from *)

Section ThrowSources.

Import ChatAgent Run.

Variable env : Env.

Lemma tryCatch_ret_total {A : Type} (m : M A) (a0 : A) (w : World) :
  exists a, fst (tryCatch m (fun _ => ret a0) w) = Ok a.
Proof.
  unfold tryCatch. destruct (m w) as [[a | e] w1].
  - exists a. reflexivity.
  - exists a0. reflexivity.
Qed.

(** The handling of one listed key never throws. *)
Lemma scoreDocument_total (kv : KVNamespace) (words : list str) (name : str) (w : World) :
  exists entry, fst (scoreDocument env kv words name w) = Ok entry.
Proof.
  unfold scoreDocument. destruct (includes name (lit ":content")).
  - exists None. reflexivity.
  - apply tryCatch_ret_total.
Qed.

Lemma scoreDocuments_total (kv : KVNamespace) (words : list str) (names : list str) :
  forall w, exists scored, fst (scoreDocuments env kv words names w) = Ok scored.
Proof.
  induction names as [|name rest IH]; intros w; cbn [scoreDocuments].
  - exists []. reflexivity.
  - unfold bind.
    destruct (scoreDocument_total kv words name w) as (entry & Hentry).
    destruct (scoreDocument env kv words name w) as [r w1]. cbn [fst] in Hentry. subst r.
    destruct (IH w1) as (scored & Hscored).
    destruct (scoreDocuments env kv words rest w1) as [r w2]. cbn [fst] in Hscored. subst r.
    eexists. reflexivity.
Qed.

(** Keyword search throws only when the key listing does. *)
Lemma keywordSearch_throw (message : str) (w : World) (e : exn) :
  fst (keywordSearch env message w) = Err e ->
  exists kv, COMPLIANCE_KV env = Some kv /\ kv_list kv (lit "doc:") = Err e.
Proof.
  unfold keywordSearch.
  destruct (COMPLIANCE_KV env) as [kv|]; [| discriminate].
  unfold bind, await, bind, emit, lift, ret.
  destruct (kv_list kv (lit "doc:")) as [keys | e'] eqn:Hlist.
  - match goal with
    | |- context [scoreDocuments env kv ?ws keys ?w0] =>
        destruct (scoreDocuments_total kv ws keys w0) as (scored & Hscored);
        destruct (scoreDocuments env kv ws keys w0) as [r w1]
    end.
    cbn [fst] in Hscored. subst r. discriminate.
  - cbn [fst]. intros [= <-]. exists kv. split; [reflexivity | exact Hlist].
Qed.

Lemma retrieve_throw (message : str) (qe : Vector.EmbeddingResponse) (w : World) (e : exn) :
  fst (retrieve env message qe w) = Err e ->
  exists kv, COMPLIANCE_KV env = Some kv /\ kv_list kv (lit "doc:") = Err e.
Proof.
  unfold retrieve, bind.
  destruct (vectorSearch_total env qe w) as (results & Hres).
  destruct (vectorSearch env qe w) as [r w1]. cbn [fst] in Hres. subst r.
  destruct results as [|r rs].
  - apply keywordSearch_throw.
  - discriminate.
Qed.

(** Retrieval throws exactly when the similarity path left nothing and the
    key listing throws. *)
Lemma retrieve_throw_iff (message : str) (qe : Vector.EmbeddingResponse) (w : World) (e : exn) :
  fst (retrieve env message qe w) = Err e <->
  exists w1 kv,
    vectorSearch env qe w = (Ok [], w1) /\
    COMPLIANCE_KV env = Some kv /\ kv_list kv (lit "doc:") = Err e.
Proof.
  unfold retrieve, bind.
  destruct (vectorSearch_total env qe w) as (results & Hres).
  destruct (vectorSearch env qe w) as [r w1]. cbn [fst] in Hres. subst r.
  destruct results as [|r rs].
  - split.
    + intros H. exists w1. destruct (keywordSearch_throw _ _ _ H) as (kv & Hkv & Hlist).
      exists kv. repeat split; assumption.
    + intros (w1' & kv & Hvec & Hkv & Hlist). injection Hvec as <-.
      unfold keywordSearch. rewrite Hkv.
      unfold bind, await, bind, emit, lift. rewrite Hlist. reflexivity.
  - split; [discriminate|]. intros (w1' & kv & Hvec & _). discriminate Hvec.
Qed.

(** The context assembly throws exactly on a candidate without metadata,
    and what it throws is the error of reading [title] of [undefined]. *)
Lemma buildContext_throw (message : str) (validResults : list Search.t) :
  forall acc,
  (forall e, buildContext validResults message acc = Err e ->
     e = typeError (lit "title") /\
     exists doc, In doc validResults /\ Search.metadata doc = None) /\
  ((exists doc, In doc validResults /\ Search.metadata doc = None) ->
   buildContext validResults message acc = Err (typeError (lit "title"))).
Proof.
  induction validResults as [|doc rest IH]; intros acc; cbn [buildContext].
  - split; [discriminate | intros (doc & [] & _)].
  - destruct (Search.metadata doc) as [md|] eqn:Hmd.
    + destruct (IH (acc ++ documentBlock (Meta.title md) (Meta.type md)
                          (extractRelevantPortion (Search.content doc) message)))
        as (Hthrow & Hback).
      split.
      * intros e He. destruct (Hthrow e He) as (-> & doc' & Hin & Hnone).
        split; [reflexivity|]. exists doc'. split; [right; exact Hin | exact Hnone].
      * intros (doc' & [<- | Hin] & Hnone); [congruence|].
        apply Hback. exists doc'. split; assumption.
    + split.
      * intros e [= <-]. split; [reflexivity|].
        exists doc. split; [left; reflexivity | exact Hmd].
      * intros _. reflexivity.
Qed.

Lemma contextOf_throw (validResults : list Search.t) (message : str) (e : exn) :
  contextOf validResults message = Err e ->
  exists doc, In doc validResults /\ Search.metadata doc = None.
Proof.
  unfold contextOf. destruct validResults as [|d ds]; [discriminate|].
  cbn [length Nat.ltb Nat.leb]. intros H.
  exact (proj2 (proj1 (buildContext_throw message (d :: ds) []) e H)).
Qed.

Lemma contextOf_throw_iff (validResults : list Search.t) (message : str) (e : exn) :
  contextOf validResults message = Err e <->
  e = typeError (lit "title") /\
  exists doc, In doc validResults /\ Search.metadata doc = None.
Proof.
  unfold contextOf. destruct validResults as [|d ds].
  - cbn [length Nat.ltb Nat.leb]. split; [discriminate | intros (_ & doc & [] & _)].
  - cbn [length Nat.ltb Nat.leb].
    destruct (buildContext_throw message (d :: ds) []) as (Hthrow & Hback). split.
    + apply Hthrow.
    + intros (-> & Hdoc). exact (Hback Hdoc).
Qed.

(** The throws that leave the [try] block are those of [Escapes], and each
    of them does leave it: the run ends with that error. *)
Lemma process_throw_sources (message : str) (w : World) (e : exn) :
  fst (process env message w) = Err e <-> Escapes env message w e.
Proof.
  destruct (process env message w) as [r w'] eqn:Hrun. cbn [fst].
  apply process_run in Hrun. split.
  - intros Hr.
    destruct Hrun as
      [ e0 He
      | qe e0 w2 He Hret _
      | qe vr e0 w2 He Hret _ Hctx
      | qe vr ctx e0 w2 He Hret _ Hctx msgs0 Hgen
      | ]; [injection Hr as -> .. | discriminate Hr].
    + apply FromEmbedding. exact He.
    + assert (Hthrow : fst (retrieve env message qe (afterEmbedding message w)) = Err e)
        by (rewrite Hret; reflexivity).
      apply retrieve_throw_iff in Hthrow. destruct Hthrow as (w1 & kv & Hvec & Hkv & Hlist).
      exact (FromKeyListing env message w e qe w1 kv He Hvec Hkv Hlist).
    + apply contextOf_throw_iff in Hctx. destruct Hctx as (-> & doc & Hin & Hnone).
      exact (FromAssembly env message w _ qe vr w2 doc He Hret Hin Hnone eq_refl).
    + exact (FromGeneration env message w e qe vr ctx w2 He Hret Hctx Hgen).
  - intros [ He
           | qe w1 kv He Hvec Hkv Hlist
           | qe vr w2 doc He Hret Hin Hnone ->
           | qe vr ctx w2 He Hret Hctx Hgen ].
    + destruct Hrun; congruence.
    + assert (Hthrow : fst (retrieve env message qe (afterEmbedding message w)) = Err e).
      { apply retrieve_throw_iff. exists w1, kv. repeat split; assumption. }
      destruct Hrun as [ | qe' e' w2' He' Hret' _ | qe' vr' e' w2' He' Hret' _ _
                       | qe' vr' ctx' e' w2' He' Hret' _ _ msgs' _
                       | qe' vr' ctx' ai' context' w2' He' Hret' _ _ msgs' _ _ h' ];
        try congruence;
        (assert (qe' = qe) by congruence; subst qe';
         rewrite Hret' in Hthrow; cbn [fst] in Hthrow; congruence).
    + assert (Hctx : contextOf vr message = Err (typeError (lit "title"))).
      { apply contextOf_throw_iff. split; [reflexivity|]. exists doc. split; assumption. }
      destruct Hrun as [ | qe' e' w2' He' Hret' _ | qe' vr' e' w2' He' Hret' _ Hctx'
                       | qe' vr' ctx' e' w2' He' Hret' _ Hctx' msgs' _
                       | qe' vr' ctx' ai' context' w2' He' Hret' _ Hctx' msgs' _ _ h' ];
        try congruence;
        (assert (qe' = qe) by congruence; subst qe';
         rewrite Hret in Hret'; try discriminate Hret';
         injection Hret' as <- <-; congruence).
    + destruct Hrun as [ | qe' e' w2' He' Hret' _ | qe' vr' e' w2' He' Hret' _ Hctx'
                       | qe' vr' ctx' e' w2' He' Hret' _ Hctx' msgs' Hgen'
                       | qe' vr' ctx' ai' context' w2' He' Hret' _ Hctx' msgs' Hgen' _ h' ];
        try congruence;
        (assert (qe' = qe) by congruence; subst qe';
         rewrite Hret in Hret'; try discriminate Hret';
         injection Hret' as <- <-;
         try congruence;
         (assert (ctx' = ctx) by congruence; subst ctx'; subst msgs'; congruence)).
Qed.

End ThrowSources.

(** ** Failures and the stored history *)

Section Failures.

Import ChatAgent Run.

Lemma forallb_not_put_app (a b : list Call) :
  forallb (fun c => negb (isPut c)) a = true ->
  forallb (fun c => negb (isPut c)) b = true ->
  forallb (fun c => negb (isPut c)) (a ++ b) = true.
Proof.
  intros Ha Hb. rewrite forallb_app, Ha, Hb. reflexivity.
Qed.

(** A throw of the embedding call leaves the [try] block. *)
Lemma embedding_throw_escapes (env : Env) (m : str) (w : World) (e : exn) :
  AI_embed env m = Err e -> fst (process env m w) = Err e.
Proof.
  intros He. destruct (process env m w) as [r w'] eqn:Hrun.
  apply process_run in Hrun. destruct Hrun; cbn [fst]; congruence.
Qed.

(** C6, as amended.  An exception that leaves the [try] block of [fetch] is
    turned into the failure response with status 500, and that run neither
    changes the stored history nor writes to storage.  The exceptions that
    leave the block are those of [Escapes] (thrown by the embedding call,
    the key listing, the context assembly or the generation call), and each
    of them does fail the request; the throws of the similarity query, of a
    content read and of the handling of one listed document are handled
    where they occur: the similarity search, the content read and the
    handling of a listed key never throw.  A run that does not throw writes
    the history exactly once, as its last call, directly after a generation
    call that returned. *)
Theorem failure_leaves_history (env : Env) (m : str) (w : World) :
  m <> [] ->
  match process env m w with
  | (Err e, w') =>
      fetch env (Some m) w = (Ok (failure e), w') /\
      status (failure e) = 500 /\
      body (failure e) = ErrorBody (lit "Failed to process your request") (details e) /\
      history w' = history w /\
      (exists new,
         calls w' = calls w ++ new /\
         forallb (fun c => negb (isPut c)) new = true) /\
      Escapes env m w e
  | (Ok response, w') =>
      fetch env (Some m) w = (Ok response, w') /\
      status response = 200 /\
      exists before msgs ai h,
        calls w' = calls w ++ before ++ [RunChat msgs (1 # 100) 1500; StoragePut h] /\
        forallb (fun c => negb (isPut c)) before = true /\
        AI_generate env msgs = Ok ai /\
        history w' = Some h
  end /\
  (forall e, Escapes env m w e -> fst (process env m w) = Err e) /\
  (forall qe w0, exists results, fst (vectorSearch env qe w0) = Ok results) /\
  (forall docId w0, exists content, fst (getDocumentContent env docId w0) = Ok content) /\
  (forall kv words name w0,
     exists entry, fst (scoreDocument env kv words name w0) = Ok entry).
Proof.
  intros Hm. destruct m as [|c cs]; [contradiction|]. clear Hm.
  split; [| split; [| split; [| split]]].
  2: { intros e He. apply process_throw_sources. exact He. }
  2: { intros qe w0. apply vectorSearch_total. }
  2: { intros docId w0. apply getDocumentContent_total. }
  2: { intros kv words name w0. apply scoreDocument_total. }
  rewrite fetch_process.
  pose proof (process_throw_sources env (c :: cs) w) as Hsrc.
  destruct (process env (c :: cs) w) as [r w'] eqn:Hrun.
  apply process_run in Hrun. cbn [fst] in Hsrc.
  destruct Hrun as
    [ e He
    | qe e w2 He Hret (Hh & _ & rnew & Hc2 & Hall)
    | qe vr e w2 He Hret (Hh & _ & rnew & Hc2 & Hall) Hctx
    | qe vr ctx e w2 He Hret (Hh & _ & rnew & Hc2 & Hall) Hctx msgs0 Hgen
    | qe vr ctx ai context w2 He Hret (Hh & _ & rnew & Hc2 & Hall) Hctx msgs0 Hgen Hcite h ];
    cbn [calls history afterEmbedding] in *.
  - do 4 (split; [reflexivity|]). split; [| apply Hsrc; reflexivity].
    exists [StorageGet; RunEmbedding (c :: cs)]. split; [| reflexivity].
    rewrite <- app_assoc. reflexivity.
  - do 3 (split; [reflexivity|]). split; [exact Hh|].
    split; [| apply Hsrc; reflexivity].
    exists ([StorageGet; RunEmbedding (c :: cs)] ++ rnew). split.
    + rewrite Hc2. repeat rewrite <- app_assoc. reflexivity.
    + apply forallb_not_put_app; [reflexivity | apply retrievalCall_not_put; exact Hall].
  - do 3 (split; [reflexivity|]). split; [exact Hh|].
    split; [| apply Hsrc; reflexivity].
    exists ([StorageGet; RunEmbedding (c :: cs)] ++ rnew). split.
    + rewrite Hc2. repeat rewrite <- app_assoc. reflexivity.
    + apply forallb_not_put_app; [reflexivity | apply retrievalCall_not_put; exact Hall].
  - do 3 (split; [reflexivity|]). split; [exact Hh|].
    split; [| apply Hsrc; reflexivity].
    exists ([StorageGet; RunEmbedding (c :: cs)] ++ rnew ++ [RunChat msgs0 (1 # 100) 1500]).
    split.
    + rewrite Hc2. repeat rewrite <- app_assoc. reflexivity.
    + apply forallb_not_put_app; [reflexivity|].
      apply forallb_not_put_app; [apply retrievalCall_not_put; exact Hall | reflexivity].
  - split; [reflexivity|]. split; [reflexivity|].
    exists ([StorageGet; RunEmbedding (c :: cs)] ++ rnew), msgs0, ai, h.
    split; [| split; [| split; [exact Hgen | reflexivity]]].
    + rewrite Hc2. repeat rewrite <- app_assoc. reflexivity.
    + apply forallb_not_put_app; [reflexivity | apply retrievalCall_not_put; exact Hall].
Qed.

End Failures.

Lemma failure_leaves_history_witness :
  match ChatAgent.process (Fixtures.envGenerationDown Fixtures.oneDocument)
          (lit "reported") Fixtures.freshWorld with
  | (Err e, w') =>
      ChatAgent.fetch (Fixtures.envGenerationDown Fixtures.oneDocument)
        (Some (lit "reported")) Fixtures.freshWorld = (Ok (ChatAgent.failure e), w') /\
      status (ChatAgent.failure e) = 500 /\
      body (ChatAgent.failure e)
      = ErrorBody (lit "Failed to process your request") (ChatAgent.details e) /\
      history w' = history Fixtures.freshWorld /\
      (exists new,
         calls w' = calls Fixtures.freshWorld ++ new /\
         forallb (fun c => negb (Run.isPut c)) new = true) /\
      Run.Escapes (Fixtures.envGenerationDown Fixtures.oneDocument) (lit "reported")
        Fixtures.freshWorld e
  | (Ok response, w') =>
      ChatAgent.fetch (Fixtures.envGenerationDown Fixtures.oneDocument)
        (Some (lit "reported")) Fixtures.freshWorld = (Ok response, w') /\
      status response = 200 /\
      exists before msgs ai h,
        calls w' = calls Fixtures.freshWorld ++ before
                   ++ [RunChat msgs (1 # 100) 1500; StoragePut h] /\
        forallb (fun c => negb (Run.isPut c)) before = true /\
        AI_generate (Fixtures.envGenerationDown Fixtures.oneDocument) msgs = Ok ai /\
        history w' = Some h
  end /\
  (forall e,
     Run.Escapes (Fixtures.envGenerationDown Fixtures.oneDocument) (lit "reported")
       Fixtures.freshWorld e ->
     fst (ChatAgent.process (Fixtures.envGenerationDown Fixtures.oneDocument)
            (lit "reported") Fixtures.freshWorld) = Err e) /\
  (forall qe w0,
     exists results,
       fst (ChatAgent.vectorSearch (Fixtures.envGenerationDown Fixtures.oneDocument) qe w0)
       = Ok results) /\
  (forall docId w0,
     exists content,
       fst (ChatAgent.getDocumentContent (Fixtures.envGenerationDown Fixtures.oneDocument)
              docId w0) = Ok content) /\
  (forall kv words name w0,
     exists entry,
       fst (ChatAgent.scoreDocument (Fixtures.envGenerationDown Fixtures.oneDocument)
              kv words name w0) = Ok entry).
Proof.
  assert (H0 : lit "reported" <> []) by (vm_compute; discriminate).
  exact (failure_leaves_history (Fixtures.envGenerationDown Fixtures.oneDocument)
           (lit "reported") Fixtures.freshWorld H0).
Defined.

(** C6 as stated fails: the similarity query throws while retrieving, the
    throw is handled on the spot, the request is answered with status 200
    and the exchange is stored. *)
Lemma caught_query_throw_is_answered :
  (exists query,
     DOCS_VECTORDB (Fixtures.envIndexDown Fixtures.oneDocument) = Vector.Index query /\
     query (Some []) 3 true = Err (ErrorObject (lit "index unavailable"))) /\
  In (VectorQuery (Some []) 3 true)
    (calls (snd (ChatAgent.fetch (Fixtures.envIndexDown Fixtures.oneDocument)
                   (Some (lit "reported")) Fixtures.freshWorld))) /\
  match ChatAgent.fetch (Fixtures.envIndexDown Fixtures.oneDocument)
          (Some (lit "reported")) Fixtures.freshWorld with
  | (Ok response, w') =>
      status response = 200 /\
      length (Run.stored w') = 2 /\
      history w' <> history Fixtures.freshWorld
  | (Err _, _) => False
  end.
Proof.
  split; [| split].
  - eexists. split; reflexivity.
  - vm_compute. do 2 right. left. reflexivity.
  - vm_compute. repeat split. discriminate.
Qed.

(** ** The stored history over a session *)

Section Session.

Import ChatAgent Run.

Lemma sliceLast_length {A : Type} (n : nat) (l : list A) :
  length (sliceLast n l) <= n.
Proof.
  unfold sliceLast. rewrite length_skipn. lia.
Qed.

Lemma sliceLast_app_sliceLast {A : Type} (n : nat) (a b : list A) :
  sliceLast n (sliceLast n a ++ b) = sliceLast n (a ++ b).
Proof.
  unfold sliceLast.
  rewrite !length_app, length_skipn, !skipn_app, length_skipn, skipn_skipn.
  f_equal; f_equal; lia.
Qed.

Lemma sliceLast_sliceLast {A : Type} (k n : nat) (l : list A) :
  k <= n -> sliceLast k (sliceLast n l) = sliceLast k l.
Proof.
  intros Hkn. unfold sliceLast.
  rewrite length_skipn, skipn_skipn. f_equal. lia.
Qed.

Lemma sliceLast_app_tail {A : Type} (a b : list A) :
  sliceLast (length b) (a ++ b) = b.
Proof.
  unfold sliceLast. rewrite length_app, skipn_app.
  replace (length a + length b - length b) with (length a) by lia.
  rewrite skipn_all, Nat.sub_diag. reflexivity.
Qed.

(** One turn: either nothing is exchanged and the stored history stays, or
    the user message and the assistant message are appended, in this order,
    and the result is cut to its last ten messages. *)
Lemma fetch_turn (env : Env) (message : option str) (w : World) :
  (exchange (message, fst (fetch env message w)) = [] /\
   history (snd (fetch env message w)) = history w) \/
  (exists u a,
     exchange (message, fst (fetch env message w)) = [roleAndContent u; roleAndContent a] /\
     Chat.role u = Chat.user /\ Chat.role a = Chat.assistant /\
     history (snd (fetch env message w)) = Some (updateHistory (stored w) u a)).
Proof.
  destruct message as [[|c cs]|]; try (left; split; reflexivity).
  rewrite fetch_process.
  destruct (process env (c :: cs) w) as [r w'] eqn:Hrun.
  apply process_run in Hrun.
  destruct Hrun as
    [ e He
    | qe e w2 He Hret (Hh & _)
    | qe vr e w2 He Hret (Hh & _) Hctx
    | qe vr ctx e w2 He Hret (Hh & _) Hctx msgs0 Hgen
    | qe vr ctx ai context w2 He Hret (Hh & _) Hctx msgs0 Hgen Hcite h ];
    cbn [fst snd history afterEmbedding] in *;
    try (left; split; [reflexivity | first [reflexivity | exact Hh]]).
  right. exists (userMessage env (c :: cs) w2), (assistantMessage env ai w2).
  repeat split.
Qed.

Lemma session_from (requests : list (Env * option str)) :
  forall (w : World) (log0 : list Chat.Message),
  stored w = sliceLast 10 log0 ->
  exists log,
    map roleAndContent log = transcript (fst (session requests w)) /\
    stored (snd (session requests w)) = sliceLast 10 (log0 ++ log).
Proof.
  induction requests as [|[env message] rest IH]; intros w log0 Hw.
  - exists []. split; [reflexivity|]. rewrite app_nil_r. exact Hw.
  - cbn [session].
    destruct (fetch_turn env message w) as [(Hex & Hh) | (u & a & Hex & _ & _ & Hh)];
      destruct (fetch env message w) as [r w1]; cbn [fst snd] in *.
    + assert (Hw1 : stored w1 = sliceLast 10 log0) by (unfold stored in *; rewrite Hh; exact Hw).
      destruct (IH w1 log0 Hw1) as (log & Hmap & Hstored).
      destruct (session rest w1) as [turns w2]; cbn [fst snd] in *.
      exists log. split; [| exact Hstored].
      unfold transcript in *. cbn [flat_map]. rewrite Hex. exact Hmap.
    + assert (Hw1 : stored w1 = sliceLast 10 (log0 ++ [u; a])).
      { unfold stored at 1. rewrite Hh. unfold updateHistory.
        rewrite Hw. apply sliceLast_app_sliceLast. }
      destruct (IH w1 _ Hw1) as (log & Hmap & Hstored).
      destruct (session rest w1) as [turns w2]; cbn [fst snd] in *.
      exists ([u; a] ++ log). split.
      * unfold transcript in *. cbn [flat_map]. rewrite Hex, <- Hmap. reflexivity.
      * rewrite Hstored, <- app_assoc. reflexivity.
Qed.


(** Each completed turn leaves its own pair at the end of the stored
    history, whatever was stored before. *)
Lemma turn_stores_pair_last (env : Env) (message : option str) (w : World) (u a : Chat.Role * str) :
  exchange (message, fst (fetch env message w)) = [u; a] ->
  map roleAndContent (sliceLast 2 (stored (snd (fetch env message w)))) = [u; a] /\
  length (stored (snd (fetch env message w))) <= 10.
Proof.
  intros Hex.
  destruct (fetch_turn env message w) as [(Hnone & _) | (mu & ma & Hex' & _ & _ & Hh)].
  - rewrite Hnone in Hex. discriminate.
  - rewrite Hex' in Hex. injection Hex as <- <-.
    assert (Hs : stored (snd (fetch env message w)) = updateHistory (stored w) mu ma)
      by (unfold stored at 1; rewrite Hh; reflexivity).
    rewrite Hs. unfold updateHistory. split.
    + rewrite sliceLast_sliceLast by lia.
      change 2 with (length [mu; ma]).
      rewrite (sliceLast_app_tail (stored w) [mu; ma]). reflexivity.
    + apply sliceLast_length.
Qed.

End Session.

(** Six completed turns leave the last five exchanges, ten messages. *)
Example six_turns_keep_ten :
  length (Run.transcript (fst (ChatAgent.session Fixtures.sixTurns Fixtures.freshWorld))) = 12 /\
  map Run.roleAndContent (Run.stored (snd (ChatAgent.session Fixtures.sixTurns Fixtures.freshWorld)))
  = sliceLast 10 (Run.transcript (fst (ChatAgent.session Fixtures.sixTurns Fixtures.freshWorld))).
Proof.
  split; vm_compute; reflexivity.
Qed.

(** ** Duplicate candidates *)

Section Duplicates.

Import ChatAgent Run.

(** What the similarity path keeps has pairwise different 200-character
    prefixes, whatever the order in which the contents arrive. *)
Lemma collectMatches_prefixes (env : Env) (ms : list Vector.Match)
  (w w' : World) (out : list (option Search.t)) :
  collectMatches env ms w = (Ok out, w') ->
  NoDup (prefixes (filterBoolean out)).
Proof.
  intros Hrun.
  destruct (collectMatches_run env retrievalCall (fun _ => I) (fun _ => I) ms w)
    as (out' & Hout & _ & _ & Hnd).
  rewrite Hrun in Hout. injection Hout as <-. exact Hnd.
Qed.

(** What the similarity path keeps is in the rank order of the matches. *)
Lemma collectMatches_order (env : Env) (ms : list Vector.Match)
  (w w' : World) (out : list (option Search.t)) :
  collectMatches env ms w = (Ok out, w') ->
  subseq (map Search.documentId (filterBoolean out)) (map Vector.id ms).
Proof.
  intros Hrun.
  destruct (collectMatches_run env retrievalCall (fun _ => I) (fun _ => I) ms w)
    as (out' & Hout & _ & Hshape & _).
  rewrite Hrun in Hout. injection Hout as <-. clear Hrun.
  induction Hshape as [|m o ms' out' Hm Hrest IH]; [constructor|].
  cbn [map filterBoolean]. destruct o as [r|].
  - destruct Hm as (text & _ & ->). cbn [filterBoolean map Search.documentId].
    apply subseq_keep. exact IH.
  - apply subseq_skip. exact IH.
Qed.

Lemma vectorSearch_distinct_prefixes (env : Env) (qe : Vector.EmbeddingResponse)
  (w w' : World) (results : list Search.t) :
  vectorSearch env qe w = (Ok results, w') -> NoDup (prefixes results).
Proof.
  unfold vectorSearch.
  destruct (DOCS_VECTORDB env) as [| | query];
    try (intros [= <- _]; constructor).
  unfold tryCatch, bind, await, bind, emit, lift, ret, throw.
  destruct (Vector.data qe) as [d|]; [| intros [= <- _]; constructor].
  destruct (query (nth_error d 0) 3 true) as [sr | e]; [| intros [= <- _]; constructor].
  destruct (Vector.matches sr) as [ms|]; [| intros [= <- _]; constructor].
  destruct (collectMatches env ms _) as [[out | e] w1] eqn:Hrun.
  - intros [= <- _]. exact (collectMatches_prefixes _ _ _ _ _ Hrun).
  - intros [= <- _]. constructor.
Qed.

End Duplicates.

(** Which of two matches with the same text is kept depends on the order in
    which their contents arrive: the higher-ranked one when its read is
    delivered first, the lower-ranked one otherwise. *)
Lemma duplicate_kept_by_arrival :
  map Search.documentId
    (Samples.valueOf
       (fst (ChatAgent.vectorSearch (Samples.envArrival (fun _ => 0))
               Samples.sampleEmbedding Fixtures.freshWorld)))
  = [lit "d1"] /\
  map Search.documentId
    (Samples.valueOf
       (fst (ChatAgent.vectorSearch (Samples.envArrival (fun _ => 1))
               Samples.sampleEmbedding Fixtures.freshWorld)))
  = [lit "d2"].
Proof. split; vm_compute; reflexivity. Qed.

(** C1, the keyword path.  The same text stored under two identifiers and a
    query with a term of that text: without a similarity index, both
    documents become candidates, with identical first 200 characters, and
    both are cited. *)
Theorem keyword_search_keeps_duplicates :
  exists a b w',
    ChatAgent.retrieve (Fixtures.envOf Fixtures.uploadedTwice) (lit "reported")
      (Vector.mkEmbeddingResponse (Some [[]]))
      (Run.afterEmbedding (lit "reported") Fixtures.freshWorld) = (Ok [a; b], w') /\
    Search.documentId a = lit "d1" /\
    Search.documentId b = lit "d2" /\
    substring0 200 (Search.content a) = substring0 200 (Search.content b) /\
    ~ NoDup (Run.prefixes [a; b]) /\
    match fst (ChatAgent.fetch (Fixtures.envOf Fixtures.uploadedTwice)
                 (Some (lit "reported")) Fixtures.freshWorld) with
    | Ok (mkResponse 200 (ChatBody _ context documentsFound _ _)) =>
        length context = 2 /\ documentsFound = 2
    | _ => False
    end.
Proof.
  do 3 eexists. split; [vm_compute; reflexivity|].
  split; [reflexivity|]. split; [reflexivity|]. split; [reflexivity|]. split.
  - intros H. inversion H as [| p l Hnotin _]. apply Hnotin. left. reflexivity.
  - vm_compute. split; reflexivity.
Qed.

(** ** The lexical score *)

Section LexicalScore.

Import ChatAgent.

Lemma plain_cons (c : ascii) (w : str) :
  Claimed.plain (c :: w) = true ->
  RegExp.isQuantifierChar c = false /\ RegExp.isOtherSyntaxChar c = false /\
  (code c =? 46)%N = false /\ Claimed.plain w = true.
Proof.
  unfold Claimed.plain. cbn [forallb]. intros H.
  apply andb_true_iff in H. destruct H as [Hc Hw].
  apply negb_true_iff in Hc.
  apply orb_false_iff in Hc. destruct Hc as [Hc Hdot].
  apply orb_false_iff in Hc. destruct Hc as [Hq Ho].
  repeat split; assumption.
Qed.

(** A plain term compiles to the sequence of its characters. *)
Lemma compile_plain (w : str) :
  Claimed.plain w = true ->
  RegExp.compile w = RegExp.Compiled (map (fun c => (RegExp.Lit c, RegExp.One)) w).
Proof.
  induction w as [|c rest IH]; intros Hplain.
  - reflexivity.
  - destruct (plain_cons _ _ Hplain) as (Hq & Ho & Hdot & Hrest).
    cbn [RegExp.compile]. rewrite Hq, Ho, Hdot.
    destruct rest as [|q rest'].
    + reflexivity.
    + destruct (plain_cons _ _ Hrest) as (Hq' & _).
      rewrite Hq'. rewrite (IH Hrest). reflexivity.
Qed.

Lemma matchHere_plain (w : str) :
  forall s,
  RegExp.matchHere (map (fun c => (RegExp.Lit c, RegExp.One)) w) s
  = if startsWith w s then Some (length w) else None.
Proof.
  induction w as [|c rest IH]; intros s.
  - destruct s; reflexivity.
  - cbn [map RegExp.matchHere]. destruct s as [|x s'].
    + reflexivity.
    + cbn [RegExp.atomMatch startsWith length].
      destruct (Ascii.eqb c x); cbn [andb]; [| reflexivity].
      rewrite IH. destruct (startsWith rest s'); reflexivity.
Qed.

Lemma scanFrom_occurrences (w : str) (p : RegExp.pattern) :
  w <> [] ->
  (forall s, RegExp.matchHere p s = if startsWith w s then Some (length w) else None) ->
  forall s skip, RegExp.scanFrom (RegExp.matchHere p) skip s = Claimed.occurrencesFrom w skip s.
Proof.
  intros Hw Hm. induction s as [|x s' IH]; intros skip.
  - destruct skip; [| reflexivity].
    cbn [RegExp.scanFrom Claimed.occurrencesFrom]. rewrite Hm.
    destruct w; [contradiction | reflexivity].
  - cbn [RegExp.scanFrom Claimed.occurrencesFrom]. destruct skip as [|k].
    + rewrite Hm. destruct (startsWith w (x :: s')); rewrite IH; reflexivity.
    + apply IH.
Qed.

(** On a plain term the agent counts what the specification says. *)
Lemma termMatches_plain (env : Env) (w s : str) :
  w <> [] -> Claimed.plain w = true ->
  termMatches env w s = Ok (Claimed.occurrences w s).
Proof.
  intros Hw Hplain. unfold termMatches. rewrite (compile_plain w Hplain).
  unfold RegExp.matchCount, Claimed.occurrences. f_equal.
  apply scanFrom_occurrences; [exact Hw | apply matchHere_plain].
Qed.

Lemma scoreTerms_plain (env : Env) (words : list str) (lowerContent : str) :
  Forall (fun w => w <> [] /\ Claimed.plain w = true) words ->
  forall score,
  scoreTerms env words lowerContent score
  = Ok (fold_left (fun acc w => acc + Claimed.occurrences w lowerContent) words score).
Proof.
  induction 1 as [|w rest [Hw Hplain] _ IH]; intros score; cbn [scoreTerms fold_left].
  - reflexivity.
  - rewrite (termMatches_plain env w lowerContent Hw Hplain). apply IH.
Qed.

End LexicalScore.

(** C2, where the agent departs from it.  The term of the query ["period?"]
    does not occur in the stored document, yet the document is returned with
    score 1, because the term is compiled as a pattern whose last character
    is optional; and a document that does contain a term of the query
    ["retention c++"] is not returned, because the other term is not a valid
    pattern and the throw skips the document. *)
Theorem query_term_is_a_pattern :
  (Claimed.score (ChatAgent.qWords (lit "period?")) Fixtures.retentionText = 0 /\
   exists r,
     fst (ChatAgent.keywordSearch (Fixtures.envOf Fixtures.retentionDocument)
            (lit "period?") Fixtures.freshWorld) = Ok [r] /\
     Search.documentId r = lit "r1" /\
     Search.score r = inject_Z 1) /\
  (Claimed.score (ChatAgent.qWords (lit "retention c++")) Fixtures.retentionText = 1 /\
   RegExp.compile (lit "c++") = RegExp.SyntaxError /\
   fst (ChatAgent.keywordSearch (Fixtures.envOf Fixtures.retentionDocument)
          (lit "retention c++") Fixtures.freshWorld) = Ok []).
Proof.
  split; [split | split; [| split]].
  - vm_compute. reflexivity.
  - eexists. split; [vm_compute; reflexivity|]. split; reflexivity.
  - vm_compute. reflexivity.
  - vm_compute. reflexivity.
  - vm_compute. reflexivity.
Qed.

(** ** The ranking of the keyword path *)

Section Ranking.

Import ChatAgent Run.

Lemma byScoreDesc_le (x y : Search.t) :
  Qle_bool (byScoreDesc x y) 0 = true <-> outranks x y.
Proof.
  unfold byScoreDesc, outranks. rewrite Qle_bool_iff. split; intros H; lra.
Qed.

Lemma insertSorted_In {A : Type} (cmp : A -> A -> Q) (x z : A) (l : list A) :
  In z (insertSorted cmp x l) <-> z = x \/ In z l.
Proof.
  induction l as [|y l' IH]; cbn [insertSorted].
  - simpl. intuition congruence.
  - destruct (Qle_bool (cmp x y) 0); simpl; [intuition congruence|].
    rewrite IH. simpl. intuition congruence.
Qed.

Lemma insertSorted_perm {A : Type} (cmp : A -> A -> Q) (x : A) (l : list A) :
  Permutation (insertSorted cmp x l) (x :: l).
Proof.
  induction l as [|y l' IH]; cbn [insertSorted].
  - apply Permutation_refl.
  - destruct (Qle_bool (cmp x y) 0).
    + apply Permutation_refl.
    + eapply Permutation_trans; [apply perm_skip; exact IH | apply perm_swap].
Qed.

(** The sort rearranges, it neither drops nor adds. *)
Lemma sort_perm {A : Type} (cmp : A -> A -> Q) (l : list A) :
  Permutation (sort cmp l) l.
Proof.
  induction l as [|x l' IH]; cbn [sort fold_right].
  - apply Permutation_refl.
  - eapply Permutation_trans; [apply insertSorted_perm | apply perm_skip; exact IH].
Qed.

Lemma insertSorted_sorted (x : Search.t) (l : list Search.t) :
  StronglySorted outranks l -> StronglySorted outranks (insertSorted byScoreDesc x l).
Proof.
  induction 1 as [|y l' Hsorted IH Hall]; cbn [insertSorted].
  - repeat constructor.
  - destruct (Qle_bool (byScoreDesc x y) 0) eqn:Hcmp.
    + apply byScoreDesc_le in Hcmp. constructor; [constructor; assumption|].
      constructor; [exact Hcmp|].
      eapply Forall_impl; [| exact Hall].
      intros z Hz. unfold outranks in *. lra.
    + assert (Hlt : outranks y x).
      { unfold outranks. destruct (Qlt_le_dec (Search.score y) (Search.score x)) as [Hl | Hl];
          [| exact Hl].
        assert (Hc : Qle_bool (byScoreDesc x y) 0 = true)
          by (apply byScoreDesc_le; unfold outranks; lra).
        congruence. }
      constructor; [exact IH|].
      apply Forall_forall. intros z Hz. apply insertSorted_In in Hz.
      destruct Hz as [-> | Hz]; [exact Hlt|].
      rewrite Forall_forall in Hall. exact (Hall z Hz).
Qed.

(** The ranking is by descending score. *)
Lemma sort_sorted (l : list Search.t) : StronglySorted outranks (sort byScoreDesc l).
Proof.
  induction l as [|x l' IH]; cbn [sort fold_right].
  - constructor.
  - apply insertSorted_sorted. exact IH.
Qed.

Lemma insertSorted_filter (p : Search.t -> bool) (x : Search.t) (l : list Search.t) :
  p x = true ->
  (forall y, In y l -> p y = true -> outranks x y) ->
  filter p (insertSorted byScoreDesc x l) = x :: filter p l.
Proof.
  intros Hx. induction l as [|y l' IH]; intros Hties; cbn [insertSorted].
  - cbn [filter]. rewrite Hx. reflexivity.
  - destruct (Qle_bool (byScoreDesc x y) 0) eqn:Hcmp.
    + cbn [filter]. rewrite Hx. reflexivity.
    + cbn [filter]. destruct (p y) eqn:Hy.
      * assert (Hc : Qle_bool (byScoreDesc x y) 0 = true)
          by (apply byScoreDesc_le; apply Hties; [left; reflexivity | exact Hy]).
        congruence.
      * apply IH. intros z Hz. apply Hties. right. exact Hz.
Qed.

Lemma insertSorted_filter_out (p : Search.t -> bool) (x : Search.t) (l : list Search.t) :
  p x = false -> filter p (insertSorted byScoreDesc x l) = filter p l.
Proof.
  intros Hx. induction l as [|y l' IH]; cbn [insertSorted].
  - cbn [filter]. rewrite Hx. reflexivity.
  - destruct (Qle_bool (byScoreDesc x y) 0).
    + cbn [filter]. rewrite Hx. reflexivity.
    + cbn [filter]. rewrite IH. reflexivity.
Qed.

(** The sort is stable: the documents of one score keep the order in which
    they were listed. *)
Lemma sort_stable (q : Q) (l : list Search.t) :
  filter (fun r => Qeq_bool (Search.score r) q) (sort byScoreDesc l)
  = filter (fun r => Qeq_bool (Search.score r) q) l.
Proof.
  induction l as [|x l' IH]; cbn [sort fold_right].
  - reflexivity.
  - fold (sort byScoreDesc l').
    destruct (Qeq_bool (Search.score x) q) eqn:Hx.
    + rewrite insertSorted_filter.
      * cbn [filter]. rewrite Hx, IH. reflexivity.
      * exact Hx.
      * intros y _ Hy. apply Qeq_bool_iff in Hx. apply Qeq_bool_iff in Hy.
        unfold outranks. lra.
    + rewrite insertSorted_filter_out by exact Hx.
      cbn [filter]. rewrite Hx. exact IH.
Qed.

(** The keyword path returns at most two candidates, each with a positive
    score. *)
Lemma scoreDocument_positive (env : Env) (kv : KVNamespace) (words : list str)
  (name : str) (w w' : World) (r : Search.t) :
  scoreDocument env kv words name w = (Ok (Some r), w') -> (0 < Search.score r)%Q.
Proof.
  unfold scoreDocument. destruct (includes name (lit ":content")); [discriminate|].
  unfold tryCatch, bind, await, bind, emit, lift, ret.
  destruct (kv_get kv name) as [[[|c cs]|]|]; try discriminate.
  destruct (JSON_parse env (c :: cs)) as [md|]; [| discriminate].
  destruct (idOfKey name) as [[|i tl]|]; try discriminate.
  destruct (getDocumentContent env (i :: tl) _) as [[[[|t ts]|]|] w1]; try discriminate.
  destruct (scoreTerms env words (toLowerCase (t :: ts)) 0) as [score|]; [| discriminate].
  destruct (0 <? score) eqn:Hpos; [| discriminate].
  intros [= <- _]. cbn [Search.score].
  apply Nat.ltb_lt in Hpos. unfold Qlt, inject_Z. simpl. lia.
Qed.

Lemma keywordSearch_at_most_two (env : Env) (message : str) (w w' : World)
  (results : list Search.t) :
  keywordSearch env message w = (Ok results, w') -> length results <= 2.
Proof.
  unfold keywordSearch. destruct (COMPLIANCE_KV env) as [kv|].
  - unfold bind, await, bind, emit, lift, ret.
    destruct (kv_list kv (lit "doc:")) as [keys|]; [| discriminate].
    destruct (scoreDocuments env kv (qWords message) keys _) as [[scored|] w1];
      [| discriminate].
    intros [= <- _]. exact (firstn_le_length 2 (sort byScoreDesc scored)).
  - intros [= <- _]. simpl. lia.
Qed.

End Ranking.

(** * Further properties *)

(** ** The size and the shape of an excerpt *)

Section Excerpts.

Import Extractor.

(** X1.  An excerpt is never longer than the document, never longer than 8000
    characters, and at most 6000 characters long when the document is longer
    than 8000. *)
Theorem extract_length_bound (content query : str) :
  length (ChatAgent.extractRelevantPortion content query) <= length content /\
  length (ChatAgent.extractRelevantPortion content query)
  <= (if length content <=? 8000 then 8000 else 6000).
Proof.
  unfold ChatAgent.extractRelevantPortion, extractRelevantPortion.
  destruct (length content <=? 8000) eqn:Hlen.
  - split; [apply Nat.le_refl | apply Nat.leb_le; exact Hlen].
  - apply Nat.leb_gt in Hlen.
    assert (H68 : 6000 <= 8000) by (apply Nat.leb_le; vm_compute; reflexivity).
    assert (Hc : 6000 <= length content).
    { eapply Nat.le_trans; [exact H68 | apply Nat.lt_le_incl; exact Hlen]. }
    destruct (length (filter _ _) =? 0); unfold substring0.
    + split; [| apply firstn_le_length].
      rewrite length_firstn. apply Nat.le_min_r.
    + split; [| apply firstn_le_length].
      eapply Nat.le_trans; [apply firstn_le_length | exact Hc].
Qed.

Lemma toLowerChar_idempotent (c : ascii) : toLowerChar (toLowerChar c) = toLowerChar c.
Proof.
  destruct c as [[] [] [] [] [] [] [] []]; reflexivity.
Qed.

Lemma toLowerCase_idempotent (s : str) : toLowerCase (toLowerCase s) = toLowerCase s.
Proof.
  unfold toLowerCase. rewrite map_map. apply map_ext. exact toLowerChar_idempotent.
Qed.

(** X2.  The excerpt does not depend on the letter case of the query. *)
Theorem extract_query_case (content query : str) :
  ChatAgent.extractRelevantPortion content (toLowerCase query)
  = ChatAgent.extractRelevantPortion content query.
Proof.
  unfold ChatAgent.extractRelevantPortion, extractRelevantPortion, queryWords.
  rewrite toLowerCase_idempotent. reflexivity.
Qed.

End Excerpts.

(** ** The lines an excerpt keeps *)

Section KeptLines.

Import Extractor.

Lemma setAdd_In (i j : nat) (s : list nat) : In i (setAdd j s) <-> i = j \/ In i s.
Proof.
  unfold setAdd. destruct (existsb (Nat.eqb j) s) eqn:Hex.
  - apply existsb_exists in Hex. destruct Hex as (x & Hx & Heq).
    apply Nat.eqb_eq in Heq. subst x. split; [intros H; right; exact H|].
    intros [-> | H]; assumption.
  - rewrite in_app_iff. simpl. split; intros H; intuition congruence.
Qed.

Lemma setAdd_NoDup (j : nat) (s : list nat) : NoDup s -> NoDup (setAdd j s).
Proof.
  intros Hs. unfold setAdd. destruct (existsb (Nat.eqb j) s) eqn:Hex; [exact Hs|].
  apply NoDup_app; [exact Hs | repeat constructor; intros [] |].
  intros x Hx [<- | []].
  assert (Ht : existsb (Nat.eqb j) s = true)
    by (apply existsb_exists; exists j; split; [exact Hx | apply Nat.eqb_refl]).
  congruence.
Qed.

Lemma addAll_spec (l : list nat) :
  forall acc, NoDup acc ->
  NoDup (fold_left (fun s i => setAdd i s) l acc) /\
  forall i, In i (fold_left (fun s i => setAdd i s) l acc) <-> In i l \/ In i acc.
Proof.
  induction l as [|x l' IH]; intros acc Hacc; cbn [fold_left].
  - split; [exact Hacc | intros i; simpl; intuition].
  - destruct (IH (setAdd x acc) (setAdd_NoDup x acc Hacc)) as (Hnd & Hin).
    split; [exact Hnd|]. intros i. rewrite Hin, setAdd_In. simpl. intuition congruence.
Qed.

Lemma window_In (n j i : nat) :
  In i (window n j) <-> j - 10 <= i /\ i <= Nat.min (n - 1) (j + 10).
Proof.
  unfold window. rewrite in_seq. lia.
Qed.

Lemma collectIndices_spec (n : nat) (relevant : list ScoredLine) :
  NoDup (collectIndices n relevant) /\
  forall i, In i (collectIndices n relevant) <->
            exists r, In r relevant /\ In i (window n (idx r)).
Proof.
  unfold collectIndices.
  assert (H : forall acc, NoDup acc ->
            NoDup (fold_left
                     (fun indices r =>
                        fold_left (fun s i => setAdd i s) (window n (idx r)) indices)
                     relevant acc) /\
            forall i, In i (fold_left
                              (fun indices r =>
                                 fold_left (fun s i => setAdd i s) (window n (idx r)) indices)
                              relevant acc) <->
                      (exists r, In r relevant /\ In i (window n (idx r))) \/ In i acc).
  { induction relevant as [|r rest IH]; intros acc Hacc; cbn [fold_left].
    - split; [exact Hacc|]. intros i. split; [intros Hi; right; exact Hi|].
      intros [(r & [] & _) | Hi]; exact Hi.
    - destruct (addAll_spec (window n (idx r)) acc Hacc) as (Hnd & Hin).
      destruct (IH _ Hnd) as (Hnd' & Hin'). split; [exact Hnd'|].
      intros i. rewrite Hin', Hin. split.
      + intros [(r' & Hr' & Hi) | [Hi | Hi]].
        * left. exists r'. split; [right; exact Hr' | exact Hi].
        * left. exists r. split; [left; reflexivity | exact Hi].
        * right. exact Hi.
      + intros [(r' & [<- | Hr'] & Hi) | Hi].
        * right. left. exact Hi.
        * left. exists r'. split; assumption.
        * right. right. exact Hi. }
  destruct (H [] (NoDup_nil _)) as (Hnd & Hin). split; [exact Hnd|].
  intros i. rewrite Hin. simpl. intuition.
Qed.

Lemma insertAsc_In (x i : nat) (l : list nat) : In i (insertAsc x l) <-> i = x \/ In i l.
Proof.
  induction l as [|y l' IH]; cbn [insertAsc].
  - simpl. intuition.
  - destruct (x <? y); simpl; [intuition|]. rewrite IH. intuition.
Qed.

Lemma insertAsc_sorted (x : nat) (l : list nat) :
  StronglySorted lt l -> ~ In x l -> StronglySorted lt (insertAsc x l).
Proof.
  induction 1 as [|y l' Hsorted IH Hall]; intros Hnotin; cbn [insertAsc].
  - repeat constructor.
  - destruct (x <? y) eqn:Hxy.
    + apply Nat.ltb_lt in Hxy. constructor; [constructor; assumption|].
      constructor; [exact Hxy|].
      eapply Forall_impl; [| exact Hall]. intros z Hz. lia.
    + apply Nat.ltb_ge in Hxy.
      assert (Hne : x <> y) by (intros ->; apply Hnotin; left; reflexivity).
      constructor.
      * apply IH. intros Hin. apply Hnotin. right. exact Hin.
      * apply Forall_forall. intros z Hz. apply insertAsc_In in Hz.
        destruct Hz as [-> | Hz]; [lia|].
        rewrite Forall_forall in Hall. exact (Hall z Hz).
Qed.

Lemma sortAsc_spec (l : list nat) :
  NoDup l ->
  StronglySorted lt (sortAsc l) /\ forall i, In i (sortAsc l) <-> In i l.
Proof.
  unfold sortAsc.
  assert (H : forall acc, StronglySorted lt acc -> NoDup l ->
            (forall x, In x l -> ~ In x acc) ->
            StronglySorted lt (fold_left (fun acc x => insertAsc x acc) l acc) /\
            forall i, In i (fold_left (fun acc x => insertAsc x acc) l acc)
                      <-> In i l \/ In i acc).
  { induction l as [|x l' IH]; intros acc Hacc Hnd Hdisj; cbn [fold_left].
    - split; [exact Hacc | intros i; simpl; intuition].
    - inversion Hnd as [|x' l'' Hx Hnd']; subst.
      destruct (IH (insertAsc x acc)) as (Hs & Hin).
      + apply insertAsc_sorted; [exact Hacc | apply Hdisj; left; reflexivity].
      + exact Hnd'.
      + intros y Hy Hin. apply insertAsc_In in Hin. destruct Hin as [-> | Hin].
        * exact (Hx Hy).
        * exact (Hdisj y (or_intror Hy) Hin).
      + split; [exact Hs|]. intros i. rewrite Hin, insertAsc_In. simpl. intuition. }
  intros Hnd. destruct (H [] (SSorted_nil _) Hnd (fun _ _ F => F)) as (Hs & Hin).
  split; [exact Hs|]. intros i. rewrite Hin. simpl. intuition.
Qed.

Lemma relevant_spec (words : list str) (lines : list str) :
  forall i0 r,
  In r (filter (fun l => 0 <? score l) (scoreFrom words i0 lines)) <->
  exists j l, nth_error lines j = Some l /\ 0 < lineScore words l /\
              r = mkScoredLine l (lineScore words l) (i0 + j).
Proof.
  induction lines as [|l rest IH]; intros i0 r; cbn [scoreFrom filter].
  - split; [intros [] | intros (j & l & Hj & _)]. destruct j; discriminate.
  - assert (Hrest : In r (filter (fun l0 => 0 <? score l0) (scoreFrom words (S i0) rest)) <->
                    exists j l', nth_error rest j = Some l' /\ 0 < lineScore words l' /\
                                 r = mkScoredLine l' (lineScore words l') (i0 + S j)).
    { rewrite IH. split; intros (j & l' & Hj & Hpos & ->); exists j, l';
        (split; [exact Hj | split; [exact Hpos | f_equal; lia]]). }
    cbn [score]. destruct (0 <? lineScore words l) eqn:Hpos.
    + apply Nat.ltb_lt in Hpos. simpl. rewrite Hrest. split.
      * intros [<- | (j & l' & Hj & Hp & ->)].
        -- exists 0, l. repeat split; [exact Hpos | f_equal; lia].
        -- exists (S j), l'. repeat split; assumption.
      * intros (j & l' & Hj & Hp & ->). destruct j as [|j].
        -- injection Hj as <-. left. f_equal. lia.
        -- right. exists j, l'. repeat split; assumption.
    + apply Nat.ltb_ge in Hpos. rewrite Hrest. split.
      * intros (j & l' & Hj & Hp & ->). exists (S j), l'. repeat split; assumption.
      * intros (j & l' & Hj & Hp & ->). destruct j as [|j].
        -- injection Hj as <-. lia.
        -- exists j, l'. repeat split; assumption.
Qed.

Lemma kept_lines_spec (words lines : list str) :
  let relevant := filter (fun l => 0 <? score l) (scoredLines words lines) in
  let kept := sortAsc (collectIndices (length lines) relevant) in
  StronglySorted lt kept /\
  forall i, In i kept <->
            i < length lines /\
            exists j l, nth_error lines j = Some l /\ 0 < lineScore words l /\
                        j - 10 <= i /\ i <= j + 10.
Proof.
  intros relevant kept.
  destruct (collectIndices_spec (length lines) relevant) as (Hnd & Hin).
  destruct (sortAsc_spec _ Hnd) as (Hsorted & Hmem).
  split; [exact Hsorted|]. intros i. unfold kept. rewrite Hmem, Hin. split.
  - intros (r & Hr & Hw). apply relevant_spec in Hr.
    destruct Hr as (j & l & Hj & Hpos & ->). cbn [idx] in Hw.
    apply window_In in Hw.
    assert (Hlt : j < length lines) by (apply nth_error_Some; congruence).
    split; [lia|]. exists j, l. repeat split; [exact Hj | exact Hpos | lia | lia].
  - intros (Hi & j & l & Hj & Hpos & Hlo & Hhi).
    exists (mkScoredLine l (lineScore words l) (0 + j)). split.
    + apply relevant_spec. exists j, l. repeat split; assumption.
    + cbn [idx]. apply window_In. lia.
Qed.

(** X3.  The line numbers an excerpt is cut from: in ascending order, each once,
    and exactly the lines at most ten lines away from a line that scores. *)
Theorem kept_lines (words lines : list str) :
  let relevant := filter (fun l => 0 <? score l) (scoredLines words lines) in
  let kept := sortAsc (collectIndices (length lines) relevant) in
  StronglySorted lt kept /\
  forall i, In i kept <->
            i < length lines /\
            exists j l, nth_error lines j = Some l /\ 0 < lineScore words l /\
                        j - 10 <= i /\ i <= j + 10.
Proof. exact (kept_lines_spec words lines). Qed.

End KeptLines.

(** ** An excerpt without gaps *)

Section WholeExcerpt.

Import Extractor.

Lemma splitOn_nonempty (sep : ascii) (s : str) : splitOn sep s <> [].
Proof.
  destruct s as [|c s']; cbn [splitOn]; [discriminate|].
  destruct (Ascii.eqb c sep); [discriminate|].
  destruct (splitOn sep s'); discriminate.
Qed.

Lemma join_cons (sep x : str) (l : list str) :
  l <> [] -> join sep (x :: l) = x ++ sep ++ join sep l.
Proof.
  destruct l; [contradiction | reflexivity].
Qed.

Lemma join_cons_head (sep : str) (c : ascii) (p : str) (ps : list str) :
  join sep ((c :: p) :: ps) = c :: join sep (p :: ps).
Proof.
  destruct ps; reflexivity.
Qed.

(** Splitting at a character and joining with it gives the string back. *)
Lemma join_splitOn (sep : ascii) (s : str) : join [sep] (splitOn sep s) = s.
Proof.
  induction s as [|c s' IH]; cbn [splitOn]; [reflexivity|].
  pose proof (splitOn_nonempty sep s') as Hne.
  destruct (Ascii.eqb c sep) eqn:Hc.
  - apply Ascii.eqb_eq in Hc. subst c.
    etransitivity; [exact (join_cons [sep] [] (splitOn sep s') Hne)|].
    rewrite IH. reflexivity.
  - destruct (splitOn sep s') as [|p ps]; [contradiction|].
    etransitivity; [exact (join_cons_head [sep] c p ps)|].
    rewrite IH. reflexivity.
Qed.

Lemma map_nth_seq {A : Type} (d : A) (l : list A) :
  map (fun i => nth i l d) (seq 0 (length l)) = l.
Proof.
  induction l as [|x l' IH]; [reflexivity|].
  cbn [length seq map nth]. f_equal.
  rewrite <- seq_shift, map_map. exact IH.
Qed.

Lemma cutChunks_run (lines : list str) (k : nat) :
  forall a prev chunks cur,
  (prev = None \/ prev = Some (a - 1) /\ 0 < a) ->
  cutChunks lines (seq a k) prev chunks cur = (chunks, cur ++ seq a k).
Proof.
  induction k as [|k IH]; intros a prev chunks cur Hprev; cbn [seq cutChunks].
  - rewrite app_nil_r. reflexivity.
  - assert (Hcont : match prev with None => true | Some p => a =? p + 1 end = true).
    { destruct Hprev as [-> | [-> Ha]]; [reflexivity | apply Nat.eqb_eq; lia]. }
    rewrite Hcont. rewrite IH.
    + rewrite <- app_assoc. reflexivity.
    + right. split; [f_equal; lia | lia].
Qed.

Lemma sorted_lt_unique (l1 : list nat) :
  forall l2,
  StronglySorted lt l1 -> StronglySorted lt l2 ->
  (forall i, In i l1 <-> In i l2) -> l1 = l2.
Proof.
  induction l1 as [|x l1' IH]; intros l2 H1 H2 Hmem.
  - destruct l2 as [|y l2']; [reflexivity|].
    exfalso. apply (proj2 (Hmem y)). left. reflexivity.
  - destruct l2 as [|y l2'].
    { exfalso. apply (proj1 (Hmem x)). left. reflexivity. }
    inversion H1 as [|? ? Hs1 Ha1]; subst. inversion H2 as [|? ? Hs2 Ha2]; subst.
    rewrite Forall_forall in Ha1, Ha2.
    assert (Hxy : x = y).
    { destruct (proj1 (Hmem x) (or_introl eq_refl)) as [Hy | Hy];
        destruct (proj2 (Hmem y) (or_introl eq_refl)) as [Hx | Hx]; try congruence.
      specialize (Ha1 _ Hx). specialize (Ha2 _ Hy). lia. }
    subst y. f_equal. apply IH; [exact Hs1 | exact Hs2|].
    intros i. split; intros Hi.
    + destruct (proj1 (Hmem i) (or_intror Hi)) as [<- | Hi']; [| exact Hi'].
      specialize (Ha1 _ Hi). lia.
    + destruct (proj2 (Hmem i) (or_intror Hi)) as [<- | Hi']; [| exact Hi'].
      specialize (Ha2 _ Hi). lia.
Qed.

Lemma seq_sorted (k : nat) : forall a, StronglySorted lt (seq a k).
Proof.
  induction k as [|k IH]; intros a; cbn [seq]; constructor; [apply IH|].
  apply Forall_forall. intros i Hi. apply in_seq in Hi. lia.
Qed.

(** X4.  When every line of a long document is at most ten lines away from a line
    that scores, nothing is left out: the excerpt is the first 6000
    characters of the document, without any elision mark. *)
Theorem extract_all_lines_near_a_hit (content query : str) :
  8000 < length content ->
  (forall i, i < length (splitOn LF content) ->
     exists j l, nth_error (splitOn LF content) j = Some l /\
                 0 < lineScore (queryWords query) l /\
                 j - 10 <= i /\ i <= j + 10) ->
  ChatAgent.extractRelevantPortion content query = firstn 6000 content.
Proof.
  intros Hlen Hnear.
  unfold ChatAgent.extractRelevantPortion, extractRelevantPortion.
  apply Nat.leb_gt in Hlen. rewrite Hlen.
  set (words := queryWords query). set (lines := splitOn LF content).
  fold words lines in Hnear.
  destruct (kept_lines_spec words lines) as (Hsorted & Hmem).
  set (relevant := filter (fun l => 0 <? score l) (scoredLines words lines)) in *.
  assert (Hlines : 0 < length lines).
  { unfold lines. pose proof (splitOn_nonempty LF content) as Hne.
    destruct (splitOn LF content); [contradiction | simpl; lia]. }
  assert (Hrel : (length relevant =? 0) = false).
  { apply Nat.eqb_neq. destruct (Hnear 0 Hlines) as (j & l & Hj & Hpos & _).
    assert (Hin : In (mkScoredLine l (lineScore words l) (0 + j)) relevant).
    { apply relevant_spec. exists j, l. repeat split; assumption. }
    destruct relevant; [contradiction | discriminate]. }
  rewrite Hrel.
  assert (Hkept : sortAsc (collectIndices (length lines) relevant) = seq 0 (length lines)).
  { apply sorted_lt_unique; [exact Hsorted | apply seq_sorted|].
    intros i. rewrite Hmem, in_seq. split.
    - intros (Hi & _). lia.
    - intros Hi. split; [lia|]. apply Hnear. lia. }
  rewrite Hkept. unfold buildChunks.
  rewrite (cutChunks_run lines (length lines) 0 None [] [] (or_introl eq_refl)).
  cbn [app]. rewrite length_seq.
  apply Nat.ltb_lt in Hlines. rewrite Hlines. cbn [app join].
  unfold chunkText. rewrite map_nth_seq. unfold lines. rewrite join_splitOn.
  reflexivity.
Qed.

End WholeExcerpt.

Lemma extract_all_lines_near_a_hit_witness :
  ChatAgent.extractRelevantPortion Samples.hitDocument (lit "hello")
  = firstn 6000 Samples.hitDocument.
Proof.
  assert (Hlen : 8000 < length Samples.hitDocument)
    by (apply Nat.leb_gt; vm_compute; reflexivity).
  assert (Hlines : splitOn LF Samples.hitDocument = [Samples.hitDocument])
    by (vm_compute; reflexivity).
  assert (Hscore : 0 < Extractor.lineScore (Extractor.queryWords (lit "hello"))
                         Samples.hitDocument)
    by (apply Nat.ltb_lt; vm_compute; reflexivity).
  assert (Hnear : forall i, i < length (splitOn LF Samples.hitDocument) ->
            exists j l, nth_error (splitOn LF Samples.hitDocument) j = Some l /\
                        0 < Extractor.lineScore (Extractor.queryWords (lit "hello")) l /\
                        j - 10 <= i /\ i <= j + 10).
  { rewrite Hlines. intros i Hi. exists 0, Samples.hitDocument.
    cbn [length] in Hi. repeat split; [exact Hscore | lia | lia]. }
  exact (extract_all_lines_near_a_hit Samples.hitDocument (lit "hello") Hlen Hnear).
Defined.

(** ** Reading a document's content *)

Section ContentReads.

Import ChatAgent Run.

Lemma getDocumentContent_calls (env : Env) (docId : str) (w : World) :
  exists content reads,
    getDocumentContent env docId w
    = (Ok content, mkWorld (history w) (calls w ++ reads) (ticks w)) /\
    (reads = [] \/
     reads = [R2Get (docId ++ lit ".txt")] \/
     reads = [KVGet (lit "doc:" ++ docId ++ lit ":content")] \/
     reads = [R2Get (docId ++ lit ".txt");
              KVGet (lit "doc:" ++ docId ++ lit ":content")]).
Proof.
  unfold getDocumentContent, tryCatch, bind, await, bind, emit, lift, ret.
  cbn [history calls ticks].
  destruct (COMPLIANCE_DOCS env) as [bucket|].
  - destruct (r2_get bucket (docId ++ lit ".txt")) as [[content|] | e].
    + exists (Some content), [R2Get (docId ++ lit ".txt")]. split; [reflexivity | tauto].
    + destruct (COMPLIANCE_KV env) as [kv|]; cbn [history calls ticks].
      * destruct (kv_get kv _) as [content | e];
          [exists content | exists None];
          exists [R2Get (docId ++ lit ".txt"); KVGet (lit "doc:" ++ docId ++ lit ":content")];
          (split; [rewrite <- app_assoc; reflexivity | tauto]).
      * exists None, [R2Get (docId ++ lit ".txt")]. split; [reflexivity | tauto].
    + exists None, [R2Get (docId ++ lit ".txt")]. split; [reflexivity | tauto].
  - destruct (COMPLIANCE_KV env) as [kv|]; cbn [history calls ticks].
    + destruct (kv_get kv _) as [content | e];
        [exists content | exists None];
        exists [KVGet (lit "doc:" ++ docId ++ lit ":content")];
        (split; [reflexivity | tauto]).
    + exists None, []. split; [| tauto].
      rewrite app_nil_r. destruct w; reflexivity.
Qed.

(** X5.  [getDocumentContent] never throws and never writes: it makes no call at
    all, or one read of the blob store, or one read of the key/value store,
    or one of each in this order, always under the keys of the document. *)
Theorem getDocumentContent_reads (env : Env) (docId : str) (w : World) :
  exists content reads,
    getDocumentContent env docId w
    = (Ok content, mkWorld (history w) (calls w ++ reads) (ticks w)) /\
    (reads = [] \/
     reads = [R2Get (docId ++ lit ".txt")] \/
     reads = [KVGet (lit "doc:" ++ docId ++ lit ":content")] \/
     reads = [R2Get (docId ++ lit ".txt");
              KVGet (lit "doc:" ++ docId ++ lit ":content")]).
Proof. exact (getDocumentContent_calls env docId w). Qed.

(** X6.  A throw of the blob-store read makes the content count as missing; the
    copy in the key/value store, if there is one, is not looked at. *)
Theorem getDocumentContent_bucket_throw (env : Env) (docId : str) (w : World)
  (bucket : R2Bucket) (e : exn) :
  COMPLIANCE_DOCS env = Some bucket ->
  r2_get bucket (docId ++ lit ".txt") = Err e ->
  getDocumentContent env docId w
  = (Ok None, mkWorld (history w) (calls w ++ [R2Get (docId ++ lit ".txt")]) (ticks w)).
Proof.
  intros Hb Hget.
  unfold getDocumentContent, tryCatch, bind, await, bind, emit, lift, ret.
  rewrite Hb. cbn [history calls ticks]. rewrite Hget. reflexivity.
Qed.

(** X7.  The blob store has precedence: when it holds the text, that text is the
    content and the key/value store is not read; when it has no object under
    the key, the content is whatever the key/value store holds. *)
Theorem getDocumentContent_precedence (env : Env) (docId : str) (w : World)
  (bucket : R2Bucket) (kv : KVNamespace) (stored : option str) :
  COMPLIANCE_DOCS env = Some bucket ->
  COMPLIANCE_KV env = Some kv ->
  r2_get bucket (docId ++ lit ".txt") = Ok stored ->
  fst (getDocumentContent env docId w)
  = match stored with
    | Some content => Ok (Some content)
    | None =>
        match kv_get kv (lit "doc:" ++ docId ++ lit ":content") with
        | Ok content => Ok content
        | Err _ => Ok None
        end
    end.
Proof.
  intros Hb Hkv Hget.
  unfold getDocumentContent, tryCatch, bind, await, bind, emit, lift, ret.
  rewrite Hb, Hkv. cbn [history calls ticks]. rewrite Hget.
  destruct stored as [content|]; [reflexivity|].
  cbn [history calls ticks]. destruct (kv_get kv _); reflexivity.
Qed.

End ContentReads.

Lemma getDocumentContent_bucket_throw_witness :
  Fixtures.lookup Fixtures.oneDocument (lit "doc:d1:content") = Some Fixtures.policyText /\
  ChatAgent.getDocumentContent (Samples.envWithBucket Samples.r2Down Fixtures.oneDocument)
    (lit "d1") Fixtures.freshWorld
  = (Ok None,
     mkWorld (history Fixtures.freshWorld)
       (calls Fixtures.freshWorld ++ [R2Get (lit "d1" ++ lit ".txt")])
       (ticks Fixtures.freshWorld)).
Proof.
  split; [vm_compute; reflexivity|].
  assert (Hb : COMPLIANCE_DOCS (Samples.envWithBucket Samples.r2Down Fixtures.oneDocument)
               = Some Samples.r2Down) by (vm_compute; reflexivity).
  assert (Hget : r2_get Samples.r2Down (lit "d1" ++ lit ".txt")
                 = Err (ErrorObject (lit "R2 unavailable"))) by (vm_compute; reflexivity).
  exact (getDocumentContent_bucket_throw _ (lit "d1") Fixtures.freshWorld _ _ Hb Hget).
Defined.

Lemma getDocumentContent_precedence_witness :
  fst (ChatAgent.getDocumentContent
         (Samples.envWithBucket (Samples.r2Of [(lit "d1.txt", lit "text in the bucket")])
            Fixtures.oneDocument)
         (lit "d1") Fixtures.freshWorld)
  = Ok (Some (lit "text in the bucket")).
Proof.
  assert (Hb : COMPLIANCE_DOCS
                 (Samples.envWithBucket (Samples.r2Of [(lit "d1.txt", lit "text in the bucket")])
                    Fixtures.oneDocument)
               = Some (Samples.r2Of [(lit "d1.txt", lit "text in the bucket")]))
    by (vm_compute; reflexivity).
  assert (Hkv : COMPLIANCE_KV
                  (Samples.envWithBucket (Samples.r2Of [(lit "d1.txt", lit "text in the bucket")])
                     Fixtures.oneDocument)
                = Some (Fixtures.kvOf Fixtures.oneDocument))
    by (vm_compute; reflexivity).
  assert (Hget : r2_get (Samples.r2Of [(lit "d1.txt", lit "text in the bucket")])
                   (lit "d1" ++ lit ".txt")
                 = Ok (Some (lit "text in the bucket")))
    by (vm_compute; reflexivity).
  exact (getDocumentContent_precedence _ (lit "d1") Fixtures.freshWorld _ _ _ Hb Hkv Hget).
Defined.

(** ** The outcome of a request *)

Section Outcomes.

Import ChatAgent Run.

(** X8.  [fetch] never throws.  Its response has status 400 exactly when the
    request carries no message or an empty one; any other request is
    answered with status 200 or 500. *)
Theorem fetch_status (env : Env) (message : option str) (w : World) :
  exists response w',
    fetch env message w = (Ok response, w') /\
    (status response = 400 <-> (message = None \/ message = Some [])) /\
    (status response = 400 \/ status response = 200 \/ status response = 500).
Proof.
  destruct message as [[|c cs]|].
  - exists badRequest, w. split; [reflexivity|]. split; [| left; reflexivity].
    split; [intros _; right; reflexivity | reflexivity].
  - rewrite fetch_process.
    destruct (process env (c :: cs) w) as [r w'] eqn:Hrun.
    apply process_run in Hrun.
    destruct Hrun; eexists; eexists; (split; [reflexivity|]); cbn [status failure];
      (split; [| right; first [left; reflexivity | right; reflexivity]]);
      (split; [intros Hst; apply Nat.eqb_eq in Hst; vm_compute in Hst; discriminate Hst
              | intros [Hst | Hst]; discriminate Hst]).
  - exists badRequest, w. split; [reflexivity|]. split; [| left; reflexivity].
    split; [intros _; left; reflexivity | reflexivity].
Qed.

(** X9.  A throw of the embedding call fails the request before any retrieval:
    the response is the failure with the error's message, nothing is read
    from the stores, also when no similarity index is bound. *)
Theorem embedding_failure_fails_request (env : Env) (m : str) (w : World) (e : exn) :
  m <> [] ->
  AI_embed env m = Err e ->
  fetch env (Some m) w
  = (Ok (mkResponse 500 (ErrorBody (lit "Failed to process your request") (details e))),
     mkWorld (history w) (calls w ++ [StorageGet; RunEmbedding m]) (ticks w)).
Proof.
  intros Hm He. destruct m as [|c cs]; [contradiction|].
  unfold fetch, tryCatch, process, bind, storageGet, await, bind, emit, lift, ret.
  cbn [history calls ticks]. rewrite He. unfold failure.
  rewrite <- app_assoc. reflexivity.
Qed.

End Outcomes.

Lemma embedding_failure_fails_request_witness :
  ChatAgent.fetch (Samples.envEmbeddingDown Fixtures.oneDocument) (Some (lit "reported"))
    Fixtures.freshWorld
  = (Ok (mkResponse 500
           (ErrorBody (lit "Failed to process your request")
              (ChatAgent.details (ErrorObject (lit "embedding unavailable"))))),
     mkWorld (history Fixtures.freshWorld)
       (calls Fixtures.freshWorld ++ [StorageGet; RunEmbedding (lit "reported")])
       (ticks Fixtures.freshWorld)).
Proof.
  assert (H0 : lit "reported" <> []) by (vm_compute; discriminate).
  assert (H1 : AI_embed (Samples.envEmbeddingDown Fixtures.oneDocument) (lit "reported")
               = Err (ErrorObject (lit "embedding unavailable")))
    by (vm_compute; reflexivity).
  exact (embedding_failure_fails_request _ _ Fixtures.freshWorld _ H0 H1).
Defined.

(** ** Candidates *)

Section Candidates.

Import ChatAgent Run Kinds.

Variable env : Env.

Lemma getDocumentContent_only_reads (docId : str) :
  frames contentRead (getDocumentContent env docId).
Proof.
  intros w. destruct (getDocumentContent_calls env docId w) as (content & reads & Hrun & Hreads).
  rewrite Hrun. cbn [snd]. repeat split. exists reads. split; [reflexivity|].
  destruct Hreads as [-> | [-> | [-> | ->]]]; repeat constructor.
Qed.

Lemma collectMatches_only_reads (ms : list Vector.Match) :
  frames contentRead (collectMatches env ms).
Proof.
  intros w.
  destruct (collectMatches_run env contentRead (fun _ => I) (fun _ => I) ms w)
    as (out & _ & Hext & _).
  exact Hext.
Qed.

(** X10.  When the similarity path yields a candidate, the keyword path is not
    taken: the candidates are those of the similarity path, and the calls
    made are one similarity query followed by reads of document content
    only; the keys of the key/value store are not listed. *)
Theorem similarity_hit_skips_listing (message : str) (qe : Vector.EmbeddingResponse)
  (w w1 : World) (r : Search.t) (rs : list Search.t) :
  vectorSearch env qe w = (Ok (r :: rs), w1) ->
  retrieve env message qe w = (Ok (r :: rs), w1) /\
  exists vector reads,
    calls w1 = calls w ++ VectorQuery vector 3 true :: reads /\
    Forall contentRead reads.
Proof.
  intros Hvec. split.
  - unfold retrieve, bind. rewrite Hvec. reflexivity.
  - revert Hvec. unfold vectorSearch.
    destruct (DOCS_VECTORDB env) as [| | query]; try discriminate.
    unfold tryCatch, bind, await, bind, emit, lift, ret, throw.
    destruct (Vector.data qe) as [d|]; [| discriminate].
    destruct (query (nth_error d 0) 3 true) as [sr | e]; [| discriminate].
    destruct (Vector.matches sr) as [ms|]; [| discriminate].
    match goal with
    | |- context [collectMatches env ms ?w0] =>
        pose proof (collectMatches_only_reads ms w0) as (_ & _ & reads & Hc & Hall);
        destruct (collectMatches env ms w0) as [[out | e] w2]
    end; [| discriminate].
    intros [= _ <-]. cbn [snd calls] in Hc.
    exists (nth_error d 0), reads. split; [| exact Hall].
    rewrite Hc, <- app_assoc. reflexivity.
Qed.

Lemma collectMatches_content (ms : list Vector.Match)
  (w w' : World) (out : list (option Search.t)) :
  collectMatches env ms w = (Ok out, w') ->
  Forall (fun r => Search.content r <> []) (filterBoolean out).
Proof.
  intros Hrun.
  destruct (collectMatches_run env contentRead (fun _ => I) (fun _ => I) ms w)
    as (out' & Hout & _ & Hshape & _).
  rewrite Hrun in Hout. injection Hout as <-. clear Hrun.
  induction Hshape as [|m o ms' out' Hm Hrest IH]; [constructor|].
  cbn [filterBoolean]. destruct o as [r|]; [| exact IH].
  constructor; [| exact IH].
  destruct Hm as (text & Hne & ->). exact Hne.
Qed.

Lemma vectorSearch_content (qe : Vector.EmbeddingResponse) (w w' : World)
  (results : list Search.t) :
  vectorSearch env qe w = (Ok results, w') ->
  Forall (fun r => Search.content r <> []) results.
Proof.
  unfold vectorSearch.
  destruct (DOCS_VECTORDB env) as [| | query];
    try (intros [= <- _]; constructor).
  unfold tryCatch, bind, await, bind, emit, lift, ret, throw.
  destruct (Vector.data qe) as [d|]; [| intros [= <- _]; constructor].
  destruct (query (nth_error d 0) 3 true) as [sr | e]; [| intros [= <- _]; constructor].
  destruct (Vector.matches sr) as [ms|]; [| intros [= <- _]; constructor].
  destruct (collectMatches env ms _) as [[out | e] w1] eqn:Hrun.
  - intros [= <- _]. exact (collectMatches_content _ _ _ _ Hrun).
  - intros [= <- _]. constructor.
Qed.

Lemma scoreDocument_wellFormed (kv : KVNamespace) (words : list str)
  (name : str) (w w' : World) (r : Search.t) :
  scoreDocument env kv words name w = (Ok (Some r), w') -> wellFormed r.
Proof.
  intros Hrun. split; [| split; [exact (scoreDocument_positive _ _ _ _ _ _ _ Hrun)|]];
    revert Hrun; unfold scoreDocument;
    (destruct (includes name (lit ":content")); [discriminate|]);
    unfold tryCatch, bind, await, bind, emit, lift, ret;
    (destruct (kv_get kv name) as [[[|c cs]|]|]; try discriminate);
    (destruct (JSON_parse env (c :: cs)) as [md|]; [| discriminate]);
    (destruct (idOfKey name) as [[|i tl]|]; try discriminate);
    (destruct (getDocumentContent env (i :: tl) _) as [[[[|t ts]|]|] w1]; try discriminate);
    (destruct (scoreTerms env words (toLowerCase (t :: ts)) 0) as [score|]; [| discriminate]);
    (destruct (0 <? score); [| discriminate]);
    intros [= <- _]; cbn [Search.content Search.metadata]; discriminate.
Qed.

Lemma scoreDocuments_wellFormed (kv : KVNamespace) (words : list str) (names : list str) :
  forall w scored w',
  scoreDocuments env kv words names w = (Ok scored, w') -> Forall wellFormed scored.
Proof.
  induction names as [|name rest IH]; intros w scored w' Hrun; cbn [scoreDocuments] in Hrun.
  - injection Hrun as <- _. constructor.
  - unfold bind, ret in Hrun.
    destruct (scoreDocument env kv words name w) as [[entry | e] w1] eqn:Hdoc;
      [| discriminate Hrun].
    destruct (scoreDocuments env kv words rest w1) as [[tail | e] w2] eqn:Hrest;
      [| discriminate Hrun].
    injection Hrun as <- _. specialize (IH _ _ _ Hrest).
    destruct entry as [r|]; [| exact IH].
    constructor; [exact (scoreDocument_wellFormed _ _ _ _ _ _ Hdoc) | exact IH].
Qed.

Lemma firstn_In {A : Type} (n : nat) (l : list A) (x : A) :
  In x (firstn n l) -> In x l.
Proof.
  revert l. induction n as [|n IH]; intros [|y l] Hx; simpl in Hx; try contradiction.
  destruct Hx as [-> | Hx]; [left; reflexivity | right; exact (IH _ Hx)].
Qed.

Lemma Forall_firstn_sort {P : Search.t -> Prop} (n : nat) (l : list Search.t) :
  Forall P l -> Forall P (firstn n (sort byScoreDesc l)).
Proof.
  intros Hall. apply Forall_forall. intros x Hx.
  rewrite Forall_forall in Hall. apply Hall.
  apply (Permutation_in _ (sort_perm byScoreDesc l)).
  exact (firstn_In n _ _ Hx).
Qed.

Lemma wellFormed_context (message : str) (validResults : list Search.t) :
  Forall wellFormed validResults ->
  exists documentContext, contextOf validResults message = Ok documentContext.
Proof.
  intros Hall. destruct (contextOf validResults message) as [ctx | e] eqn:Hctx.
  - exists ctx. reflexivity.
  - destruct (contextOf_throw _ _ _ Hctx) as (doc & Hin & Hnone).
    rewrite Forall_forall in Hall. destruct (Hall doc Hin) as (_ & _ & Hmd). contradiction.
Qed.

Lemma keywordSearch_candidates (message : str) (w w' : World) (results : list Search.t) :
  keywordSearch env message w = (Ok results, w') ->
  length results <= 2 /\
  Forall wellFormed results /\
  StronglySorted outranks results /\
  exists documentContext, contextOf results message = Ok documentContext.
Proof.
  intros Hrun.
  assert (Hshape : results = [] \/
            exists scored, Forall wellFormed scored /\
                           results = firstn 2 (sort byScoreDesc scored)).
  { revert Hrun. unfold keywordSearch. destruct (COMPLIANCE_KV env) as [kv|].
    - unfold bind, await, bind, emit, lift, ret.
      destruct (kv_list kv (lit "doc:")) as [keys|]; [| discriminate].
      destruct (scoreDocuments env kv (qWords message) keys _) as [[scored|] w1] eqn:Hsc;
        [| discriminate].
      intros Heq. right. exists scored. split.
      + exact (scoreDocuments_wellFormed _ _ _ _ _ _ Hsc).
      + injection Heq as Hres _. rewrite <- Hres. reflexivity.
    - intros [= <- _]. left. reflexivity. }
  assert (Hwf : Forall wellFormed results).
  { destruct Hshape as [-> | (scored & Hsc & ->)]; [constructor|].
    apply Forall_firstn_sort. exact Hsc. }
  split; [exact (keywordSearch_at_most_two _ _ _ _ _ Hrun)|].
  split; [exact Hwf|]. split; [| exact (wellFormed_context message results Hwf)].
  destruct Hshape as [-> | (scored & _ & ->)]; [constructor|].
  pose proof (sort_sorted scored) as Hs.
  rewrite <- (firstn_skipn 2 (sort byScoreDesc scored)) in Hs.
  revert Hs. generalize (firstn 2 (sort byScoreDesc scored)) as kept.
  generalize (skipn 2 (sort byScoreDesc scored)) as dropped.
  intros dropped kept. induction kept as [|x kept IH]; intros Hs; [constructor|].
  inversion Hs as [|? ? Hs' Hall]; subst. constructor; [exact (IH Hs')|].
  apply Forall_app in Hall. exact (proj1 Hall).
Qed.

(** X11.  The candidates of the keyword path: at most two, each with a text, a
    positive score and metadata, ranked by descending score; assembling
    their context cannot throw. *)
Theorem keyword_candidates (message : str) (w w' : World) (results : list Search.t) :
  keywordSearch env message w = (Ok results, w') ->
  length results <= 2 /\
  Forall wellFormed results /\
  StronglySorted outranks results /\
  exists documentContext, contextOf results message = Ok documentContext.
Proof. exact (keywordSearch_candidates message w w' results). Qed.

(** X12.  Every candidate of either path has a text that is not empty. *)
Theorem candidates_have_content (message : str) (qe : Vector.EmbeddingResponse)
  (w w' : World) (results : list Search.t) :
  retrieve env message qe w = (Ok results, w') ->
  Forall (fun r => Search.content r <> []) results.
Proof.
  unfold retrieve, bind.
  destruct (vectorSearch env qe w) as [[vr | e] w1] eqn:Hvec; [| discriminate].
  destruct vr as [|r rs].
  - intros Hkey. destruct (keywordSearch_candidates _ _ _ _ Hkey) as (_ & Hwf & _).
    eapply Forall_impl; [| exact Hwf]. intros x (Hc & _). exact Hc.
  - intros [= <- _]. exact (vectorSearch_content _ _ _ _ Hvec).
Qed.

End Candidates.

Lemma similarity_hit_skips_listing_witness :
  ChatAgent.retrieve (Samples.envIndexed [Samples.policyMatch] Fixtures.oneDocument)
    (lit "reported") Samples.sampleEmbedding Fixtures.freshWorld
  = (Ok [Samples.indexedHit], snd Samples.indexedRun) /\
  exists vector reads,
    calls (snd Samples.indexedRun)
    = calls Fixtures.freshWorld ++ VectorQuery vector 3 true :: reads /\
    Forall Kinds.contentRead reads.
Proof.
  assert (H : ChatAgent.vectorSearch
                (Samples.envIndexed [Samples.policyMatch] Fixtures.oneDocument)
                Samples.sampleEmbedding Fixtures.freshWorld
              = (Ok [Samples.indexedHit], snd Samples.indexedRun))
    by (vm_compute; reflexivity).
  exact (similarity_hit_skips_listing _ (lit "reported") _ _ _ _ _ H).
Defined.

Lemma keyword_candidates_witness :
  length (Samples.valueOf (fst Samples.keywordRun)) <= 2 /\
  Forall Kinds.wellFormed (Samples.valueOf (fst Samples.keywordRun)) /\
  StronglySorted Run.outranks (Samples.valueOf (fst Samples.keywordRun)) /\
  exists documentContext,
    Run.contextOf (Samples.valueOf (fst Samples.keywordRun)) (lit "reported")
    = Ok documentContext.
Proof.
  assert (H : ChatAgent.keywordSearch (Fixtures.envOf Fixtures.uploadedTwice)
                (lit "reported") Fixtures.freshWorld
              = (Ok (Samples.valueOf (fst Samples.keywordRun)), snd Samples.keywordRun))
    by (vm_compute; reflexivity).
  exact (keyword_candidates _ (lit "reported") _ _ _ H).
Defined.

Lemma candidates_have_content_witness :
  Forall (fun r => Search.content r <> []) [Samples.indexedHit].
Proof.
  assert (H : ChatAgent.retrieve
                (Samples.envIndexed [Samples.policyMatch] Fixtures.oneDocument)
                (lit "reported") Samples.sampleEmbedding Fixtures.freshWorld
              = (Ok [Samples.indexedHit], snd Samples.indexedRun))
    by (vm_compute; reflexivity).
  exact (candidates_have_content _ (lit "reported") _ _ _ _ H).
Defined.

(** ** The two best of the scored documents *)

Section TopTwo.

Import ChatAgent Run.

(** X13.  [scored.sort(...)] followed by [scored.slice(0, 2)]: what is kept and
    what is dropped together are the scored documents; the kept ones are the
    first two of the descending order, so nothing dropped outranks them; and
    documents of equal score stay in the order in which they were listed. *)
Theorem ranking_top_two (scored : list Search.t) :
  let kept := firstn 2 (sort byScoreDesc scored) in
  let dropped := skipn 2 (sort byScoreDesc scored) in
  Permutation (kept ++ dropped) scored /\
  length kept = Nat.min 2 (length scored) /\
  (forall a d, In a kept -> In d dropped -> outranks a d) /\
  (forall q, filter (fun r => Qeq_bool (Search.score r) q) (kept ++ dropped)
             = filter (fun r => Qeq_bool (Search.score r) q) scored).
Proof.
  intros kept dropped. unfold kept, dropped. rewrite firstn_skipn.
  split; [apply sort_perm|]. split.
  - rewrite length_firstn. rewrite (Permutation_length (sort_perm byScoreDesc scored)).
    reflexivity.
  - split; [| intros q; apply sort_stable].
    pose proof (sort_sorted scored) as Hs.
    rewrite <- (firstn_skipn 2 (sort byScoreDesc scored)) in Hs.
    revert Hs. generalize (firstn 2 (sort byScoreDesc scored)) as ks.
    generalize (skipn 2 (sort byScoreDesc scored)) as ds.
    intros ds ks. induction ks as [|x ks IH]; intros Hs a d Ha Hd; [contradiction|].
    inversion Hs as [|? ? Hs' Hall]; subst.
    destruct Ha as [<- | Ha].
    + rewrite Forall_forall in Hall. apply Hall. apply in_or_app. right. exact Hd.
    + exact (IH Hs' a d Ha Hd).
Qed.

End TopTwo.

(** ** A query term that is not a pattern *)

Section MalformedTerm.

Import ChatAgent Run.

Variable env : Env.

Lemma compile_rejects (t lowerContent : str) :
  RegExp.compile t = RegExp.SyntaxError ->
  termMatches env t lowerContent = Err syntaxError.
Proof. intros Hbad. unfold termMatches. rewrite Hbad. reflexivity. Qed.

Lemma scoreTerms_rejects (words : list str) (t : str) :
  In t words ->
  (forall lowerContent, exists e, termMatches env t lowerContent = Err e) ->
  forall lowerContent score, exists e, scoreTerms env words lowerContent score = Err e.
Proof.
  intros Hin Hbad lowerContent.
  induction words as [|w rest IH]; intros score; [contradiction|].
  cbn [scoreTerms]. destruct (termMatches env w lowerContent) as [n | e] eqn:Hw.
  - destruct Hin as [-> | Hin]; [| exact (IH Hin _)].
    destruct (Hbad lowerContent) as (e & He). rewrite He in Hw. discriminate.
  - exists e. reflexivity.
Qed.

Lemma scoreDocument_skips (kv : KVNamespace) (words : list str) (name : str) (w : World) :
  (forall lowerContent score, exists e, scoreTerms env words lowerContent score = Err e) ->
  fst (scoreDocument env kv words name w) = Ok None.
Proof.
  intros Hbad. unfold scoreDocument.
  destruct (includes name (lit ":content")); [reflexivity|].
  unfold tryCatch, bind, await, bind, emit, lift, ret.
  destruct (kv_get kv name) as [[[|c cs]|]|]; try reflexivity.
  destruct (JSON_parse env (c :: cs)) as [md|]; [| reflexivity].
  destruct (idOfKey name) as [[|i tl]|]; try reflexivity.
  destruct (getDocumentContent env (i :: tl) _) as [[[[|t ts]|]|] w1]; try reflexivity.
  destruct (Hbad (toLowerCase (t :: ts)) 0) as (e & ->). reflexivity.
Qed.

Lemma scoreDocuments_skip_all (kv : KVNamespace) (words : list str) (names : list str) :
  (forall lowerContent score, exists e, scoreTerms env words lowerContent score = Err e) ->
  forall w, fst (scoreDocuments env kv words names w) = Ok [].
Proof.
  intros Hbad. induction names as [|name rest IH]; intros w; cbn [scoreDocuments].
  - reflexivity.
  - unfold bind, ret.
    pose proof (scoreDocument_skips kv words name w Hbad) as Hdoc.
    destruct (scoreDocument env kv words name w) as [r w1]. cbn [fst] in Hdoc. subst r.
    specialize (IH w1).
    destruct (scoreDocuments env kv words rest w1) as [r w2]. cbn [fst] in IH. subst r.
    reflexivity.
Qed.

(** X14.  One term of the query for which [new RegExp] throws is enough
    for the keyword path to return nothing, whatever the other terms and
    the stored documents are: scoring throws for every document and every
    document is skipped.  This holds for the terms that [RegExp.compile]
    rejects and for those beyond it that the engine rejects. *)
Theorem malformed_term_empties_keyword_search (message : str) (w : World)
  (kv : KVNamespace) (keys : list str) (t : str) :
  COMPLIANCE_KV env = Some kv ->
  kv_list kv (lit "doc:") = Ok keys ->
  In t (qWords message) ->
  (RegExp.compile t = RegExp.SyntaxError \/
   (RegExp.compile t = RegExp.Beyond /\
    forall lowerContent, exists e, RegExp_engine env t lowerContent = Err e)) ->
  fst (keywordSearch env message w) = Ok [].
Proof.
  intros Hkv Hlist Hin Hbad.
  assert (Hthrows : forall lowerContent, exists e, termMatches env t lowerContent = Err e).
  { intros lowerContent. destruct Hbad as [Hbad | (Hbeyond & Hengine)].
    - exists syntaxError. exact (compile_rejects t lowerContent Hbad).
    - unfold termMatches. rewrite Hbeyond. apply Hengine. }
  unfold keywordSearch. rewrite Hkv.
  unfold bind, await, bind, emit, lift, ret. rewrite Hlist.
  match goal with
  | |- context [scoreDocuments env kv ?ws keys ?w0] =>
      pose proof (scoreDocuments_skip_all kv ws keys
                    (scoreTerms_rejects ws t Hin Hthrows) w0) as Hall;
      destruct (scoreDocuments env kv ws keys w0) as [r w1]
  end.
  cbn [fst] in Hall. subst r. reflexivity.
Qed.

End MalformedTerm.

Lemma malformed_term_empties_keyword_search_witness :
  fst (ChatAgent.keywordSearch (Samples.envEngine Fixtures.retentionDocument)
         (lit "retention (see") Fixtures.freshWorld) = Ok [].
Proof.
  assert (Hkv : COMPLIANCE_KV (Samples.envEngine Fixtures.retentionDocument)
                = Some (Fixtures.kvOf Fixtures.retentionDocument))
    by (vm_compute; reflexivity).
  assert (Hlist : kv_list (Fixtures.kvOf Fixtures.retentionDocument) (lit "doc:")
                  = Ok [lit "doc:r1"; lit "doc:r1:content"])
    by (vm_compute; reflexivity).
  assert (Hin : In (lit "(see") (ChatAgent.qWords (lit "retention (see")))
    by (vm_compute; right; left; reflexivity).
  assert (Hbad : RegExp.compile (lit "(see") = RegExp.SyntaxError \/
                 (RegExp.compile (lit "(see") = RegExp.Beyond /\
                  forall lowerContent, exists e,
                    RegExp_engine (Samples.envEngine Fixtures.retentionDocument)
                      (lit "(see") lowerContent = Err e)).
  { right. split; [vm_compute; reflexivity|].
    intros lowerContent. exists syntaxError. reflexivity. }
  exact (malformed_term_empties_keyword_search _ (lit "retention (see") Fixtures.freshWorld
           _ _ _ Hkv Hlist Hin Hbad).
Defined.

(** The same with a term that [RegExp.compile] rejects itself. *)
Lemma repeated_quantifier_empties_keyword_search :
  Claimed.score (ChatAgent.qWords (lit "retention c++")) Fixtures.retentionText = 1 /\
  fst (ChatAgent.keywordSearch (Fixtures.envOf Fixtures.retentionDocument)
         (lit "retention c++") Fixtures.freshWorld) = Ok [].
Proof.
  split; vm_compute; reflexivity.
Qed.

Lemma plain_terms_check (words : list str) :
  forallb (fun w => (0 <? length w) && Claimed.plain w) words = true ->
  Forall (fun w => w <> [] /\ Claimed.plain w = true) words.
Proof.
  intros H. apply Forall_forall. intros w Hw.
  rewrite forallb_forall in H. specialize (H w Hw).
  apply andb_true_iff in H. destruct H as [Hlen Hplain].
  split; [| exact Hplain]. intros ->. discriminate Hlen.
Qed.

(** A query of plain terms is scored by counting substrings. *)
Lemma scoreTerms_plain_witness :
  ChatAgent.scoreTerms (Fixtures.envOf Fixtures.retentionDocument)
    (ChatAgent.qWords (lit "Retention days"))
    (toLowerCase Fixtures.retentionText) 0
  = Ok (fold_left
          (fun acc w => acc + Claimed.occurrences w (toLowerCase Fixtures.retentionText))
          (ChatAgent.qWords (lit "Retention days")) 0).
Proof.
  assert (H : Forall (fun w => w <> [] /\ Claimed.plain w = true)
                (ChatAgent.qWords (lit "Retention days"))).
  { apply plain_terms_check. vm_compute. reflexivity. }
  exact (scoreTerms_plain _ _ (toLowerCase Fixtures.retentionText) H 0).
Defined.

(** ** Context and citations of an answer *)

Section Answers.

Import ChatAgent Run Kinds.

Lemma citations_mirror (validResults : list Search.t) :
  forall context,
  citations validResults = Ok context ->
  map citationOf validResults = map Some context.
Proof.
  induction validResults as [|doc rest IH]; intros context H; cbn [citations] in H.
  - injection H as <-. reflexivity.
  - cbn [map]. unfold citationOf at 1.
    destruct (Search.metadata doc) as [md|]; [| discriminate].
    destruct (citations rest) as [cs | e]; [| discriminate].
    injection H as <-. cbn [map]. rewrite (IH cs eq_refl). reflexivity.
Qed.

(** X15.  A successful answer cites exactly the candidates it was built from, in
    rank order, each with the title and type of its metadata and its raw
    score; [documentsFound] is their number, the document context is the
    concatenation of their blocks in the same order, and the two lengths
    reported are those of that context and of the system message. *)
Theorem answer_cites_candidates (env : Env) (m : str) (w w' : World)
  (response : str) (context : list Citation.t)
  (documentsFound contextLength promptLength : nat) :
  fetch env (Some m) w
  = (Ok (mkResponse 200
           (ChatBody response context documentsFound contextLength promptLength)), w') ->
  exists qe validResults w2,
    retrieve env m qe (afterEmbedding m w) = (Ok validResults, w2) /\
    map citationOf validResults = map Some context /\
    documentsFound = length validResults /\
    documentsFound = length context /\
    contextLength = length (concat (map (blockOf m) validResults)) /\
    promptLength
    = length (systemMessage validResults (concat (map (blockOf m) validResults))).
Proof.
  intros Hfetch. destruct m as [|c cs]; [discriminate Hfetch|].
  rewrite fetch_process in Hfetch.
  destruct (process env (c :: cs) w) as [r w0] eqn:Hrun.
  apply process_run in Hrun.
  destruct Hrun as
    [ e He
    | qe e w2 He Hret _
    | qe vr e w2 He Hret _ Hctx
    | qe vr ctx e w2 He Hret _ Hctx msgs0 Hgen
    | qe vr ctx ai cites w2 He Hret _ Hctx msgs0 Hgen Hcite h ];
    try (unfold failure in Hfetch; injection Hfetch as Hbody _; discriminate Hbody).
  injection Hfetch as <- <- <- <- <- _.
  pose proof (citations_mirror _ _ Hcite) as Hmirror.
  pose proof (contextOf_blocks _ _ _ Hctx) as Hblocks. subst ctx.
  exists qe, vr, w2. split; [exact Hret|]. split; [exact Hmirror|].
  split; [reflexivity|]. split; [| split; reflexivity].
  rewrite <- (length_map citationOf vr), Hmirror. apply length_map.
Qed.

End Answers.

Lemma answer_cites_candidates_witness :
  exists qe validResults w2,
    ChatAgent.retrieve (Fixtures.envOf Fixtures.oneDocument) (lit "reported") qe
      (Run.afterEmbedding (lit "reported") Fixtures.freshWorld) = (Ok validResults, w2) /\
    map Kinds.citationOf validResults
    = map Some (Samples.answerContext (fst Fixtures.sampleRun)) /\
    fst (fst (Samples.answerNumbers (fst Fixtures.sampleRun))) = length validResults /\
    fst (fst (Samples.answerNumbers (fst Fixtures.sampleRun)))
    = length (Samples.answerContext (fst Fixtures.sampleRun)) /\
    snd (fst (Samples.answerNumbers (fst Fixtures.sampleRun)))
    = length (concat (map (Kinds.blockOf (lit "reported")) validResults)) /\
    snd (Samples.answerNumbers (fst Fixtures.sampleRun))
    = length (ChatAgent.systemMessage validResults
                (concat (map (Kinds.blockOf (lit "reported")) validResults))).
Proof.
  assert (H : ChatAgent.fetch (Fixtures.envOf Fixtures.oneDocument) (Some (lit "reported"))
                Fixtures.freshWorld
              = (Ok (mkResponse 200
                       (ChatBody (Samples.answerText (fst Fixtures.sampleRun))
                          (Samples.answerContext (fst Fixtures.sampleRun))
                          (fst (fst (Samples.answerNumbers (fst Fixtures.sampleRun))))
                          (snd (fst (Samples.answerNumbers (fst Fixtures.sampleRun))))
                          (snd (Samples.answerNumbers (fst Fixtures.sampleRun))))),
                 snd Fixtures.sampleRun))
    by (vm_compute; reflexivity).
  exact (answer_cites_candidates _ _ _ _ _ _ _ _ _ H).
Defined.

(** ** The roles of the stored messages *)

Section StoredRoles.

Import ChatAgent Run Kinds.

Lemma session_roles (requests : list (Env * option str)) :
  forall w, exists n, map fst (transcript (fst (session requests w))) = turnRoles n.
Proof.
  induction requests as [|[env message] rest IH]; intros w.
  - exists 0. reflexivity.
  - cbn [session].
    destruct (fetch_turn env message w) as [(Hex & _) | (u & a & Hex & Hu & Ha & _)];
      destruct (fetch env message w) as [r w1]; cbn [fst snd] in *;
      destruct (IH w1) as (n & Hn);
      destruct (session rest w1) as [turns w2]; cbn [fst snd] in *;
      unfold transcript in *; cbn [flat_map]; rewrite Hex, map_app, Hn.
    + exists n. reflexivity.
    + exists (S n). unfold roleAndContent. cbn [map fst]. rewrite Hu, Ha. reflexivity.
Qed.

Lemma turnRoles_length (n : nat) : length (turnRoles n) = 2 * n.
Proof.
  induction n as [|n IH]; [reflexivity|].
  unfold turnRoles in *. cbn [repeat concat app length]. rewrite IH. lia.
Qed.

Lemma turnRoles_skip (j k : nat) : skipn (2 * j) (turnRoles (j + k)) = turnRoles k.
Proof.
  induction j as [|j IH]; [reflexivity|].
  replace (2 * S j) with (S (S (2 * j))) by lia.
  unfold turnRoles in *. cbn [Nat.add repeat concat app skipn]. exact IH.
Qed.

(** X16.  Only user and assistant messages are ever stored, never the system
    message: from a session without history, the roles of the stored
    messages are user, assistant, user, assistant, ..., for at most five
    exchanges. *)
Theorem stored_roles_alternate (requests : list (Env * option str))
  (cs : list Call) (t : nat) :
  exists k,
    k <= 5 /\
    map Chat.role (stored (snd (session requests (mkWorld None cs t)))) = turnRoles k.
Proof.
  destruct (session_from requests (mkWorld None cs t) [] eq_refl) as (log & Hmap & Hstored).
  destruct (session_roles requests (mkWorld None cs t)) as (n & Hroles).
  assert (Hlog : map Chat.role log = turnRoles n).
  { rewrite <- Hroles, <- Hmap, map_map. reflexivity. }
  rewrite Hstored. cbn [app]. unfold sliceLast.
  rewrite <- skipn_map, Hlog.
  rewrite <- (length_map Chat.role log), Hlog, turnRoles_length.
  destruct (Nat.le_gt_cases n 5) as [Hle | Hgt].
  - exists n. split; [exact Hle|].
    replace (2 * n - 10) with 0 by lia. reflexivity.
  - exists 5. split; [apply Nat.le_refl|].
    replace (2 * n - 10) with (2 * (n - 5)) by lia.
    replace n with ((n - 5) + 5) at 2 by lia.
    apply turnRoles_skip.
Qed.

End StoredRoles.

(** * The worker *)

(** ** Its helpers *)

Section WorkerHelpers.

Import Worker.

(** X17.  The worker's content reader and the agent's are the same function: same
    result, same calls, whatever is bound. *)
Theorem worker_reader_agrees (env : Env) (docId : str) (w : World) :
  Worker.getDocumentContent env docId w = ChatAgent.getDocumentContent env docId w.
Proof.
  unfold Worker.getDocumentContent, ChatAgent.getDocumentContent.
  unfold tryCatch, bind, await, bind, emit, lift, ret, throw.
  destruct (COMPLIANCE_DOCS env) as [bucket|].
  - cbn [history calls ticks].
    destruct (r2_get bucket (docId ++ lit ".txt")) as [[text|] | e]; try reflexivity.
    destruct (COMPLIANCE_KV env); reflexivity.
  - destruct (COMPLIANCE_KV env); reflexivity.
Qed.

Lemma trimStart_idempotent (s : str) : trimStart (trimStart s) = trimStart s.
Proof.
  induction s as [|c s' IH]; [reflexivity|].
  cbn [trimStart]. destruct (isWhiteSpace c) eqn:Hc; [exact IH|].
  cbn [trimStart]. rewrite Hc. reflexivity.
Qed.

Lemma trimStart_head (s : str) :
  trimStart s = [] \/ exists c rest, trimStart s = c :: rest /\ isWhiteSpace c = false.
Proof.
  induction s as [|c s' IH]; [left; reflexivity|].
  cbn [trimStart]. destruct (isWhiteSpace c) eqn:Hc; [exact IH|].
  right. exists c, s'. split; [reflexivity | exact Hc].
Qed.

Lemma trimStart_snoc (l : str) (c : ascii) :
  isWhiteSpace c = false -> exists l', trimStart (l ++ [c]) = l' ++ [c].
Proof.
  intros Hc. induction l as [|x l IH]; cbn [app trimStart].
  - rewrite Hc. exists []. reflexivity.
  - destruct (isWhiteSpace x); [exact IH|]. exists (x :: l). reflexivity.
Qed.

Lemma trimStart_fixed (c : ascii) (rest : str) :
  isWhiteSpace c = false -> trimStart (c :: rest) = c :: rest.
Proof.
  intros Hc. cbn [trimStart]. rewrite Hc. reflexivity.
Qed.

(** Trimming twice is trimming once. *)
Lemma trim_idempotent (s : str) : trim (trim s) = trim s.
Proof.
  unfold trim.
  assert (Hstart : trimStart (trimEnd (trimStart s)) = trimEnd (trimStart s)).
  { unfold trimEnd. destruct (trimStart_head s) as [-> | (c & rest & -> & Hc)].
    - reflexivity.
    - cbn [rev]. destruct (trimStart_snoc (rev rest) c Hc) as (l' & ->).
      rewrite rev_app_distr. cbn [rev app]. apply trimStart_fixed. exact Hc. }
  rewrite Hstart. unfold trimEnd at 1 2.
  rewrite rev_involutive, trimStart_idempotent. reflexivity.
Qed.

(** At most three snippets come back, and none of them begins or ends with
    white space. *)
Theorem snippets_at_most_three_trimmed (content query : str) :
  length (extractRelevantSnippets content query) <= 3 /\
  Forall (fun snippet => trim snippet = snippet) (extractRelevantSnippets content query).
Proof.
  unfold extractRelevantSnippets. split; [apply firstn_le_length|].
  apply Forall_forall. intros x Hx. apply firstn_In in Hx.
  apply in_map_iff in Hx. destruct Hx as (y & <- & _). apply trim_idempotent.
Qed.

Lemma toLowerChar_space (c : ascii) :
  Ascii.eqb (toLowerChar c) " "%char = Ascii.eqb c " "%char.
Proof.
  destruct c as [[] [] [] [] [] [] [] []]; reflexivity.
Qed.

Lemma splitOn_space_lower (s : str) :
  splitOn " "%char (toLowerCase s) = map toLowerCase (splitOn " "%char s).
Proof.
  induction s as [|c s' IH]; [reflexivity|].
  unfold toLowerCase in *. cbn [map splitOn]. rewrite toLowerChar_space, IH.
  destruct (Ascii.eqb c " "%char); [reflexivity|].
  destruct (splitOn " "%char s'); reflexivity.
Qed.

Lemma includes_nil (s : str) : includes s [] = true.
Proof. destruct s; reflexivity. Qed.

Lemma filter_all {A : Type} (p : A -> bool) (l : list A) :
  (forall x, In x l -> p x = true) -> filter p l = l.
Proof.
  induction l as [|x xs IH]; intros Hp; cbn [filter]; [reflexivity|].
  rewrite (Hp x) by (left; reflexivity). f_equal.
  apply IH. intros y Hy. apply Hp. right. exact Hy.
Qed.

(** X18.  A query that is empty, begins or ends with a space, or has two spaces in
    a row has an empty word, and the empty word is found in every sentence:
    the snippets are then simply the first three sentences of the
    document. *)
Theorem snippets_empty_word (content query : str) :
  In [] (splitOn " "%char query) ->
  extractRelevantSnippets content query
  = firstn 3 (map trim (splitRuns isSentenceEnd content)).
Proof.
  intros Hempty. unfold extractRelevantSnippets. rewrite filter_all; [reflexivity|].
  intros sentence _. apply orb_true_iff. right. apply existsb_exists.
  exists []. split; [| apply includes_nil].
  rewrite splitOn_space_lower. apply in_map_iff. exists []. split; [reflexivity | exact Hempty].
Qed.

End WorkerHelpers.

Lemma snippets_empty_word_witness :
  Worker.extractRelevantSnippets
    (lit "Access is logged. Reports are due in 24 hours! Who reviews them? The officer. Always.")
    (lit "retention ")
  = [lit "Access is logged"; lit "Reports are due in 24 hours"; lit "Who reviews them"].
Proof.
  assert (H : In [] (splitOn " "%char (lit "retention ")))
    by (vm_compute; right; left; reflexivity).
  etransitivity; [exact (snippets_empty_word _ _ H)|].
  vm_compute. reflexivity.
Defined.

(** ** The stores *)

Section Stores.

Import Admin.

Lemma str_eqb_refl (a : str) : str_eqb a a = true.
Proof. apply str_eqb_eq. reflexivity. Qed.

Lemma str_eqb_neq (a b : str) : a <> b -> str_eqb a b = false.
Proof.
  intros Hne. destruct (str_eqb a b) eqn:H; [| reflexivity].
  apply str_eqb_eq in H. contradiction.
Qed.

Lemma get_remove_same (k : str) (s : Store) : get k (remove k s) = None.
Proof.
  unfold get, remove. induction s as [|[k' v] s IH]; [reflexivity|].
  cbn [filter fst]. destruct (str_eqb k' k) eqn:Hk; cbn [negb]; [exact IH|].
  cbn [find fst]. rewrite Hk. exact IH.
Qed.

Lemma get_remove_other (k k' : str) (s : Store) :
  k' <> k -> get k' (remove k s) = get k' s.
Proof.
  intros Hne. unfold get, remove. induction s as [|[k0 v] s IH]; [reflexivity|].
  cbn [filter fst]. destruct (str_eqb k0 k) eqn:Hk; cbn [negb find fst].
  - apply str_eqb_eq in Hk. subst k0.
    rewrite (str_eqb_neq k k') by congruence. exact IH.
  - destruct (str_eqb k0 k'); [reflexivity | exact IH].
Qed.

Lemma get_put_same (k v : str) (s : Store) : get k (put k v s) = Some v.
Proof.
  unfold get, put. cbn [find fst]. rewrite str_eqb_refl. reflexivity.
Qed.

Lemma get_put_other (k k' v : str) (s : Store) :
  k' <> k -> get k' (put k v s) = get k' s.
Proof.
  intros Hne. unfold put.
  transitivity (get k' (remove k s)); [| apply get_remove_other; exact Hne].
  unfold get. cbn [find fst]. rewrite (str_eqb_neq k k') by congruence. reflexivity.
Qed.

Lemma remove_fresh (k : str) (s : Store) : get k s = None -> remove k s = s.
Proof.
  unfold get, remove. induction s as [|[k' v] s IH]; intros H; [reflexivity|].
  cbn [find fst] in H. cbn [filter fst].
  destruct (str_eqb k' k); [discriminate|]. cbn [negb]. f_equal. exact (IH H).
Qed.

Lemma remove_put_fresh (k v : str) (s : Store) :
  get k s = None -> remove k (put k v s) = s.
Proof.
  intros H. unfold put. rewrite (remove_fresh k s H).
  unfold remove. cbn [filter fst]. rewrite str_eqb_refl. cbn [negb].
  exact (remove_fresh k s H).
Qed.

Lemma remove_idempotent (k : str) (s : Store) : remove k (remove k s) = remove k s.
Proof. apply remove_fresh. apply get_remove_same. Qed.

Lemma keys_differ (docId : str) : metadataKey docId <> contentKey docId.
Proof.
  unfold metadataKey, contentKey. intros H.
  apply (f_equal (@length ascii)) in H. rewrite !length_app in H.
  cbn [lit list_ascii_of_string length] in H. lia.
Qed.

End Stores.

(** ** Uploads *)

Section Uploads.

Import Admin.

Variable h : Host.

Lemma status_not_400 (r : Reply) :
  (forall error, r <> Refused error) -> status r <> 400.
Proof.
  intros Hr. destruct r as [| | error |]; cbn [status].
  - intros H. apply Nat.eqb_eq in H. vm_compute in H. discriminate H.
  - intros H. apply Nat.eqb_eq in H. vm_compute in H. discriminate H.
  - exfalso. exact (Hr error eq_refl).
  - intros H. apply Nat.eqb_eq in H. vm_compute in H. discriminate H.
Qed.

Lemma upload_accepted (form : Form.t) (s : Site) :
  refusal form = None ->
  forall error, fst (upload h (Ok form) s) <> Refused error.
Proof.
  intros Hok error. unfold upload. rewrite Hok.
  destruct (storeDocument h _ _ _ _) as [[[e|] ops] s1]; cbn [fst]; discriminate.
Qed.

(** X19.  An upload is refused with status 400 exactly when the trimmed title has
    fewer than 3 characters, or the type is missing or not one of policy,
    guideline and audit, or the trimmed content has fewer than 10 or more
    than 100000 characters; a refused upload writes nothing and draws no
    identifier. *)
Theorem upload_validation (form : Form.t) (s : Site) :
  (status (fst (upload h (Ok form) s)) = 400 <->
     length (formTitle form) < 3 \/
     match Form.type form with
     | Some type => validType type = false
     | None => True
     end \/
     length (formContent form) < 10 \/
     100000 < length (formContent form)) /\
  (status (fst (upload h (Ok form) s)) = 400 -> snd (upload h (Ok form) s) = s).
Proof.
  destruct (refusal form) as [error|] eqn:Href.
  - assert (Hrun : upload h (Ok form) s = (Refused error, s))
      by (unfold upload; rewrite Href; reflexivity).
    rewrite Hrun. cbn [fst snd status]. split; [| reflexivity].
    split; [intros _ | reflexivity].
    revert Href. unfold refusal.
    destruct (length (formTitle form) <? 3) eqn:Ht.
    { intros _. left. apply Nat.ltb_lt. exact Ht. }
    destruct (Form.type form) as [type|]; [| intros _; right; left; exact I].
    destruct (validType type); [| intros _; right; left; reflexivity].
    destruct (length (formContent form) <? 10) eqn:Hc.
    { intros _. right. right. left. apply Nat.ltb_lt. exact Hc. }
    destruct (100000 <? length (formContent form)) eqn:Hbig; [| discriminate].
    intros _. right. right. right. apply Nat.ltb_lt. exact Hbig.
  - pose proof (status_not_400 _ (upload_accepted form s Href)) as Hnot.
    split; [| intros H; contradiction].
    split; [intros H; contradiction|].
    revert Href. unfold refusal.
    destruct (length (formTitle form) <? 3) eqn:Ht; [discriminate|].
    destruct (Form.type form) as [type|]; [| discriminate].
    destruct (validType type) eqn:Hv; [| discriminate].
    destruct (length (formContent form) <? 10) eqn:Hc; [discriminate|].
    destruct (100000 <? length (formContent form)) eqn:Hbig; [discriminate|].
    apply Nat.ltb_ge in Ht, Hc, Hbig.
    intros _ [Hbad | [Hbad | [Hbad | Hbad]]]; exfalso.
    + exact (Nat.lt_irrefl _ (Nat.lt_le_trans _ _ _ Hbad Ht)).
    + discriminate Hbad.
    + exact (Nat.lt_irrefl _ (Nat.lt_le_trans _ _ _ Hbad Hc)).
    + exact (Nat.lt_irrefl _ (Nat.lt_le_trans _ _ _ Hbad Hbig)).
Qed.

Lemma indexDocument_stores (docId title type : str) (tags : list str) (content : str)
  (s : Site) :
  kv (indexDocument h docId title type tags content s) = kv s /\
  r2 (indexDocument h docId title type tags content s) = r2 s.
Proof.
  unfold indexDocument.
  destruct (AI_run h content) as [response|]; [| split; reflexivity].
  destruct (Vector.data response); [| split; reflexivity].
  destruct (DOCS_VECTORDB h) as [| | | fault]; try (split; reflexivity).
  destruct (fault _); split; reflexivity.
Qed.

(** What a successful upload leaves in the stores: the trimmed content,
    between 10 and 100000 characters long, in the blob store when that is
    bound and took the write, in the key/value store otherwise. *)
Lemma upload_stores (form : Form.t) (s s' : Site)
  (id title type : str) (tags : list str) (t : Z) (useR2 useVector : bool) :
  upload h (Ok form) s = (Uploaded id title type tags t useR2 useVector, s') ->
  10 <= length (formContent form) <= 100000 /\
  ((COMPLIANCE_DOCS h = true /\ get (objectKey id) (r2 s') = Some (formContent form)) \/
   (r2 s' = r2 s /\ get (contentKey id) (kv s') = Some (formContent form))).
Proof.
  unfold upload. destruct (refusal form) as [error|] eqn:Href; [discriminate|].
  assert (Hlen : 10 <= length (formContent form) <= 100000).
  { revert Href. unfold refusal.
    destruct (length (formTitle form) <? 3); [discriminate|].
    destruct (Form.type form) as [ty|]; [| discriminate].
    destruct (validType ty); [| discriminate].
    destruct (length (formContent form) <? 10) eqn:Hc; [discriminate|].
    destruct (100000 <? length (formContent form)) eqn:Hbig; [discriminate|].
    apply Nat.ltb_ge in Hc, Hbig. intros _. split; assumption. }
  unfold storeDocument.
  destruct (kvPut h (metadataKey (randomUUID h (draws s)))); [discriminate|].
  cbn [kv r2 vectors draws ticks].
  destruct (COMPLIANCE_DOCS h) eqn:Hbucket.
  - destruct (r2Put h (objectKey (randomUUID h (draws s)))).
    + destruct (kvPut h (contentKey (randomUUID h (draws s)))); [discriminate|].
      intros [= <- _ _ _ _ _ _ <-]. split; [exact Hlen|]. right.
      match goal with
      | |- context [indexDocument h ?a ?b ?c ?d ?e ?f] =>
          destruct (indexDocument_stores a b c d e f) as (Hkv & Hr2)
      end.
      rewrite Hkv, Hr2. cbn [kv r2]. split; [reflexivity | apply get_put_same].
    + intros [= <- _ _ _ _ _ _ <-]. split; [exact Hlen|]. left. split; [reflexivity|].
      match goal with
      | |- context [indexDocument h ?a ?b ?c ?d ?e ?f] =>
          destruct (indexDocument_stores a b c d e f) as (Hkv & Hr2)
      end.
      rewrite Hr2. cbn [r2]. apply get_put_same.
  - destruct (kvPut h (contentKey (randomUUID h (draws s)))); [discriminate|].
    intros [= <- _ _ _ _ _ _ <-]. split; [exact Hlen|]. right.
    match goal with
    | |- context [indexDocument h ?a ?b ?c ?d ?e ?f] =>
        destruct (indexDocument_stores a b c d e f) as (Hkv & Hr2)
    end.
    rewrite Hkv, Hr2. cbn [kv r2]. split; [reflexivity | apply get_put_same].
Qed.

End Uploads.

Lemma upload_validation_example :
  Admin.upload (AdminSamples.quietHost true) (Ok AdminSamples.shortTitle)
    AdminSamples.emptySite
  = (Admin.Refused (lit "Title must be at least 3 characters long"), AdminSamples.emptySite).
Proof. vm_compute. reflexivity. Qed.

(** ** Round trip, failure and deletion *)

Lemma reader_found (h : Admin.Host) (s : Admin.Site) (listing : str -> Result (list str))
  (agent : Env) (id : str) (w : World) :
  fst (ChatAgent.getDocumentContent (Reader.envOf h s listing agent) id w)
  = Ok (Reader.found h id s).
Proof.
  unfold ChatAgent.getDocumentContent, Reader.envOf, Reader.found.
  unfold tryCatch, bind, await, bind, emit, lift, ret.
  unfold Admin.objectKey, Admin.contentKey.
  cbv beta iota zeta.
  cbn [COMPLIANCE_DOCS COMPLIANCE_KV Reader.bucketOf Reader.namespaceOf r2_get kv_get].
  destruct (Admin.COMPLIANCE_DOCS h).
  - cbn [Reader.bucketOf r2_get fst snd].
    destruct (Admin.get _ (Admin.r2 s)); reflexivity.
  - reflexivity.
Qed.

(** X20.  Round trip: after a successful upload, the agent's content reader
    returns the submitted content with the white space around it removed,
    provided that the blob store held no object under the new document's
    key before, and that the agent reads the stores the upload left: its
    blob store is bound exactly when the worker's is, and its reads of the
    two keys of the document do not throw and return what is stored.  The
    content is never empty. *)
Theorem upload_round_trip (h : Admin.Host) (form : Admin.Form.t) (s s' : Admin.Site)
  (id title type : str) (tags : list str) (t : Z) (useR2 useVector : bool)
  (agent : Env) (w : World) :
  Admin.upload h (Ok form) s = (Admin.Uploaded id title type tags t useR2 useVector, s') ->
  Admin.get (Admin.objectKey id) (Admin.r2 s) = None ->
  (exists kv,
     COMPLIANCE_KV agent = Some kv /\
     kv_get kv (Admin.contentKey id)
     = Ok (Admin.get (Admin.contentKey id) (Admin.kv s'))) ->
  match COMPLIANCE_DOCS agent with
  | Some bucket =>
      Admin.COMPLIANCE_DOCS h = true /\
      r2_get bucket (Admin.objectKey id)
      = Ok (Admin.get (Admin.objectKey id) (Admin.r2 s'))
  | None => Admin.COMPLIANCE_DOCS h = false
  end ->
  fst (ChatAgent.getDocumentContent agent id w) = Ok (Some (Admin.formContent form)) /\
  Admin.formContent form <> [].
Proof.
  intros Hup Hfresh (kv & Hkv & Hkvread) Hbucket.
  destruct (upload_stores h form s s' id title type tags t useR2 useVector Hup)
    as ((Hmin & _) & Hwhere).
  split; [| intros Hnil; rewrite Hnil in Hmin; cbn [length] in Hmin; lia].
  unfold ChatAgent.getDocumentContent.
  unfold tryCatch, bind, await, bind, emit, lift, ret.
  fold (Admin.objectKey id). fold (Admin.contentKey id).
  rewrite Hkv.
  destruct (COMPLIANCE_DOCS agent) as [bucket|].
  - destruct Hbucket as (Hbound & Hread). rewrite Hread.
    destruct Hwhere as [(_ & Hobj) | (Hr2 & Hcontent)].
    + rewrite Hobj. reflexivity.
    + rewrite Hr2, Hfresh. cbn [fst snd]. rewrite Hkvread, Hcontent. reflexivity.
  - destruct Hwhere as [(Hbound & _) | (_ & Hcontent)]; [congruence|].
    cbn [fst snd]. rewrite Hkvread, Hcontent. reflexivity.
Qed.


Section Outcomes.

Import Admin.

Variable h : Host.

(** X21.  A failed upload leaves the stores as they were: when the upload answers
    500 and the delete of the metadata key does not throw, the key/value
    store, the blob store and the similarity index are what they were
    before the request, provided the metadata key of the drawn identifier
    was free. *)
Theorem upload_failure_restores (form : Form.t) (s s' : Site) (error details : str) :
  upload h (Ok form) s = (Failed error details, s') ->
  kvDelete h (metadataKey (randomUUID h (draws s))) = None ->
  get (metadataKey (randomUUID h (draws s))) (kv s) = None ->
  kv s' = kv s /\ r2 s' = r2 s /\ vectors s' = vectors s.
Proof.
  intros Hup Hdel Hfresh. unfold upload in Hup.
  destruct (refusal form); [discriminate Hup|].
  cbv zeta in Hup. unfold storeDocument in Hup.
  destruct (kvPut h (metadataKey (randomUUID h (draws s)))).
  { injection Hup as _ _ <-. cbn [cleanup kv r2 vectors]. repeat split. }
  cbv zeta in Hup.
  assert (Hfall :
    forall s1,
      kv s1 = put (metadataKey (randomUUID h (draws s)))
                (JSON_stringify h
                   (Doc.mk (randomUUID h (draws s)) (formTitle form)
                      (firstn 200 (formContent form) ++ lit "...")
                      match Form.type form with Some t => t | None => [] end
                      (formTags form) (Date_now h (ticks s)) (Date_now h (ticks s))))
                (kv s) ->
      r2 s1 = r2 s -> vectors s1 = vectors s ->
      let s2 := cleanup h [KvOp (metadataKey (randomUUID h (draws s)))] s1 in
      kv s2 = kv s /\ r2 s2 = r2 s /\ vectors s2 = vectors s).
  { intros s1 Hkv Hr2 Hv. cbn [cleanup]. rewrite Hdel. cbn [kv r2 vectors].
    rewrite Hkv, remove_put_fresh by exact Hfresh. repeat split; assumption. }
  destruct (COMPLIANCE_DOCS h).
  - destruct (r2Put h (objectKey (randomUUID h (draws s)))).
    + destruct (kvPut h (contentKey (randomUUID h (draws s)))).
      * injection Hup as _ _ <-. apply Hfall; reflexivity.
      * discriminate Hup.
    + discriminate Hup.
  - destruct (kvPut h (contentKey (randomUUID h (draws s)))).
    + injection Hup as _ _ <-. apply Hfall; reflexivity.
    + discriminate Hup.
Qed.

(** X23.  Deleting a document: when the two key/value deletes do not throw, and
    the blob delete does not throw where the blob store is bound, the reply
    is the success reply, the metadata is gone, the agent's content reader
    finds nothing under the identifier, and the similarity index is what it
    was: the entry of the document stays in it. *)
Theorem delete_forgets (docId : str) (s : Site)
  (listing : str -> Result (list str)) (agent : Env) (w : World) :
  docId <> [] ->
  kvDelete h (metadataKey docId) = None ->
  kvDelete h (contentKey docId) = None ->
  (COMPLIANCE_DOCS h = true -> r2Delete h (objectKey docId) = None) ->
  fst (delete h docId s) = Deleted docId /\
  get (metadataKey docId) (kv (snd (delete h docId s))) = None /\
  fst (ChatAgent.getDocumentContent
         (Reader.envOf h (snd (delete h docId s)) listing agent) docId w) = Ok None /\
  vectors (snd (delete h docId s)) = vectors s.
Proof.
  intros Hid Hmeta Hcontent Hobj.
  rewrite reader_found. unfold Reader.found, delete.
  destruct docId as [|c rest]; [contradiction|].
  rewrite Hmeta, Hcontent.
  destruct (COMPLIANCE_DOCS h).
  - rewrite (Hobj eq_refl). cbn [fst snd kv r2 vectors].
    rewrite !get_remove_same.
    rewrite get_remove_other by exact (keys_differ (c :: rest)).
    rewrite get_remove_same. repeat split.
  - cbn [fst snd kv r2 vectors].
    rewrite !get_remove_same.
    rewrite get_remove_other by exact (keys_differ (c :: rest)).
    rewrite get_remove_same. repeat split.
Qed.

(** X24.  A delete touches nothing but the three keys of its document, whatever
    throws on the way. *)
Theorem delete_spares_others (docId key : str) (s : Site) :
  key <> metadataKey docId -> key <> contentKey docId -> key <> objectKey docId ->
  get key (kv (snd (delete h docId s))) = get key (kv s) /\
  get key (r2 (snd (delete h docId s))) = get key (r2 s).
Proof.
  intros Hmeta Hcontent Hobj. unfold delete.
  destruct docId as [|c rest]; [split; reflexivity|].
  destruct (kvDelete h (metadataKey (c :: rest))); [split; reflexivity|].
  destruct (kvDelete h (contentKey (c :: rest))).
  { cbn [snd kv r2]. rewrite get_remove_other by exact Hmeta. split; reflexivity. }
  destruct (COMPLIANCE_DOCS h); [destruct (r2Delete h (objectKey (c :: rest)))|];
    cbn [snd kv r2];
    rewrite ?(get_remove_other _ _ _ Hcontent), ?(get_remove_other _ _ _ Hmeta),
            ?(get_remove_other _ _ _ Hobj);
    split; reflexivity.
Qed.

(** X25.  A delete whose blob delete throws still answers with the success reply,
    and the agent's content reader still returns the text of the document. *)
Theorem delete_reports_success_with_object_left (docId text : str) (e : exn) (s : Site)
  (listing : str -> Result (list str)) (agent : Env) (w : World) :
  docId <> [] ->
  kvDelete h (metadataKey docId) = None ->
  kvDelete h (contentKey docId) = None ->
  COMPLIANCE_DOCS h = true ->
  r2Delete h (objectKey docId) = Some e ->
  get (objectKey docId) (r2 s) = Some text ->
  fst (delete h docId s) = Deleted docId /\
  fst (ChatAgent.getDocumentContent
         (Reader.envOf h (snd (delete h docId s)) listing agent) docId w)
  = Ok (Some text).
Proof.
  intros Hid Hmeta Hcontent Hbucket Hobj Htext.
  rewrite reader_found. unfold Reader.found, delete.
  destruct docId as [|c rest]; [contradiction|].
  rewrite Hmeta, Hcontent, Hbucket, Hobj. cbn [fst snd kv r2].
  rewrite Htext. split; reflexivity.
Qed.

(** X26.  A delete that fails on its second key/value delete answers 500 with the
    metadata already removed and the content still readable by the agent. *)
Theorem delete_can_stop_halfway (docId : str) (e : exn) (s : Site)
  (listing : str -> Result (list str)) (agent : Env) (w : World) :
  docId <> [] ->
  kvDelete h (metadataKey docId) = None ->
  kvDelete h (contentKey docId) = Some e ->
  status (fst (delete h docId s)) = 500 /\
  get (metadataKey docId) (kv (snd (delete h docId s))) = None /\
  fst (ChatAgent.getDocumentContent
         (Reader.envOf h (snd (delete h docId s)) listing agent) docId w)
  = fst (ChatAgent.getDocumentContent (Reader.envOf h s listing agent) docId w).
Proof.
  intros Hid Hmeta Hcontent.
  rewrite !reader_found. unfold Reader.found, delete.
  destruct docId as [|c rest]; [contradiction|].
  rewrite Hmeta, Hcontent. cbn [fst snd kv r2 status].
  rewrite get_remove_same.
  rewrite get_remove_other
    by (intros H; symmetry in H; exact (keys_differ (c :: rest) H)).
  repeat split.
Qed.

End Outcomes.

Section Composition.

Import Admin.

Lemma put_fresh (k v : str) (s : Store) : get k s = None -> put k v s = (k, v) :: s.
Proof. intros H. unfold put. rewrite (remove_fresh k s H). reflexivity. Qed.

Lemma remove_cons_same (k v : str) (s : Store) : remove k ((k, v) :: s) = remove k s.
Proof. unfold remove. cbn [filter fst]. rewrite str_eqb_refl. reflexivity. Qed.

Lemma remove_cons_other (k k' v : str) (s : Store) :
  k' <> k -> remove k ((k', v) :: s) = (k', v) :: remove k s.
Proof.
  intros Hne. unfold remove. cbn [filter fst].
  rewrite (str_eqb_neq k' k Hne). reflexivity.
Qed.

Lemma cleanup_ext (h1 h2 : Host) (ops : list StorageOperation) (s : Site) :
  COMPLIANCE_DOCS h1 = COMPLIANCE_DOCS h2 ->
  kvDelete h1 = kvDelete h2 ->
  r2Delete h1 = r2Delete h2 ->
  cleanup h1 ops s = cleanup h2 ops s.
Proof.
  intros Hb Hk Hr. revert s.
  induction ops as [|[key|key] ops IH]; intros s; cbn [cleanup]; [reflexivity | |].
  - rewrite Hk. apply IH.
  - rewrite Hb, Hr. apply IH.
Qed.

Lemma storeDocument_ext (h1 h2 : Host) (docId metadata content : str) (s : Site) :
  COMPLIANCE_DOCS h1 = COMPLIANCE_DOCS h2 ->
  kvPut h1 = kvPut h2 ->
  r2Put h1 = r2Put h2 ->
  storeDocument h1 docId metadata content s = storeDocument h2 docId metadata content s.
Proof. intros Hb Hk Hr. unfold storeDocument. rewrite Hb, Hk, Hr. reflexivity. Qed.

(** X22.  Indexing cannot change the outcome of an upload: two hosts that differ
    only in the embedding call and in the similarity index answer an upload
    with the same status and leave the same key/value store and the same
    blob store. *)
Theorem upload_whatever_the_index (h1 h2 : Host) (formData : Result Form.t) (s : Site) :
  COMPLIANCE_DOCS h1 = COMPLIANCE_DOCS h2 ->
  kvPut h1 = kvPut h2 ->
  kvDelete h1 = kvDelete h2 ->
  r2Put h1 = r2Put h2 ->
  r2Delete h1 = r2Delete h2 ->
  randomUUID h1 = randomUUID h2 ->
  Date_now h1 = Date_now h2 ->
  JSON_stringify h1 = JSON_stringify h2 ->
  status (fst (upload h1 formData s)) = status (fst (upload h2 formData s)) /\
  kv (snd (upload h1 formData s)) = kv (snd (upload h2 formData s)) /\
  r2 (snd (upload h1 formData s)) = r2 (snd (upload h2 formData s)).
Proof.
  intros Hb Hkp Hkd Hrp Hrd Hid Hnow Hjson. unfold upload.
  destruct formData as [form | e]; [| repeat split].
  destruct (refusal form); [repeat split|].
  cbv zeta. rewrite Hid, Hnow, Hjson.
  rewrite (storeDocument_ext h1 h2 _ _ _ _ Hb Hkp Hrp).
  destruct (storeDocument h2 _ _ _ _) as [[[e|] ops] s1]; cbn [fst snd status].
  - rewrite (cleanup_ext h1 h2 ops s1 Hb Hkd Hrd). repeat split.
  - match goal with
    | |- context [indexDocument h1 ?a ?b ?c ?d ?e ?f] =>
        destruct (indexDocument_stores h1 a b c d e f) as (Hkv1 & Hr21);
        destruct (indexDocument_stores h2 a b c d e f) as (Hkv2 & Hr22)
    end.
    rewrite Hkv1, Hkv2, Hr21, Hr22. repeat split.
Qed.

Variable h : Host.

(** What a successful upload leaves in the two stores. *)
Lemma upload_shape (form : Form.t) (s s' : Site)
  (id title type : str) (tags : list str) (t : Z) (useR2 useVector : bool) :
  upload h (Ok form) s = (Uploaded id title type tags t useR2 useVector, s') ->
  exists metadata,
    (COMPLIANCE_DOCS h = true /\
     kv s' = put (metadataKey id) metadata (kv s) /\
     r2 s' = put (objectKey id) (formContent form) (r2 s)) \/
    (kv s' = put (contentKey id) (formContent form) (put (metadataKey id) metadata (kv s)) /\
     r2 s' = r2 s).
Proof.
  intros Hup. unfold upload in Hup.
  destruct (refusal form); [discriminate Hup|].
  cbv zeta in Hup. unfold storeDocument in Hup.
  destruct (kvPut h (metadataKey (randomUUID h (draws s)))); [discriminate Hup|].
  cbv zeta in Hup.
  match type of Hup with
  | context [put (metadataKey _) ?m (kv _)] => exists m
  end.
  destruct (COMPLIANCE_DOCS h).
  - destruct (r2Put h (objectKey (randomUUID h (draws s)))).
    + destruct (kvPut h (contentKey (randomUUID h (draws s)))); [discriminate Hup|].
      injection Hup as <- _ _ _ _ _ _ <-. right.
      match goal with
      | |- context [indexDocument h ?a ?b ?c ?d ?e ?f] =>
          destruct (indexDocument_stores h a b c d e f) as (Hkv & Hr2)
      end.
      rewrite Hkv, Hr2. split; reflexivity.
    + injection Hup as <- _ _ _ _ _ _ <-. left.
      match goal with
      | |- context [indexDocument h ?a ?b ?c ?d ?e ?f] =>
          destruct (indexDocument_stores h a b c d e f) as (Hkv & Hr2)
      end.
      rewrite Hkv, Hr2. repeat split.
  - destruct (kvPut h (contentKey (randomUUID h (draws s)))); [discriminate Hup|].
    injection Hup as <- _ _ _ _ _ _ <-. right.
    match goal with
    | |- context [indexDocument h ?a ?b ?c ?d ?e ?f] =>
        destruct (indexDocument_stores h a b c d e f) as (Hkv & Hr2)
    end.
    rewrite Hkv, Hr2. split; reflexivity.
Qed.

(** X27.  Upload, then delete: when the deletes do not throw and the three keys
    of the new document were free, deleting an uploaded document puts the
    key/value store and the blob store back to what they were before the
    upload. *)
Theorem upload_then_delete (form : Form.t) (s s' : Site)
  (id title type : str) (tags : list str) (t : Z) (useR2 useVector : bool) :
  upload h (Ok form) s = (Uploaded id title type tags t useR2 useVector, s') ->
  id <> [] ->
  kvDelete h (metadataKey id) = None ->
  kvDelete h (contentKey id) = None ->
  (COMPLIANCE_DOCS h = true -> r2Delete h (objectKey id) = None) ->
  get (metadataKey id) (kv s) = None ->
  get (contentKey id) (kv s) = None ->
  get (objectKey id) (r2 s) = None ->
  fst (delete h id s') = Deleted id /\
  kv (snd (delete h id s')) = kv s /\
  r2 (snd (delete h id s')) = r2 s.
Proof.
  intros Hup Hid Hmeta Hcontent Hobj Hfm Hfc Hfo.
  destruct (upload_shape form s s' id title type tags t useR2 useVector Hup)
    as (metadata & [(Hbucket & Hkv & Hr2) | (Hkv & Hr2)]).
  - unfold delete. destruct id as [|c rest]; [contradiction|].
    rewrite Hmeta, Hcontent, Hbucket, (Hobj Hbucket). cbn [fst snd kv r2].
    rewrite Hkv, Hr2.
    rewrite (remove_put_fresh _ _ _ Hfm), (remove_fresh _ _ Hfc),
            (remove_put_fresh _ _ _ Hfo).
    repeat split.
  - assert (Hkv' : remove (contentKey id) (remove (metadataKey id) (kv s')) = kv s).
    { rewrite Hkv. rewrite (put_fresh _ metadata _ Hfm).
      rewrite put_fresh.
      2:{ unfold get. cbn [find fst].
          rewrite (str_eqb_neq _ _ (keys_differ id)). exact Hfc. }
      rewrite remove_cons_other
        by (intros H; symmetry in H; exact (keys_differ id H)).
      rewrite remove_cons_same, remove_cons_same.
      rewrite (remove_fresh _ _ Hfm), (remove_fresh _ _ Hfc). reflexivity. }
    unfold delete. destruct id as [|c rest]; [contradiction|].
    rewrite Hmeta, Hcontent.
    destruct (COMPLIANCE_DOCS h).
    + rewrite (Hobj eq_refl). cbn [fst snd kv r2].
      rewrite Hkv', Hr2, (remove_fresh _ _ Hfo). repeat split.
    + cbn [fst snd kv r2]. rewrite Hkv', Hr2. repeat split.
Qed.

Lemma storeDocument_vectors (docId metadata content : str) (s : Site) :
  vectors (snd (storeDocument h docId metadata content s)) = vectors s.
Proof.
  unfold storeDocument.
  destruct (kvPut h (metadataKey docId)); [reflexivity|]. cbv zeta.
  destruct (COMPLIANCE_DOCS h); [destruct (r2Put h _)|];
    try destruct (kvPut h (contentKey docId)); reflexivity.
Qed.

(** An uploaded document enters the similarity index when the embedding
    call returns vectors and the index takes the insert: the new entry is
    the last one and carries the identifier of the reply, the first vector,
    the title, the type and the tags joined by commas. *)
Theorem upload_indexes (form : Form.t) (s s' : Site)
  (id title type : str) (tags : list str) (t : Z) (useR2 useVector : bool)
  (response : Vector.EmbeddingResponse) (d : list Vector.Embedding)
  (fault : IndexEntry -> option exn) :
  upload h (Ok form) s = (Uploaded id title type tags t useR2 useVector, s') ->
  AI_run h (formContent form) = Ok response ->
  Vector.data response = Some d ->
  DOCS_VECTORDB h = Insert fault ->
  fault (mkIndexEntry id (nth_error d 0) title type (join (lit ",") tags)) = None ->
  vectors s' = vectors s ++ [mkIndexEntry id (nth_error d 0) title type (join (lit ",") tags)].
Proof.
  intros Hup Hai Hdata Hindex Hfault. unfold upload in Hup.
  destruct (refusal form); [discriminate Hup|].
  cbv zeta in Hup.
  destruct (storeDocument h _ _ _ _) as [[[e|] ops] s1] eqn:Hstore; [discriminate Hup|].
  assert (Hv : vectors s1 = vectors s).
  { change s1 with (snd (None (A:=exn), ops, s1)). rewrite <- Hstore.
    exact (storeDocument_vectors _ _ _ _). }
  injection Hup as <- <- <- <- _ _ _ <-.
  unfold indexDocument. rewrite Hai, Hdata, Hindex, Hfault. cbn [vectors].
  rewrite Hv. reflexivity.
Qed.

End Composition.

(** ** The theorems on concrete hosts *)

Lemma upload_round_trip_witness :
  fst (ChatAgent.getDocumentContent AdminSamples.readerAfterUpload
         AdminSamples.firstId Fixtures.freshWorld)
  = Ok (Some (Admin.formContent AdminSamples.policyForm)) /\
  Admin.formContent AdminSamples.policyForm <> [].
Proof.
  assert (H1 : Admin.upload (AdminSamples.quietHost true) (Ok AdminSamples.policyForm)
                 AdminSamples.emptySite
               = (Admin.Uploaded AdminSamples.firstId AdminSamples.policyTitle (lit "policy")
                    AdminSamples.policyTags 0 true false,
                  AdminSamples.afterUpload (AdminSamples.quietHost true)))
    by (vm_compute; reflexivity).
  assert (H2 : Admin.get (Admin.objectKey AdminSamples.firstId)
                 (Admin.r2 AdminSamples.emptySite) = None)
    by (vm_compute; reflexivity).
  assert (H3 : exists kv,
             COMPLIANCE_KV AdminSamples.readerAfterUpload = Some kv /\
             kv_get kv (Admin.contentKey AdminSamples.firstId)
             = Ok (Admin.get (Admin.contentKey AdminSamples.firstId)
                     (Admin.kv (AdminSamples.afterUpload (AdminSamples.quietHost true)))))
    by (eexists; split; reflexivity).
  assert (H4 : match COMPLIANCE_DOCS AdminSamples.readerAfterUpload with
               | Some bucket =>
                   Admin.COMPLIANCE_DOCS (AdminSamples.quietHost true) = true /\
                   r2_get bucket (Admin.objectKey AdminSamples.firstId)
                   = Ok (Admin.get (Admin.objectKey AdminSamples.firstId)
                           (Admin.r2 (AdminSamples.afterUpload (AdminSamples.quietHost true))))
               | None => Admin.COMPLIANCE_DOCS (AdminSamples.quietHost true) = false
               end)
    by (split; reflexivity).
  exact (upload_round_trip (AdminSamples.quietHost true) AdminSamples.policyForm
           AdminSamples.emptySite _ _ _ _ _ _ _ _
           AdminSamples.readerAfterUpload Fixtures.freshWorld H1 H2 H3 H4).
Defined.

Lemma upload_failure_restores_witness :
  Admin.kv (AdminSamples.afterUpload AdminSamples.contentRefused)
  = Admin.kv AdminSamples.emptySite /\
  Admin.r2 (AdminSamples.afterUpload AdminSamples.contentRefused)
  = Admin.r2 AdminSamples.emptySite /\
  Admin.vectors (AdminSamples.afterUpload AdminSamples.contentRefused)
  = Admin.vectors AdminSamples.emptySite.
Proof.
  assert (H1 : Admin.upload AdminSamples.contentRefused (Ok AdminSamples.policyForm)
                 AdminSamples.emptySite
               = (Admin.Failed (lit "Failed to upload document") (lit "KV put failed"),
                  AdminSamples.afterUpload AdminSamples.contentRefused))
    by (vm_compute; reflexivity).
  assert (H2 : Admin.kvDelete AdminSamples.contentRefused
                 (Admin.metadataKey
                    (Admin.randomUUID AdminSamples.contentRefused
                       (Admin.draws AdminSamples.emptySite))) = None)
    by (vm_compute; reflexivity).
  assert (H3 : Admin.get
                 (Admin.metadataKey
                    (Admin.randomUUID AdminSamples.contentRefused
                       (Admin.draws AdminSamples.emptySite)))
                 (Admin.kv AdminSamples.emptySite) = None)
    by (vm_compute; reflexivity).
  exact (upload_failure_restores AdminSamples.contentRefused AdminSamples.policyForm
           AdminSamples.emptySite _ _ _ H1 H2 H3).
Defined.

Lemma delete_forgets_witness :
  fst (Admin.delete (AdminSamples.quietHost true) AdminSamples.firstId
         (AdminSamples.afterUpload (AdminSamples.quietHost true)))
  = Admin.Deleted AdminSamples.firstId /\
  Admin.get (Admin.metadataKey AdminSamples.firstId)
    (Admin.kv (snd (Admin.delete (AdminSamples.quietHost true) AdminSamples.firstId
                      (AdminSamples.afterUpload (AdminSamples.quietHost true))))) = None /\
  fst (ChatAgent.getDocumentContent
         (Reader.envOf (AdminSamples.quietHost true)
            (snd (Admin.delete (AdminSamples.quietHost true) AdminSamples.firstId
                    (AdminSamples.afterUpload (AdminSamples.quietHost true))))
            AdminSamples.noListing AdminSamples.agentEnv)
         AdminSamples.firstId Fixtures.freshWorld) = Ok None /\
  Admin.vectors (snd (Admin.delete (AdminSamples.quietHost true) AdminSamples.firstId
                        (AdminSamples.afterUpload (AdminSamples.quietHost true))))
  = Admin.vectors (AdminSamples.afterUpload (AdminSamples.quietHost true)).
Proof.
  assert (H1 : AdminSamples.firstId <> []) by discriminate.
  assert (H2 : Admin.kvDelete (AdminSamples.quietHost true)
                 (Admin.metadataKey AdminSamples.firstId) = None)
    by (vm_compute; reflexivity).
  assert (H3 : Admin.kvDelete (AdminSamples.quietHost true)
                 (Admin.contentKey AdminSamples.firstId) = None)
    by (vm_compute; reflexivity).
  assert (H4 : Admin.COMPLIANCE_DOCS (AdminSamples.quietHost true) = true ->
               Admin.r2Delete (AdminSamples.quietHost true)
                 (Admin.objectKey AdminSamples.firstId) = None)
    by (intros _; vm_compute; reflexivity).
  exact (delete_forgets (AdminSamples.quietHost true) AdminSamples.firstId
           (AdminSamples.afterUpload (AdminSamples.quietHost true))
           AdminSamples.noListing AdminSamples.agentEnv Fixtures.freshWorld H1 H2 H3 H4).
Defined.

Lemma delete_spares_others_witness :
  Admin.get (lit "doc:other")
    (Admin.kv (snd (Admin.delete (AdminSamples.quietHost true) AdminSamples.firstId
                      AdminSamples.otherSite)))
  = Admin.get (lit "doc:other") (Admin.kv AdminSamples.otherSite) /\
  Admin.get (lit "doc:other")
    (Admin.r2 (snd (Admin.delete (AdminSamples.quietHost true) AdminSamples.firstId
                      AdminSamples.otherSite)))
  = Admin.get (lit "doc:other") (Admin.r2 AdminSamples.otherSite).
Proof.
  assert (H1 : lit "doc:other" <> Admin.metadataKey AdminSamples.firstId)
    by (vm_compute; discriminate).
  assert (H2 : lit "doc:other" <> Admin.contentKey AdminSamples.firstId)
    by (vm_compute; discriminate).
  assert (H3 : lit "doc:other" <> Admin.objectKey AdminSamples.firstId)
    by (vm_compute; discriminate).
  exact (delete_spares_others (AdminSamples.quietHost true) AdminSamples.firstId
           (lit "doc:other") AdminSamples.otherSite H1 H2 H3).
Defined.

Lemma delete_reports_success_with_object_left_witness :
  fst (Admin.delete AdminSamples.objectsStay AdminSamples.firstId
         (AdminSamples.afterUpload AdminSamples.objectsStay))
  = Admin.Deleted AdminSamples.firstId /\
  fst (ChatAgent.getDocumentContent
         (Reader.envOf AdminSamples.objectsStay
            (snd (Admin.delete AdminSamples.objectsStay AdminSamples.firstId
                    (AdminSamples.afterUpload AdminSamples.objectsStay)))
            AdminSamples.noListing AdminSamples.agentEnv)
         AdminSamples.firstId Fixtures.freshWorld)
  = Ok (Some AdminSamples.policyContent).
Proof.
  assert (H1 : AdminSamples.firstId <> []) by discriminate.
  assert (H2 : Admin.kvDelete AdminSamples.objectsStay
                 (Admin.metadataKey AdminSamples.firstId) = None)
    by (vm_compute; reflexivity).
  assert (H3 : Admin.kvDelete AdminSamples.objectsStay
                 (Admin.contentKey AdminSamples.firstId) = None)
    by (vm_compute; reflexivity).
  assert (H4 : Admin.COMPLIANCE_DOCS AdminSamples.objectsStay = true)
    by (vm_compute; reflexivity).
  assert (H5 : Admin.r2Delete AdminSamples.objectsStay
                 (Admin.objectKey AdminSamples.firstId)
               = Some (ErrorObject (lit "R2 delete failed")))
    by (vm_compute; reflexivity).
  assert (H6 : Admin.get (Admin.objectKey AdminSamples.firstId)
                 (Admin.r2 (AdminSamples.afterUpload AdminSamples.objectsStay))
               = Some AdminSamples.policyContent)
    by (vm_compute; reflexivity).
  exact (delete_reports_success_with_object_left AdminSamples.objectsStay
           AdminSamples.firstId AdminSamples.policyContent _
           (AdminSamples.afterUpload AdminSamples.objectsStay)
           AdminSamples.noListing AdminSamples.agentEnv Fixtures.freshWorld
           H1 H2 H3 H4 H5 H6).
Defined.

Lemma delete_can_stop_halfway_witness :
  Admin.status (fst (Admin.delete AdminSamples.contentStays AdminSamples.firstId
                       (AdminSamples.afterUpload AdminSamples.contentStays))) = 500 /\
  Admin.get (Admin.metadataKey AdminSamples.firstId)
    (Admin.kv (snd (Admin.delete AdminSamples.contentStays AdminSamples.firstId
                      (AdminSamples.afterUpload AdminSamples.contentStays)))) = None /\
  fst (ChatAgent.getDocumentContent
         (Reader.envOf AdminSamples.contentStays
            (snd (Admin.delete AdminSamples.contentStays AdminSamples.firstId
                    (AdminSamples.afterUpload AdminSamples.contentStays)))
            AdminSamples.noListing AdminSamples.agentEnv)
         AdminSamples.firstId Fixtures.freshWorld)
  = fst (ChatAgent.getDocumentContent
           (Reader.envOf AdminSamples.contentStays
              (AdminSamples.afterUpload AdminSamples.contentStays)
              AdminSamples.noListing AdminSamples.agentEnv)
           AdminSamples.firstId Fixtures.freshWorld).
Proof.
  assert (H1 : AdminSamples.firstId <> []) by discriminate.
  assert (H2 : Admin.kvDelete AdminSamples.contentStays
                 (Admin.metadataKey AdminSamples.firstId) = None)
    by (vm_compute; reflexivity).
  assert (H3 : Admin.kvDelete AdminSamples.contentStays
                 (Admin.contentKey AdminSamples.firstId)
               = Some (ErrorObject (lit "KV delete failed")))
    by (vm_compute; reflexivity).
  exact (delete_can_stop_halfway AdminSamples.contentStays AdminSamples.firstId _
           (AdminSamples.afterUpload AdminSamples.contentStays)
           AdminSamples.noListing AdminSamples.agentEnv Fixtures.freshWorld H1 H2 H3).
Defined.

Lemma upload_whatever_the_index_witness :
  Admin.status (fst (Admin.upload AdminSamples.indexingHost (Ok AdminSamples.policyForm)
                       AdminSamples.emptySite))
  = Admin.status (fst (Admin.upload AdminSamples.embeddingDown (Ok AdminSamples.policyForm)
                         AdminSamples.emptySite)) /\
  Admin.kv (snd (Admin.upload AdminSamples.indexingHost (Ok AdminSamples.policyForm)
                   AdminSamples.emptySite))
  = Admin.kv (snd (Admin.upload AdminSamples.embeddingDown (Ok AdminSamples.policyForm)
                     AdminSamples.emptySite)) /\
  Admin.r2 (snd (Admin.upload AdminSamples.indexingHost (Ok AdminSamples.policyForm)
                   AdminSamples.emptySite))
  = Admin.r2 (snd (Admin.upload AdminSamples.embeddingDown (Ok AdminSamples.policyForm)
                     AdminSamples.emptySite)).
Proof.
  exact (upload_whatever_the_index AdminSamples.indexingHost AdminSamples.embeddingDown
           (Ok AdminSamples.policyForm) AdminSamples.emptySite
           eq_refl eq_refl eq_refl eq_refl eq_refl eq_refl eq_refl eq_refl).
Defined.

Lemma upload_then_delete_witness :
  fst (Admin.delete (AdminSamples.quietHost true) AdminSamples.firstId
         (AdminSamples.afterUpload (AdminSamples.quietHost true)))
  = Admin.Deleted AdminSamples.firstId /\
  Admin.kv (snd (Admin.delete (AdminSamples.quietHost true) AdminSamples.firstId
                   (AdminSamples.afterUpload (AdminSamples.quietHost true))))
  = Admin.kv AdminSamples.emptySite /\
  Admin.r2 (snd (Admin.delete (AdminSamples.quietHost true) AdminSamples.firstId
                   (AdminSamples.afterUpload (AdminSamples.quietHost true))))
  = Admin.r2 AdminSamples.emptySite.
Proof.
  assert (H0 : Admin.upload (AdminSamples.quietHost true) (Ok AdminSamples.policyForm)
                 AdminSamples.emptySite
               = (Admin.Uploaded AdminSamples.firstId AdminSamples.policyTitle (lit "policy")
                    AdminSamples.policyTags 0 true false,
                  AdminSamples.afterUpload (AdminSamples.quietHost true)))
    by (vm_compute; reflexivity).
  assert (H1 : AdminSamples.firstId <> []) by discriminate.
  assert (H2 : Admin.kvDelete (AdminSamples.quietHost true)
                 (Admin.metadataKey AdminSamples.firstId) = None)
    by (vm_compute; reflexivity).
  assert (H3 : Admin.kvDelete (AdminSamples.quietHost true)
                 (Admin.contentKey AdminSamples.firstId) = None)
    by (vm_compute; reflexivity).
  assert (H4 : Admin.COMPLIANCE_DOCS (AdminSamples.quietHost true) = true ->
               Admin.r2Delete (AdminSamples.quietHost true)
                 (Admin.objectKey AdminSamples.firstId) = None)
    by (intros _; vm_compute; reflexivity).
  assert (H5 : Admin.get (Admin.metadataKey AdminSamples.firstId)
                 (Admin.kv AdminSamples.emptySite) = None)
    by (vm_compute; reflexivity).
  assert (H6 : Admin.get (Admin.contentKey AdminSamples.firstId)
                 (Admin.kv AdminSamples.emptySite) = None)
    by (vm_compute; reflexivity).
  assert (H7 : Admin.get (Admin.objectKey AdminSamples.firstId)
                 (Admin.r2 AdminSamples.emptySite) = None)
    by (vm_compute; reflexivity).
  exact (upload_then_delete (AdminSamples.quietHost true) AdminSamples.policyForm
           AdminSamples.emptySite _ _ _ _ _ _ _ _ H0 H1 H2 H3 H4 H5 H6 H7).
Defined.

Lemma upload_indexes_witness :
  Admin.vectors (AdminSamples.afterUpload AdminSamples.indexingHost)
  = Admin.vectors AdminSamples.emptySite
    ++ [Admin.mkIndexEntry AdminSamples.firstId (nth_error [[]] 0) AdminSamples.policyTitle
          (lit "policy") (join (lit ",") AdminSamples.policyTags)].
Proof.
  assert (H0 : Admin.upload AdminSamples.indexingHost (Ok AdminSamples.policyForm)
                 AdminSamples.emptySite
               = (Admin.Uploaded AdminSamples.firstId AdminSamples.policyTitle (lit "policy")
                    AdminSamples.policyTags 0 true true,
                  AdminSamples.afterUpload AdminSamples.indexingHost))
    by (vm_compute; reflexivity).
  assert (H1 : Admin.AI_run AdminSamples.indexingHost
                 (Admin.formContent AdminSamples.policyForm)
               = Ok (Vector.mkEmbeddingResponse (Some [[]])))
    by (vm_compute; reflexivity).
  assert (H2 : Vector.data (Vector.mkEmbeddingResponse (Some [[]])) = Some [[]])
    by reflexivity.
  assert (H3 : Admin.DOCS_VECTORDB AdminSamples.indexingHost = Admin.Insert (fun _ => None))
    by reflexivity.
  assert (H4 : (fun _ : Admin.IndexEntry => @None exn)
                 (Admin.mkIndexEntry AdminSamples.firstId (nth_error [[]] 0)
                    AdminSamples.policyTitle (lit "policy")
                    (join (lit ",") AdminSamples.policyTags)) = None)
    by reflexivity.
  exact (upload_indexes AdminSamples.indexingHost AdminSamples.policyForm
           AdminSamples.emptySite _ _ _ _ _ _ _ _ _ _ _ H0 H1 H2 H3 H4).
Defined.

(** * The listings *)

Section Listings.

Import Listing.

Variable Json : Type.
Variable JSON_parse : str -> Result (Parsed Json).

Lemma entry_spec (kv : KVNamespace) (name : str) (d : str * Json) :
  entry Json JSON_parse kv name = Some d <->
  fst d = name /\
  exists text, kv_get kv name = Ok (Some text) /\ text <> [] /\
               JSON_parse text = Ok (Value (snd d)).
Proof.
  unfold entry. destruct (kv_get kv name) as [[[|c text]|]|e].
  - split; [discriminate|]. intros (_ & text & Heq & Hne & _).
    injection Heq as <-. contradiction.
  - destruct (JSON_parse (c :: text)) as [[|v]|e] eqn:Hp.
    + split; [discriminate|]. intros (_ & text' & Heq & _ & Hv).
      injection Heq as <-. rewrite Hp in Hv. discriminate Hv.
    + split.
      * intros Heq. injection Heq as <-. split; [reflexivity|].
        exists (c :: text). repeat split; [discriminate | exact Hp].
      * intros (Hk & text' & Heq & _ & Hv). injection Heq as <-.
        rewrite Hp in Hv. injection Hv as Hv. destruct d as [k v']. cbn [fst snd] in *.
        subst. reflexivity.
    + split; [discriminate|]. intros (_ & text' & Heq & _ & Hv).
      injection Heq as <-. rewrite Hp in Hv. discriminate Hv.
  - split; [discriminate|]. intros (_ & text & Heq & _). discriminate Heq.
  - split; [discriminate|]. intros (_ & text & Heq & _). discriminate Heq.
Qed.

Lemma validDocuments_In {A : Type} (documents : list (option A)) (d : A) :
  In d (validDocuments documents) <-> In (Some d) documents.
Proof.
  induction documents as [|[x|] rest IH]; cbn [validDocuments In].
  - tauto.
  - rewrite IH. split; intros [H | H]; auto; left; congruence.
  - rewrite IH. split; [auto | intros [H | H]; [discriminate | exact H]].
Qed.

Lemma listed_keys (kv : KVNamespace) (keys : list str) :
  Run.subseq
    (map fst (validDocuments (map (entry Json JSON_parse kv) (filter isMetadataKey keys))))
    keys.
Proof.
  induction keys as [|name keys IH]; cbn [filter map validDocuments]; [constructor|].
  destruct (isMetadataKey name); [| apply Run.subseq_skip; exact IH].
  cbn [map validDocuments].
  destruct (entry Json JSON_parse kv name) as [d|] eqn:Hd.
  - apply entry_spec in Hd. destruct Hd as (Hk & _).
    cbn [map]. rewrite Hk. apply Run.subseq_keep. exact IH.
  - apply Run.subseq_skip. exact IH.
Qed.

Lemma listing_documents (kv : KVNamespace) (keys : list str) :
  kv_list kv (lit "doc:") = Ok keys ->
  exists documents,
    listDocuments Json (Some kv) JSON_parse = Listed (length documents) documents /\
    Run.subseq (map fst documents) keys /\
    forall name metadata,
      In (name, metadata) documents <->
      In name keys /\ includes name (lit ":content") = false /\
      exists text, kv_get kv name = Ok (Some text) /\ text <> [] /\
                   JSON_parse text = Ok (Value metadata).
Proof.
  intros Hlist. unfold listDocuments. rewrite Hlist. cbv zeta.
  eexists. split; [reflexivity|]. split; [apply listed_keys|].
  intros name metadata. rewrite validDocuments_In, in_map_iff. split.
  - intros (key & Hentry & Hkey). apply filter_In in Hkey. destruct Hkey as (Hin & Hmeta).
    apply entry_spec in Hentry. cbn [fst snd] in Hentry. destruct Hentry as (<- & Htext).
    unfold isMetadataKey in Hmeta. apply negb_true_iff in Hmeta.
    repeat split; assumption.
  - intros (Hin & Hmeta & Htext). exists name. split.
    + apply entry_spec. cbn [fst snd]. split; [reflexivity | exact Htext].
    + apply filter_In. split; [exact Hin|]. unfold isMetadataKey. rewrite Hmeta. reflexivity.
Qed.

(** X28.  The administration listing fails only when the list call does.  When
    the keys are listed, its documents are, in the order of the keys,
    exactly the keys without [:content] whose value is present, not empty,
    and parses to something other than [null]; a key whose value cannot be
    read or parsed is left out and does not fail the request; [count] is the
    number of documents. *)
Theorem listing_skips_bad_entries (kv : KVNamespace) (keys : list str) :
  kv_list kv (lit "doc:") = Ok keys ->
  exists documents,
    listDocuments Json (Some kv) JSON_parse = Listed (length documents) documents /\
    Run.subseq (map fst documents) keys /\
    forall name metadata,
      In (name, metadata) documents <->
      In name keys /\ includes name (lit ":content") = false /\
      exists text, kv_get kv name = Ok (Some text) /\ text <> [] /\
                   JSON_parse text = Ok (Value metadata).
Proof. exact (listing_documents kv keys). Qed.

Lemma all_entries (kv : KVNamespace) (names : list str) (docs : list (str * option Json)) :
  all (map (debugEntry Json JSON_parse kv) names) = Some docs ->
  validDocuments (map (entry Json JSON_parse kv) names) = withMetadata docs /\
  length docs = length names.
Proof.
  revert docs. induction names as [|name names IH]; intros docs; cbn [map all].
  - intros [= <-]. split; reflexivity.
  - unfold debugEntry at 1. unfold entry at 1.
    destruct (kv_get kv name) as [[[|c text]|]|e]; [| | | discriminate].
    + destruct (all _) as [values|]; [| discriminate]. intros [= <-].
      destruct (IH values eq_refl) as (Hv & Hl).
      cbn [validDocuments withMetadata length]. split; [exact Hv | congruence].
    + destruct (JSON_parse (c :: text)) as [[|v]|e]; [| | discriminate].
      * destruct (all _) as [values|]; [| discriminate]. intros [= <-].
        destruct (IH values eq_refl) as (Hv & Hl).
        cbn [validDocuments withMetadata length]. split; [exact Hv | congruence].
      * destruct (all _) as [values|]; [| discriminate]. intros [= <-].
        destruct (IH values eq_refl) as (Hv & Hl).
        cbn [validDocuments withMetadata length]. split; [congruence | congruence].
    + destruct (all _) as [values|]; [| discriminate]. intros [= <-].
      destruct (IH values eq_refl) as (Hv & Hl).
      cbn [validDocuments withMetadata length]. split; [exact Hv | congruence].
Qed.

Lemma withMetadata_length (docs : list (str * option Json)) :
  length (withMetadata docs) <= length docs.
Proof.
  induction docs as [|[key [v|]] docs IH]; cbn [withMetadata length]; lia.
Qed.

(** X29.  When the debug listing succeeds, the administration listing is the
    debug listing without its entries of [null] metadata, and
    [count <= documents.length <= totalKeys]. *)
Theorem debug_listing_extends (binding : option KVNamespace) (totalKeys : nat)
  (docs : list (str * option Json)) :
  debugDocuments Json binding JSON_parse = Debugged totalKeys docs ->
  listDocuments Json binding JSON_parse
  = Listed (length (withMetadata docs)) (withMetadata docs) /\
  length (withMetadata docs) <= length docs /\
  length docs <= totalKeys.
Proof.
  unfold debugDocuments, listDocuments. destruct binding as [store|]; [| discriminate].
  destruct (kv_list store (lit "doc:")) as [keys|]; [| discriminate].
  destruct (all _) as [values|] eqn:Hall; [| discriminate].
  intros [= <- <-]. cbv zeta.
  destruct (all_entries store _ _ Hall) as (Hvalid & Hlen).
  rewrite Hvalid. split; [reflexivity|]. split; [apply withMetadata_length|].
  rewrite Hlen. apply filter_length_le.
Qed.

(** X30.  One key whose value cannot be read, or is not empty and does not parse,
    fails the debug listing, while the administration listing answers
    without that key. *)
Theorem debug_listing_fails_where_listing_skips (kv : KVNamespace) (keys : list str)
  (name : str) (e : exn) :
  kv_list kv (lit "doc:") = Ok keys ->
  In name keys ->
  includes name (lit ":content") = false ->
  (kv_get kv name = Err e \/
   exists text, kv_get kv name = Ok (Some text) /\ text <> [] /\ JSON_parse text = Err e) ->
  debugDocuments Json (Some kv) JSON_parse = Failed /\
  exists documents,
    listDocuments Json (Some kv) JSON_parse = Listed (length documents) documents /\
    ~ In name (map fst documents).
Proof.
  intros Hlist Hin Hmeta Hbad. split.
  - unfold debugDocuments. rewrite Hlist.
    assert (Hnames : In name (filter isMetadataKey keys)).
    { apply filter_In. split; [exact Hin|]. unfold isMetadataKey. rewrite Hmeta. reflexivity. }
    assert (Hentry : exists e', debugEntry Json JSON_parse kv name = Err e').
    { unfold debugEntry. destruct Hbad as [-> | (text & -> & Hne & ->)].
      - exists e. reflexivity.
      - destruct text; [contradiction|]. exists e. reflexivity. }
    destruct Hentry as (e' & Hentry).
    revert Hnames. generalize (filter isMetadataKey keys) as names.
    induction names as [|n names IH]; intros Hn; [contradiction|].
    cbn [map all]. destruct Hn as [-> | Hn].
    + rewrite Hentry. reflexivity.
    + destruct (debugEntry Json JSON_parse kv n); [| reflexivity].
      specialize (IH Hn). destruct (all _); [discriminate IH | reflexivity].
  - destruct (listing_documents kv keys Hlist) as (documents & Hrun & _ & Hdocs).
    exists documents. split; [exact Hrun|].
    intros Hname. apply in_map_iff in Hname. destruct Hname as ([k v] & Hk & Hd).
    cbn [fst] in Hk. subst k. apply Hdocs in Hd.
    destruct Hd as (_ & _ & text & Hget & Hne & Hparse).
    destruct Hbad as [Hbad | (text' & Hget' & _ & Hparse')].
    + rewrite Hbad in Hget. discriminate Hget.
    + rewrite Hget' in Hget. injection Hget as ->. rewrite Hparse' in Hparse.
      discriminate Hparse.
Qed.

End Listings.

Lemma listing_skips_bad_entries_witness :
  exists documents,
    Listing.listDocuments str (Some Listing.sampleStore) Listing.sampleParse
    = Listing.Listed (length documents) documents /\
    Run.subseq (map fst documents) Listing.sampleKeys /\
    forall name metadata,
      In (name, metadata) documents <->
      In name Listing.sampleKeys /\ includes name (lit ":content") = false /\
      exists text, kv_get Listing.sampleStore name = Ok (Some text) /\ text <> [] /\
                   Listing.sampleParse text = Ok (Listing.Value metadata).
Proof.
  assert (H : kv_list Listing.sampleStore (lit "doc:") = Ok Listing.sampleKeys)
    by (vm_compute; reflexivity).
  exact (listing_skips_bad_entries str Listing.sampleParse Listing.sampleStore
           Listing.sampleKeys H).
Defined.

Lemma debug_listing_extends_witness :
  Listing.listDocuments str (Some Listing.cleanStore) Listing.sampleParse
  = Listing.Listed (length (Listing.withMetadata Listing.cleanListing))
      (Listing.withMetadata Listing.cleanListing) /\
  length (Listing.withMetadata Listing.cleanListing) <= length Listing.cleanListing /\
  length Listing.cleanListing <= 3.
Proof.
  assert (H : Listing.debugDocuments str (Some Listing.cleanStore) Listing.sampleParse
              = Listing.Debugged 3 Listing.cleanListing)
    by (vm_compute; reflexivity).
  exact (debug_listing_extends str Listing.sampleParse (Some Listing.cleanStore) 3
           Listing.cleanListing H).
Defined.

Lemma debug_listing_fails_where_listing_skips_witness :
  Listing.debugDocuments str (Some Listing.sampleStore) Listing.sampleParse
  = Listing.Failed /\
  exists documents,
    Listing.listDocuments str (Some Listing.sampleStore) Listing.sampleParse
    = Listing.Listed (length documents) documents /\
    ~ In (lit "doc:d2") (map fst documents).
Proof.
  assert (H1 : kv_list Listing.sampleStore (lit "doc:") = Ok Listing.sampleKeys)
    by (vm_compute; reflexivity).
  assert (H2 : In (lit "doc:d2") Listing.sampleKeys)
    by (right; right; left; reflexivity).
  assert (H3 : includes (lit "doc:d2") (lit ":content") = false)
    by (vm_compute; reflexivity).
  assert (H4 : kv_get Listing.sampleStore (lit "doc:d2") = Err syntaxError \/
               exists text, kv_get Listing.sampleStore (lit "doc:d2") = Ok (Some text) /\
                            text <> [] /\ Listing.sampleParse text = Err syntaxError).
  { right. exists (lit "{" ++ Fixtures.quoted (lit "title") ++ lit ":").
    split; [vm_compute; reflexivity|].
    split; [discriminate | vm_compute; reflexivity]. }
  exact (debug_listing_fails_where_listing_skips str Listing.sampleParse
           Listing.sampleStore Listing.sampleKeys (lit "doc:d2") syntaxError H1 H2 H3 H4).
Defined.
